(** * Equipment selection under a budget: [src/docs/preparation.py]

    A shallow embedding of the class [EquipmentOptimizationModel]: the two
    catalog dictionaries, [calculate_annual_cost],
    [calculate_efficiency_score], [optimize_equipment_selection],
    [get_fallback_solution] and [generate_cost_breakdown].

    Numbers.  Python [int] values (catalog costs, lifespans, quantity bounds,
    quantities of a plan) are [Z].  Python [float] values are read twice.

    - The exact reading: a float is the rational it would be without
      rounding, [Q], and equalities between figures are stated with [==].
      This is the reading of the optimizer: the program it hands to the
      solver is built from the costs of one unit at 100 usage hours and
      from efficiency_gain x 5000 and x 10000, all of them whole numbers
      that binary64 computes exactly, as is proved below.
      The top-level definitions of the calculator, the scorer and the
      analyzer are in this reading.

    - The binary64 reading, module [Binary64]: a float is a double
      ([Num.float]), every [+], [*] and [/] rounds to the nearest double
      with ties to even and overflows to an infinity, and an [int] that
      meets a [float] is converted first, which raises [OverflowError]
      when the int is out of the range of a double.  This is the reading
      in which [calculate_annual_cost], [calculate_efficiency_score] and
      [generate_cost_breakdown] are stated on arbitrary quantities and
      usage hours.  The sign of a zero is not kept; [==] does not see it.

    Dictionaries.  A Python [dict] is an association list in insertion order
    with pairwise distinct keys ([is_dict]); [d[k] = v] is [dict_setitem],
    [d[k]] is [dict_getitem] and raises [KeyError] on a missing key.

    Exceptions.  A function that can raise returns a [result]; the
    exceptions are the Python ones the code can raise.  The specification's
    [UnknownItem] is Python's [KeyError].

    The solver.  [scipy.optimize.linprog] is outside the repository: it is a
    [Variable] of the section, and what is assumed of it is written as an
    explicit hypothesis of each theorem that needs it.

    [plot_cost_analysis] and the script under [__main__] draw with
    matplotlib and print; they are not modelled. *)

From Stdlib Require Import List String ZArith QArith Qround Qabs Qpower.
From Stdlib Require Import Qreduction Lia Lqa Bool.
From Stdlib Require Qcanon Floats Uint63.
Import ListNotations.

Local Open Scope Q_scope.

(* ================================================================== *)
(** ** Python prelude *)
(* ================================================================== *)

Module Py.

Inductive exn : Type :=
| KeyError (key : string)
| IndexError
| ZeroDivisionError
| OverflowError.

Inductive result (A : Type) : Type :=
| Ok (a : A)
| Raise (e : exn).
Arguments Ok {A} a.
Arguments Raise {A} e.

Definition bind {A B : Type} (m : result A) (k : A -> result B) : result B :=
  match m with
  | Ok a => k a
  | Raise e => Raise e
  end.

Definition raises {A : Type} (m : result A) : Prop :=
  exists e, m = Raise e.

Definition returns {A : Type} (m : result A) : Prop :=
  exists a, m = Ok a.

(** A [for] loop over [items] that threads the loop's variables [s]. *)
Fixpoint for_each {A S : Type} (items : list A) (body : A -> S -> result S)
         (s : S) : result S :=
  match items with
  | [] => Ok s
  | a :: rest => bind (body a s) (for_each rest body)
  end.

(** A list comprehension [[f a for a in items]]. *)
Fixpoint comprehension {A B : Type} (f : A -> result B) (items : list A)
  : result (list B) :=
  match items with
  | [] => Ok []
  | a :: rest =>
      bind (f a) (fun b => bind (comprehension f rest) (fun bs => Ok (b :: bs)))
  end.

(** *** dict *)

Abbreviation dict V := (list (string * V)) (only parsing).

Definition keys {V : Type} (d : dict V) : list string := map fst d.

Definition is_dict {V : Type} (d : dict V) : Prop := NoDup (keys d).

Fixpoint find {V : Type} (k : string) (d : dict V) : option V :=
  match d with
  | [] => None
  | (k', v) :: rest => if String.eqb k k' then Some v else find k rest
  end.

(** [k in d] *)
Definition mem {V : Type} (k : string) (d : dict V) : bool :=
  match find k d with Some _ => true | None => false end.

(** [d[k]] *)
Definition dict_getitem {V : Type} (k : string) (d : dict V) : result V :=
  match find k d with
  | Some v => Ok v
  | None => Raise (KeyError k)
  end.

(** [d.get(k, default)] *)
Definition get {V : Type} (k : string) (default : V) (d : dict V) : V :=
  match find k d with
  | Some v => v
  | None => default
  end.

(** [d[k] = v]: overwrite in place, or append a new key at the end. *)
Fixpoint dict_setitem {V : Type} (k : string) (v : V) (d : dict V) : dict V :=
  match d with
  | [] => [(k, v)]
  | (k', v') :: rest =>
      if String.eqb k k' then (k', v) :: rest
      else (k', v') :: dict_setitem k v rest
  end.

(** [{**d1, **d2}] *)
Definition merge {V : Type} (d1 d2 : dict V) : dict V :=
  fold_left (fun d kv => dict_setitem (fst kv) (snd kv) d) d2 d1.

(** *** list indexing with a non-negative index *)

Definition list_getitem {A : Type} (l : list A) (i : nat) : result A :=
  match nth_error l i with
  | Some a => Ok a
  | None => Raise IndexError
  end.

(** *** numbers *)

(** [a / b] on two ints. *)
Definition true_div (a b : Z) : result Q :=
  if (b =? 0)%Z then Raise ZeroDivisionError
  else Ok (inject_Z a / inject_Z b).

(** [x < y] and [x > y] *)
Definition lt (x y : Q) : bool := negb (Qle_bool y x).
Definition gt (x y : Q) : bool := lt y x.

(** [int(round(x))]: the nearest integer, a tie going to the even one. *)
Definition round (x : Q) : Z :=
  let f := Qfloor x in
  let r := x - inject_Z f in
  if lt r (1 # 2) then f
  else if lt (1 # 2) r then (f + 1)%Z
  else if Z.even f then f else (f + 1)%Z.

End Py.

Import Py.

Notation "x <- m ;; k" := (bind m (fun x => k))
  (at level 61, m at next level, right associativity).

(* ================================================================== *)
(** ** The catalog: [__init__] *)
(* ================================================================== *)

(** One entry of [control_equipment] or [rescue_equipment]. *)
Record Equipment : Type := mkEquipment {
  name : string;
  acquisition_cost : Z;
  maintenance_cost : Z;
  readiness_cost : Z;
  usage_cost_per_hour : Z;
  efficiency_gain : Q;
  response_time_reduction : Q;
  lifespan : Z;
  quantity_min : Z;
  quantity_max : Z
}.

Definition control_equipment : dict Equipment :=
  [ ("backup_drone"%string,
     {| name := "备用无人机";
        acquisition_cost := 30000;
        maintenance_cost := 4500;
        readiness_cost := 2000;
        usage_cost_per_hour := 500;
        efficiency_gain := 0.85;
        response_time_reduction := 0.7;
        lifespan := 3;
        quantity_min := 1;
        quantity_max := 5 |});
    ("thermal_camera"%string,
     {| name := "热成像相机";
        acquisition_cost := 50000;
        maintenance_cost := 2500;
        readiness_cost := 1000;
        usage_cost_per_hour := 100;
        efficiency_gain := 0.65;
        response_time_reduction := 0.3;
        lifespan := 5;
        quantity_min := 0;
        quantity_max := 3 |});
    ("gps_tracker"%string,
     {| name := "GPS追踪器";
        acquisition_cost := 2000;
        maintenance_cost := 300;
        readiness_cost := 200;
        usage_cost_per_hour := 50;
        efficiency_gain := 0.75;
        response_time_reduction := 0.6;
        lifespan := 2;
        quantity_min := 2;
        quantity_max := 10 |});
    ("satellite_comm"%string,
     {| name := "卫星通信设备";
        acquisition_cost := 15000;
        maintenance_cost := 3000;
        readiness_cost := 1500;
        usage_cost_per_hour := 200;
        efficiency_gain := 0.55;
        response_time_reduction := 0.4;
        lifespan := 4;
        quantity_min := 1;
        quantity_max := 3 |}) ].

Definition rescue_equipment : dict Equipment :=
  [ ("rf_detector"%string,
     {| name := "射频信号探测器";
        acquisition_cost := 20000;
        maintenance_cost := 1000;
        readiness_cost := 800;
        usage_cost_per_hour := 150;
        efficiency_gain := 0.60;
        response_time_reduction := 0.5;
        lifespan := 4;
        quantity_min := 1;
        quantity_max := 4 |});
    ("portable_gps"%string,
     {| name := "便携式GPS导航器";
        acquisition_cost := 3000;
        maintenance_cost := 300;
        readiness_cost := 200;
        usage_cost_per_hour := 50;
        efficiency_gain := 0.45;
        response_time_reduction := 0.35;
        lifespan := 3;
        quantity_min := 3;
        quantity_max := 8 |});
    ("offroad_vehicle"%string,
     {| name := "越野车辆";
        acquisition_cost := 300000;
        maintenance_cost := 30000;
        readiness_cost := 10000;
        usage_cost_per_hour := 500;
        efficiency_gain := 0.70;
        response_time_reduction := 0.65;
        lifespan := 8;
        quantity_min := 0;
        quantity_max := 2 |}) ].

(** The lookup the three methods repeat:
    [if t in self.control_equipment: eq = self.control_equipment[t]
     else: eq = self.rescue_equipment[t]]. *)
Definition lookup_equipment (equipment_type : string) : result Equipment :=
  if mem equipment_type control_equipment
  then dict_getitem equipment_type control_equipment
  else dict_getitem equipment_type rescue_equipment.

(** A key of the catalog: of either group. *)
Definition in_catalog (k : string) : Prop :=
  mem k control_equipment = true \/ mem k rescue_equipment = true.

(* ================================================================== *)
(** ** [calculate_annual_cost], in the exact reading *)
(* ================================================================== *)

(** The dictionary [calculate_annual_cost] returns. *)
Record CostBreakdown : Type := mkCostBreakdown {
  acquisition : Q;
  maintenance : Q;
  readiness : Q;
  usage : Q;
  total : Q
}.

(** The default of the parameter [usage_hours]. *)
Definition default_usage_hours : Q := 100.

Definition calculate_annual_cost (equipment_type : string) (quantity : Z)
           (usage_hours : Q) : result CostBreakdown :=
  eq <- lookup_equipment equipment_type ;;
  annual_acquisition <- true_div (acquisition_cost eq) (lifespan eq) ;;
  let annual_maintenance := inject_Z (maintenance_cost eq) in
  let annual_readiness := inject_Z (readiness_cost eq) in
  let annual_usage := inject_Z (usage_cost_per_hour eq) * usage_hours in
  let total_annual :=
    (annual_acquisition + annual_maintenance +
     annual_readiness + annual_usage) * inject_Z quantity in
  Ok {| acquisition := annual_acquisition * inject_Z quantity;
        maintenance := annual_maintenance * inject_Z quantity;
        readiness := annual_readiness * inject_Z quantity;
        usage := annual_usage * inject_Z quantity;
        total := total_annual |}.

(** The cost of one unit at the default usage hours:
    [self.calculate_annual_cost(eq, 1)['total']]. *)
Definition unit_total (eq : string) : result Q :=
  cost <- calculate_annual_cost eq 1 default_usage_hours ;;
  Ok (total cost).

(* ================================================================== *)
(** ** [calculate_efficiency_score], in the exact reading *)
(* ================================================================== *)

(** The dictionary [calculate_efficiency_score] returns. *)
Record EfficiencyMetrics : Type := mkEfficiencyMetrics {
  efficiency_score : Q;
  response_improvement : Q;
  overall_score : Q
}.

(** The body of the loop: the pair is
    [(total_efficiency, total_response_reduction)]. *)
Definition score_step (item : string * Z) (totals : Q * Q) : result (Q * Q) :=
  let '(eq_type, quantity) := item in
  let '(total_efficiency, total_response_reduction) := totals in
  eq <- lookup_equipment eq_type ;;
  Ok (total_efficiency + efficiency_gain eq * inject_Z quantity,
      total_response_reduction + response_time_reduction eq * inject_Z quantity).

(** [usage_hours] is a parameter the body never reads. *)
Definition calculate_efficiency_score (equipment_config : dict Z)
           (usage_hours : Q) : result EfficiencyMetrics :=
  totals <- for_each equipment_config score_step (0, 0) ;;
  let '(total_efficiency, total_response_reduction) := totals in
  Ok {| efficiency_score := total_efficiency;
        response_improvement := total_response_reduction;
        overall_score :=
          total_efficiency * 0.6 + total_response_reduction * 0.4 |}.

(* ================================================================== *)
(** ** [get_fallback_solution] *)
(* ================================================================== *)

Definition get_fallback_solution (budget : Q) : dict Z :=
  if lt budget 100000 then
    [("backup_drone"%string, 2%Z); ("gps_tracker"%string, 5%Z);
     ("portable_gps"%string, 4%Z)]
  else if lt budget 300000 then
    [("backup_drone"%string, 3%Z); ("gps_tracker"%string, 8%Z);
     ("thermal_camera"%string, 1%Z); ("satellite_comm"%string, 1%Z);
     ("rf_detector"%string, 2%Z); ("portable_gps"%string, 6%Z)]
  else
    [("backup_drone"%string, 4%Z); ("gps_tracker"%string, 10%Z);
     ("thermal_camera"%string, 2%Z); ("satellite_comm"%string, 2%Z);
     ("rf_detector"%string, 3%Z); ("portable_gps"%string, 8%Z);
     ("offroad_vehicle"%string, 1%Z)].

(* ================================================================== *)
(** ** [optimize_equipment_selection] *)
(* ================================================================== *)

(** What the code reads of [linprog]'s [OptimizeResult]. *)
Record OptimizeResult : Type := mkOptimizeResult {
  success : bool;
  x : list Q
}.

(** [all_equipment = {**self.control_equipment, **self.rescue_equipment}] *)
Definition all_equipment : dict Equipment :=
  merge control_equipment rescue_equipment.

(** [equipment_list = list(all_equipment.keys())] *)
Definition equipment_list : list string := keys all_equipment.

(** The default of the parameter [priority]. *)
Definition default_priority : string := "balanced".

(** The objective [c]: the [if priority == ...] chain. *)
Definition objective (priority : string) : result (list Q) :=
  if String.eqb priority "cost" then
    comprehension unit_total equipment_list
  else if String.eqb priority "efficiency" then
    comprehension
      (fun eq =>
         e <- dict_getitem eq all_equipment ;;
         Ok (- efficiency_gain e * 10000))
      equipment_list
  else
    comprehension
      (fun eq =>
         cost <- unit_total eq ;;
         e <- dict_getitem eq all_equipment ;;
         Ok (cost - efficiency_gain e * 5000))
      equipment_list.

(** The one row of [A_ub]. *)
Definition budget_row : result (list Q) :=
  comprehension unit_total equipment_list.

(** The loop that fills [bounds]. *)
Definition variable_bounds : result (list (Z * Z)) :=
  for_each equipment_list
    (fun eq bounds =>
       e_min <- dict_getitem eq all_equipment ;;
       e_max <- dict_getitem eq all_equipment ;;
       Ok (bounds ++ [(quantity_min e_min, quantity_max e_max)]))
    [].

(** The dictionary comprehension over [range(len(equipment_list))]:
    the filter reads [result.x[i]], the value is [int(round(result.x[i]))]. *)
Definition quantities_of (solution : list Q) : result (dict Z) :=
  for_each (seq 0 (List.length equipment_list))
    (fun i quantities =>
       xi <- list_getitem solution i ;;
       if gt xi 0 then
         key <- list_getitem equipment_list i ;;
         Ok (dict_setitem key (round xi) quantities)
       else Ok quantities)
    [].

(** The type of [linprog] as the code calls it: [c], [A_ub], [b_ub] and
    [bounds]. *)
Definition Solver : Type :=
  list Q -> list (list Q) -> list Q -> list (Z * Z) -> OptimizeResult.

Section Optimizer.

(** [linprog(c, A_ub=..., b_ub=..., bounds=..., method='highs',
    integrality=1)]. *)
Variable linprog : Solver.

(** The call of the solver, with the arguments the code builds. *)
Definition solve (budget_constraint : Q) (priority : string)
  : result OptimizeResult :=
  c <- objective priority ;;
  row <- budget_row ;;
  let A_ub := [row] in
  let b_ub := [budget_constraint] in
  bounds <- variable_bounds ;;
  Ok (linprog c A_ub b_ub bounds).

Definition optimize_equipment_selection (budget_constraint : Q)
           (priority : string) : result (dict Z) :=
  result <- solve budget_constraint priority ;;
  if success result then quantities_of (x result)
  else Ok (get_fallback_solution budget_constraint).

End Optimizer.

(* ================================================================== *)
(** ** [generate_cost_breakdown], in the exact reading *)
(* ================================================================== *)

(** The dictionary [generate_cost_breakdown] returns. *)
Record Analysis : Type := mkAnalysis {
  annual_breakdown : dict CostBreakdown;
  total_annual_cost : Q;
  total_5year_cost : Q;
  efficiency_metrics : EfficiencyMetrics
}.

(** The default of the parameter [years]. *)
Definition default_years : Q := 5.

(** The body of the loop: the pair is [(cost_data, total_annual_cost)]. *)
Definition breakdown_step (item : string * Z)
           (state : dict CostBreakdown * Q)
  : result (dict CostBreakdown * Q) :=
  let '(eq_type, quantity) := item in
  let '(cost_data, running_total) := state in
  if (quantity >? 0)%Z then
    cost <- calculate_annual_cost eq_type quantity default_usage_hours ;;
    let cost_data := dict_setitem eq_type cost cost_data in
    entry <- dict_getitem eq_type cost_data ;;
    Ok (cost_data, running_total + total entry)
  else Ok (cost_data, running_total).

Definition generate_cost_breakdown (equipment_config : dict Z) (years : Q)
  : result Analysis :=
  state <- for_each equipment_config breakdown_step ([], 0) ;;
  let '(cost_data, running_total) := state in
  let total_cost_5years := running_total * years in
  metrics <- calculate_efficiency_score equipment_config default_usage_hours ;;
  Ok {| annual_breakdown := cost_data;
        total_annual_cost := running_total;
        total_5year_cost := total_cost_5years;
        efficiency_metrics := metrics |}.

(* ================================================================== *)
(** ** What a plan is measured by *)
(* ================================================================== *)

(** The quantity a plan gives to a key: an absent key counts as 0. *)
Definition quantity_of (plan : dict Z) (k : string) : Z := get k 0%Z plan.

(** [sum(a[i] * b[i])]: the left-hand side of a row of [A_ub]. *)
Fixpoint dot (a b : list Q) : Q :=
  match a, b with
  | ai :: a', bi :: b' => ai * bi + dot a' b'
  | _, _ => 0
  end.

(** Every item of the catalog gets a quantity between its [quantity_min]
    and its [quantity_max]. *)
Definition within_bounds (plan : dict Z) : Prop :=
  Forall (fun item =>
            (quantity_min (snd item) <= quantity_of plan (fst item)
             <= quantity_max (snd item))%Z)
         all_equipment.

(** Every key the plan holds is given a quantity within its item's bounds. *)
Definition present_within_bounds (plan : dict Z) : Prop :=
  Forall (fun entry =>
            exists e, find (fst entry) all_equipment = Some e /\
                      (quantity_min e <= snd entry <= quantity_max e)%Z)
         plan.

(** The plan as a vector over [equipment_list]. *)
Definition plan_vector (plan : dict Z) : list Q :=
  map (fun k => inject_Z (quantity_of plan k)) equipment_list.

(** The total annual cost of a plan is at most [budget]: the row of [A_ub]
    applied to the plan. *)
Definition costs_at_most (plan : dict Z) (budget : Q) : Prop :=
  exists row, budget_row = Ok row /\ dot row (plan_vector plan) <= budget.

(* ================================================================== *)
(** ** The contract of the solver, and two test doubles *)
(* ================================================================== *)

(** [x] solves the integer program: it is within [bounds] (and as long),
    integral, and satisfies every row [A_ub[j] . x <= b_ub[j]]. *)
Definition lp_solution (A_ub : list (list Q)) (b_ub : list Q)
           (bounds : list (Z * Z)) (sol : list Q) : Prop :=
  Forall2 (fun bd xi => inject_Z (fst bd) <= xi <= inject_Z (snd bd)) bounds sol
  /\ Forall (fun xi => exists z : Z, xi == inject_Z z) sol
  /\ Forall (fun rb => dot (fst rb) sol <= snd rb) (combine A_ub b_ub).

(** A solver that reports success only with a solution. *)
Definition solver_sound (linprog : Solver) : Prop :=
  forall c A_ub b_ub bounds,
    success (linprog c A_ub b_ub bounds) = true ->
    lp_solution A_ub b_ub bounds (x (linprog c A_ub b_ub bounds)).

(** A solver whose solution has one entry per variable. *)
Definition solver_shaped (linprog : Solver) : Prop :=
  forall c A_ub b_ub bounds,
    success (linprog c A_ub b_ub bounds) = true ->
    List.length (x (linprog c A_ub b_ub bounds)) = List.length bounds.

(** Test double: the solver always reports failure. *)
Definition linprog_failing : Solver :=
  fun c A_ub b_ub bounds => {| success := false; x := [] |}.

(** The integers from [lo] to [hi], and the integer points of the box of
    [bounds]. *)
Definition range (lo hi : Z) : list Z :=
  map (fun i => (lo + Z.of_nat i)%Z) (seq 0 (Z.to_nat (hi - lo + 1))).

Fixpoint box (bounds : list (Z * Z)) : list (list Z) :=
  match bounds with
  | [] => [[]]
  | (lo, hi) :: rest =>
      flat_map (fun v => map (cons v) (box rest)) (range lo hi)
  end.

Definition rows_hold (A_ub : list (list Q)) (b_ub : list Q) (sol : list Q)
  : bool :=
  forallb (fun rb => Qle_bool (dot (fst rb) sol) (snd rb)) (combine A_ub b_ub).

Fixpoint argmin (c : list Q) (best : list Q) (candidates : list (list Q))
  : list Q :=
  match candidates with
  | [] => best
  | cand :: rest =>
      if lt (dot c cand) (dot c best) then argmin c cand rest
      else argmin c best rest
  end.

(** Test double: exhaustive search of the box of [bounds], keeping the
    first point of least objective among those that satisfy every row. *)
Definition linprog_exhaustive : Solver :=
  fun c A_ub b_ub bounds =>
  match filter (rows_hold A_ub b_ub) (map (map inject_Z) (box bounds)) with
  | [] => {| success := false; x := [] |}
  | first :: others => {| success := true; x := argmin c first others |}
  end.

(* ================================================================== *)
(** ** Closed forms the theorems compare the code with *)
(* ================================================================== *)

(** The annual cost of one unit of [e] at [usage_hours]: amortized
    acquisition, maintenance, readiness and usage. *)
Definition annual_unit_cost (e : Equipment) (usage_hours : Q) : Q :=
  inject_Z (acquisition_cost e) / inject_Z (lifespan e)
  + inject_Z (maintenance_cost e)
  + inject_Z (readiness_cost e)
  + inject_Z (usage_cost_per_hour e) * usage_hours.

(** The sum over the entries of a configuration of [attr] times quantity. *)
Fixpoint weighted_sum (attr : Equipment -> Q) (config : dict Z) : Q :=
  match config with
  | [] => 0
  | (k, q) :: rest =>
      match find k all_equipment with
      | Some e => attr e * inject_Z q + weighted_sum attr rest
      | None => weighted_sum attr rest
      end
  end.

(** The entries of a configuration with a quantity above 0. *)
Definition positive_entries (config : dict Z) : dict Z :=
  filter (fun entry => (snd entry >? 0)%Z) config.

(** Every key of a configuration is a key of the catalog. *)
Definition valid_config (config : dict Z) : Prop :=
  forall k, In k (keys config) -> in_catalog k.

(** The row of [A_ub] in closed form: one unit cost per item. *)
Definition unit_costs : list Q :=
  map (fun item => annual_unit_cost (snd item) default_usage_hours)
      all_equipment.

(** [bounds] in closed form: one pair per item. *)
Definition bounds_list : list (Z * Z) :=
  map (fun item => (quantity_min (snd item), quantity_max (snd item)))
      all_equipment.

(** One turn of the comprehension of [quantities_of], on the key and the
    entry of the solution at one index. *)
Definition pick_entry (quantities : dict Z) (kx : string * Q) : dict Z :=
  if gt (snd kx) 0 then dict_setitem (fst kx) (round (snd kx)) quantities
  else quantities.

(** The body of the loop of [quantities_of], over any list of keys. *)
Definition pick_at (ks : list string) (solution : list Q) (i : nat)
           (quantities : dict Z) : result (dict Z) :=
  xi <- list_getitem solution i ;;
  if gt xi 0 then
    key <- list_getitem ks i ;;
    Ok (dict_setitem key (round xi) quantities)
  else Ok quantities.

(* ================================================================== *)
(** ** More of the solver's contract, and more closed forms *)
(* ================================================================== *)

(** A solver that reports success whenever the program has a solution. *)
Definition solver_complete (linprog : Solver) : Prop :=
  forall c A_ub b_ub bounds sol,
    lp_solution A_ub b_ub bounds sol ->
    success (linprog c A_ub b_ub bounds) = true.

(** A solver whose solution has the least objective among the solutions. *)
Definition solver_optimal (linprog : Solver) : Prop :=
  forall c A_ub b_ub bounds,
    success (linprog c A_ub b_ub bounds) = true ->
    forall sol,
      lp_solution A_ub b_ub bounds sol ->
      dot c (x (linprog c A_ub b_ub bounds)) <= dot c sol.

(** The vector of the minimum quantities. *)
Definition lower_bounds : list Q :=
  map (fun bd => inject_Z (fst bd)) bounds_list.

(** The entries [quantities_of] keeps of a solution, as a comprehension. *)
Definition picked (ks : list string) (solution : list Q) : dict Z :=
  map (fun kx => (fst kx, round (snd kx)))
      (filter (fun kx => gt (snd kx) 0) (combine ks solution)).

(** The sum over the entries of a plan of unit cost times quantity. *)
Fixpoint entries_cost (plan : dict Z) : Q :=
  match plan with
  | [] => 0
  | (k, q) :: rest =>
      match find k all_equipment with
      | Some e =>
          annual_unit_cost e default_usage_hours * inject_Z q
          + entries_cost rest
      | None => entries_cost rest
      end
  end.

(* ================================================================== *)
(** ** Python numbers: [int], and [float] as binary64 *)
(* ================================================================== *)

Module Num.

(** A double: a rational it holds exactly, an infinity or a NaN.  The sign
    of a zero is not kept: [==], [<] and the arithmetic of the code do not
    see it. *)
Inductive float : Type :=
| Finite (q : Q)
| Infinity (negative : bool)
| NaN.

(** [2 ** k] *)
Definition pow2 (k : Z) : Q :=
  if (0 <=? k)%Z then inject_Z (2 ^ k) else / inject_Z (2 ^ (- k)).

(** The binary exponent of a rational above 0: the [e] with
    [2 ** e <= x < 2 ** (e + 1)]. *)
Definition ilog2 (x : Q) : Z :=
  let k := (Z.log2 (Qnum x) - Z.log2 (Zpos (Qden x)))%Z in
  if Qle_bool (pow2 k) x then k else (k - 1)%Z.

(** The exponent of the last place of the doubles around [x]: 53 bits of
    precision, and no finer than the subnormal step [2 ** -1074]. *)
Definition ulp_exponent (x : Q) : Z := Z.max (ilog2 (Qabs x) - 52) (-1074).

(** Rounding to the nearest double, a tie going to the even significand;
    a result of [2 ** 1024] or more in magnitude is an infinity. *)
Definition rnd (x : Q) : float :=
  let x := Qred x in
  if Qeq_bool x 0 then Finite 0
  else
    let s := ulp_exponent x in
    let r := Qred (inject_Z (round (x / pow2 s)) * pow2 s) in
    if Qle_bool (pow2 1024) (Qabs r) then Infinity (negb (Qle_bool 0 x))
    else Finite r.

(** The double a decimal literal of the source denotes. *)
Definition literal (decimal : Q) : float := rnd decimal.

(** [a + b] on two floats: it never raises. *)
Definition fadd (a b : float) : float :=
  match a, b with
  | NaN, _ | _, NaN => NaN
  | Infinity s, Infinity t => if Bool.eqb s t then Infinity s else NaN
  | Infinity s, Finite _ => Infinity s
  | Finite _, Infinity t => Infinity t
  | Finite x, Finite y => rnd (x + y)
  end.

(** [a * b] on two floats: it never raises. *)
Definition fmul (a b : float) : float :=
  match a, b with
  | NaN, _ | _, NaN => NaN
  | Infinity s, Infinity t => Infinity (xorb s t)
  | Infinity s, Finite y =>
      if Qeq_bool y 0 then NaN else Infinity (xorb s (negb (Qle_bool 0 y)))
  | Finite x, Infinity t =>
      if Qeq_bool x 0 then NaN else Infinity (xorb (negb (Qle_bool 0 x)) t)
  | Finite x, Finite y => rnd (x * y)
  end.

(** [-a] on a float: it is exact. *)
Definition fneg (a : float) : float :=
  match a with
  | Finite x => Finite (- x)
  | Infinity s => Infinity (negb s)
  | NaN => NaN
  end.

(** A number of the code: an [int] of any size or a [float]. *)
Inductive number : Type :=
| PyInt (z : Z)
| PyFloat (f : float).

(** [float(z)]: the nearest double, or [OverflowError] when that is not
    finite. *)
Definition float_of_int (z : Z) : result float :=
  match rnd (inject_Z z) with
  | Finite q => Ok (Finite q)
  | _ => Raise OverflowError
  end.

(** The conversion an [int] goes through when the other operand is a
    [float]. *)
Definition to_float (n : number) : result float :=
  match n with
  | PyInt z => float_of_int z
  | PyFloat f => Ok f
  end.

(** [a + b] *)
Definition add (a b : number) : result number :=
  match a, b with
  | PyInt x, PyInt y => Ok (PyInt (x + y))
  | _, _ =>
      x <- to_float a ;;
      y <- to_float b ;;
      Ok (PyFloat (fadd x y))
  end.

(** [a * b] *)
Definition mul (a b : number) : result number :=
  match a, b with
  | PyInt x, PyInt y => Ok (PyInt (x * y))
  | _, _ =>
      x <- to_float a ;;
      y <- to_float b ;;
      Ok (PyFloat (fmul x y))
  end.

(** [-a] *)
Definition neg (a : number) : number :=
  match a with
  | PyInt z => PyInt (- z)
  | PyFloat f => PyFloat (fneg f)
  end.

(** [a - b] *)
Definition sub (a b : number) : result number :=
  match a, b with
  | PyInt x, PyInt y => Ok (PyInt (x - y))
  | _, _ =>
      x <- to_float a ;;
      y <- to_float b ;;
      Ok (PyFloat (fadd x (fneg y)))
  end.

(** [a / b] on two ints: the quotient rounded once. *)
Definition int_true_div (a b : Z) : result float :=
  if (b =? 0)%Z then Raise ZeroDivisionError
  else
    match rnd (inject_Z a / inject_Z b) with
    | Finite q => Ok (Finite q)
    | _ => Raise OverflowError
    end.

(** An [int] the theorems take as convertible to a [float]: below
    [2 ** 1023] in magnitude. *)
Definition int_in_float_range (z : Z) : Prop := (Z.abs z < 2 ^ 1023)%Z.

(** A number that is a [float], or an [int] in that range. *)
Definition in_float_range (n : number) : Prop :=
  match n with
  | PyInt z => int_in_float_range z
  | PyFloat _ => True
  end.

End Num.

(* ================================================================== *)
(** ** The calculator, the scorer and the analyzer on Python numbers *)
(* ================================================================== *)

Module Binary64.

Import Num.

(** The dictionary [calculate_annual_cost] returns. *)
Record CostBreakdown : Type := mkCostBreakdown {
  acquisition : number;
  maintenance : number;
  readiness : number;
  usage : number;
  total : number
}.

(** The default of the parameter [usage_hours]. *)
Definition default_usage_hours : number := PyInt 100.

(** [quantity] is an [int]; [usage_hours] is an [int] or a [float]. *)
Definition calculate_annual_cost (equipment_type : string) (quantity : Z)
           (usage_hours : number) : result CostBreakdown :=
  eq <- lookup_equipment equipment_type ;;
  annual_acquisition <- int_true_div (acquisition_cost eq) (lifespan eq) ;;
  let annual_maintenance := PyInt (maintenance_cost eq) in
  let annual_readiness := PyInt (readiness_cost eq) in
  annual_usage <- mul (PyInt (usage_cost_per_hour eq)) usage_hours ;;
  sum1 <- add (PyFloat annual_acquisition) annual_maintenance ;;
  sum2 <- add sum1 annual_readiness ;;
  sum3 <- add sum2 annual_usage ;;
  total_annual <- mul sum3 (PyInt quantity) ;;
  acquisition_all <- mul (PyFloat annual_acquisition) (PyInt quantity) ;;
  maintenance_all <- mul annual_maintenance (PyInt quantity) ;;
  readiness_all <- mul annual_readiness (PyInt quantity) ;;
  usage_all <- mul annual_usage (PyInt quantity) ;;
  Ok {| acquisition := acquisition_all;
        maintenance := maintenance_all;
        readiness := readiness_all;
        usage := usage_all;
        total := total_annual |}.

(** The dictionary [calculate_efficiency_score] returns. *)
Record EfficiencyMetrics : Type := mkEfficiencyMetrics {
  efficiency_score : number;
  response_improvement : number;
  overall_score : number
}.

(** The body of the loop: the pair is
    [(total_efficiency, total_response_reduction)]. *)
Definition score_step (item : string * Z) (totals : number * number)
  : result (number * number) :=
  let '(eq_type, quantity) := item in
  let '(total_efficiency, total_response_reduction) := totals in
  eq <- lookup_equipment eq_type ;;
  gained <- mul (PyFloat (literal (efficiency_gain eq))) (PyInt quantity) ;;
  total_efficiency <- add total_efficiency gained ;;
  reduced <-
    mul (PyFloat (literal (response_time_reduction eq))) (PyInt quantity) ;;
  total_response_reduction <- add total_response_reduction reduced ;;
  Ok (total_efficiency, total_response_reduction).

(** [usage_hours] is a parameter the body never reads. *)
Definition calculate_efficiency_score (equipment_config : dict Z)
           (usage_hours : number) : result EfficiencyMetrics :=
  totals <- for_each equipment_config score_step (PyInt 0, PyInt 0) ;;
  let '(total_efficiency, total_response_reduction) := totals in
  weighted_efficiency <- mul total_efficiency (PyFloat (literal 0.6)) ;;
  weighted_response <- mul total_response_reduction (PyFloat (literal 0.4)) ;;
  overall <- add weighted_efficiency weighted_response ;;
  Ok {| efficiency_score := total_efficiency;
        response_improvement := total_response_reduction;
        overall_score := overall |}.

(** The dictionary [generate_cost_breakdown] returns. *)
Record Analysis : Type := mkAnalysis {
  annual_breakdown : dict CostBreakdown;
  total_annual_cost : number;
  total_5year_cost : number;
  efficiency_metrics : EfficiencyMetrics
}.

(** The default of the parameter [years]. *)
Definition default_years : number := PyInt 5.

(** The body of the loop: the pair is [(cost_data, total_annual_cost)]. *)
Definition breakdown_step (item : string * Z)
           (state : dict CostBreakdown * number)
  : result (dict CostBreakdown * number) :=
  let '(eq_type, quantity) := item in
  let '(cost_data, running_total) := state in
  if (quantity >? 0)%Z then
    cost <- calculate_annual_cost eq_type quantity default_usage_hours ;;
    let cost_data := dict_setitem eq_type cost cost_data in
    entry <- dict_getitem eq_type cost_data ;;
    running_total <- add running_total (total entry) ;;
    Ok (cost_data, running_total)
  else Ok (cost_data, running_total).

Definition generate_cost_breakdown (equipment_config : dict Z)
           (years : number) : result Analysis :=
  state <- for_each equipment_config breakdown_step ([], PyInt 0) ;;
  let '(cost_data, running_total) := state in
  total_cost_5years <- mul running_total years ;;
  metrics <- calculate_efficiency_score equipment_config default_usage_hours ;;
  Ok {| annual_breakdown := cost_data;
        total_annual_cost := running_total;
        total_5year_cost := total_cost_5years;
        efficiency_metrics := metrics |}.

(** [self.calculate_annual_cost(eq, 1)['total']] *)
Definition unit_total (eq : string) : result number :=
  cost <- calculate_annual_cost eq 1 default_usage_hours ;;
  Ok (total cost).

(** The objective [c] as the code computes it: the [if priority == ...]
    chain, with [-gain * 10000] read as [(-gain) * 10000]. *)
Definition objective (priority : string) : result (list number) :=
  if String.eqb priority "cost" then
    comprehension unit_total equipment_list
  else if String.eqb priority "efficiency" then
    comprehension
      (fun eq =>
         e <- dict_getitem eq all_equipment ;;
         mul (neg (PyFloat (literal (efficiency_gain e)))) (PyInt 10000))
      equipment_list
  else
    comprehension
      (fun eq =>
         cost <- unit_total eq ;;
         e <- dict_getitem eq all_equipment ;;
         gain <- mul (PyFloat (literal (efficiency_gain e))) (PyInt 5000) ;;
         sub cost gain)
      equipment_list.

(** The one row of [A_ub] as the code computes it. *)
Definition budget_row : result (list number) :=
  comprehension unit_total equipment_list.

End Binary64.

(* ================================================================== *)
(** ** Ranges and closed forms for the figures on Python numbers *)
(* ================================================================== *)

(** Usage hours the theorems take: any float, or an [int] below
    [2 ** 1000] in magnitude. *)
Definition usage_hours_in_range (usage_hours : Num.number) : Prop :=
  match usage_hours with
  | Num.PyInt z => (Z.abs z < 2 ^ 1000)%Z
  | Num.PyFloat _ => True
  end.

(** Every quantity of a configuration converts to a float. *)
Definition quantities_in_range (config : dict Z) : Prop :=
  Forall (fun entry => Num.int_in_float_range (snd entry)) config.

(** The whole number [z] as a float. *)
Definition whole (z : Z) : Num.number := Num.PyFloat (Num.Finite (inject_Z z)).

(** The annual cost of one unit of [e] at a whole number of usage hours, for
    an acquisition cost the lifespan divides. *)
Definition annual_unit_cost_int (e : Equipment) (usage_hours : Z) : Z :=
  acquisition_cost e / lifespan e + maintenance_cost e + readiness_cost e
  + usage_cost_per_hour e * usage_hours.

(** The sum over the entries of a configuration of [attr] times quantity as
    binary64 computes it: the literal of [attr] and each product rounded,
    the products added in the order of the entries, each sum rounded. *)
Definition rounded_term (attr : Equipment -> Q) (entry : string * Z)
           (acc : Num.number) : result Num.number :=
  match find (fst entry) all_equipment with
  | Some e =>
      term <- Num.mul (Num.PyFloat (Num.literal (attr e)))
                      (Num.PyInt (snd entry)) ;;
      Num.add acc term
  | None => Ok acc
  end.

Definition rounded_weighted_sum (attr : Equipment -> Q) (config : dict Z)
  : result Num.number :=
  for_each config (rounded_term attr) (Num.PyInt 0).

(** The totals of a breakdown added up from 0 in the order of its entries,
    with the code's [+]. *)
Definition sum_totals (cost_data : dict Binary64.CostBreakdown)
  : result Num.number :=
  for_each cost_data
           (fun filed acc => Num.add acc (Binary64.total (snd filed)))
           (Num.PyInt 0).

(** [n == z] for a number of the code and a whole number below [2 ** 53] in
    magnitude: the int [z] or the float that holds [z]. *)
Definition equals_int (n : Num.number) (z : Z) : Prop :=
  n = Num.PyInt z \/ n = whole z.

(** The sum over the entries of a plan of unit cost times quantity, at the
    default 100 usage hours, in whole numbers. *)
Fixpoint entries_cost_int (plan : dict Z) : Z :=
  match plan with
  | [] => 0
  | (k, q) :: rest =>
      match find k all_equipment with
      | Some e => annual_unit_cost_int e 100 * q + entries_cost_int rest
      | None => entries_cost_int rest
      end
  end.

(** The unit roundoff of binary64: [2 ** -53]. *)
Definition unit_roundoff : Q := 1 # 9007199254740992.

(** The rational a number of the code holds, when it is finite. *)
Definition value_of (n : Num.number) : option Q :=
  match n with
  | Num.PyInt z => Some (inject_Z z)
  | Num.PyFloat (Num.Finite q) => Some q
  | Num.PyFloat _ => None
  end.

(** The bound on the relative error of a sum of [n] rounded products:
    [(2 n + 4) * 2 ** -53]. *)
Definition sum_error (n : nat) : Q :=
  inject_Z (2 * Z.of_nat n + 4) * unit_roundoff.

(* ================================================================== *)
(** ** The kernel's binary64 floats, read into the model *)
(* ================================================================== *)

Module Kernel.

(** A float of the kernel as a float of the model. *)
Definition of_prim (f : PrimFloat.float) : Num.float :=
  match FloatOps.Prim2SF f with
  | SpecFloat.S754_zero _ => Num.Finite 0
  | SpecFloat.S754_infinity s => Num.Infinity s
  | SpecFloat.S754_nan => Num.NaN
  | SpecFloat.S754_finite s m e =>
      Num.Finite (Qred ((if s then -1 else 1) * inject_Z (Zpos m)
                        * Num.pow2 e))
  end.

(** A whole number below [2 ** 63] in magnitude as a float of the kernel. *)
Definition prim_of_int (z : Z) : PrimFloat.float :=
  match z with
  | Z0 => PrimFloat.zero
  | Zpos p => PrimFloat.of_uint63 (Uint63.of_Z (Zpos p))
  | Zneg p => PrimFloat.opp (PrimFloat.of_uint63 (Uint63.of_Z (Zpos p)))
  end.

(** The quotient of two ints, rounded once by the kernel's division. *)
Definition prim_quotient (n d : Z) : PrimFloat.float :=
  PrimFloat.div (prim_of_int n) (prim_of_int d).

Definition same (a b : Num.float) : bool :=
  match a, b with
  | Num.Finite x, Num.Finite y => Qeq_bool x y
  | Num.Infinity s, Num.Infinity t => Bool.eqb s t
  | Num.NaN, Num.NaN => true
  | _, _ => false
  end.

(** Numerators and denominators: the decimal literals of the code, the
    usage hours and quantities the theorems name, and numbers around
    [2 ** 53] and far below 1. *)
Definition samples : list (Z * Z) :=
  [(85, 100); (7, 10); (65, 100); (3, 10); (75, 100); (6, 10); (55, 100);
   (4, 10); (5, 10); (45, 100); (35, 100); (1, 1000); (1, 3); (29, 5);
   (15000, 4); (-7, 3); (2, 1); (3, 1); (5, 1); (0, 1); (6500, 1);
   (1152921504606846976, 1); (1, 1125899906842624);
   (123456789012345678, 7); (9007199254740993, 1); (9007199254740995, 1);
   (-9007199254740993, 2); (1, 3000000000000000000)]%Z.

(** The model and the kernel round every sample to the same float, and
    multiply and add every pair of samples to the same float. *)
Definition agree : bool :=
  forallb (fun '(n, d) =>
             same (Num.rnd (n # Z.to_pos d)) (of_prim (prim_quotient n d)))
          samples
  && forallb
       (fun '(a, b) =>
          forallb
            (fun '(c, d) =>
               same (Num.fmul (Num.rnd (a # Z.to_pos b))
                              (Num.rnd (c # Z.to_pos d)))
                    (of_prim (PrimFloat.mul (prim_quotient a b)
                                            (prim_quotient c d)))
               && same (Num.fadd (Num.rnd (a # Z.to_pos b))
                                 (Num.rnd (c # Z.to_pos d)))
                       (of_prim (PrimFloat.add (prim_quotient a b)
                                               (prim_quotient c d))))
            samples)
       samples.

End Kernel.

(* ================================================================== *)
(** ** Facts about the prelude *)
(* ================================================================== *)

Lemma lt_iff (a b : Q) : lt a b = true <-> a < b.
Proof.
  unfold lt. rewrite negb_true_iff.
  split; intro H.
  - apply Qnot_le_lt. intro Hle. apply Qle_bool_iff in Hle. congruence.
  - destruct (Qle_bool b a) eqn:E; [|reflexivity].
    apply Qle_bool_iff in E. exfalso. apply (Qlt_not_le _ _ H E).
Qed.

Lemma lt_false_iff (a b : Q) : lt a b = false <-> b <= a.
Proof.
  unfold lt. rewrite negb_false_iff. apply Qle_bool_iff.
Qed.

Lemma round_integer (q : Q) (z : Z) : q == inject_Z z -> round q = z.
Proof.
  intro H. unfold round.
  rewrite (Qfloor_comp _ _ H), Qfloor_Z.
  assert (Hlt : lt (q - inject_Z z) (1 # 2) = true).
  { apply lt_iff. rewrite H. setoid_replace (inject_Z z - inject_Z z) with 0 by ring.
    reflexivity. }
  rewrite Hlt. reflexivity.
Qed.

Lemma find_In {V : Type} (k : string) (d : dict V) (v : V) :
  find k d = Some v -> In (k, v) d.
Proof.
  induction d as [|[k' v'] d IH]; simpl; [discriminate|].
  destruct (String.eqb_spec k k') as [->|Hne]; intro H.
  - inversion H. now left.
  - right. auto.
Qed.

Lemma find_None {V : Type} (k : string) (d : dict V) :
  find k d = None <-> ~ In k (keys d).
Proof.
  induction d as [|[k' v'] d IH]; simpl.
  - tauto.
  - destruct (String.eqb_spec k k') as [->|Hne].
    + split; [discriminate | intros H; exfalso; apply H; now left].
    + rewrite IH. split; intros H; [intros [E|E]; [congruence|tauto] | tauto].
Qed.

Lemma find_setitem {V : Type} (k k' : string) (v : V) (d : dict V) :
  find k (dict_setitem k' v d) = if String.eqb k k' then Some v else find k d.
Proof.
  induction d as [|[k0 v0] d IH]; simpl.
  - reflexivity.
  - destruct (String.eqb_spec k' k0) as [->|Hne]; simpl.
    + destruct (String.eqb_spec k k0); reflexivity.
    + rewrite IH. destruct (String.eqb_spec k k0) as [->|Hne'].
      * destruct (String.eqb_spec k0 k'); [congruence | reflexivity].
      * reflexivity.
Qed.

Lemma setitem_fresh {V : Type} (k : string) (v : V) (d : dict V) :
  find k d = None -> dict_setitem k v d = d ++ [(k, v)].
Proof.
  induction d as [|[k0 v0] d IH]; simpl; [reflexivity|].
  destruct (String.eqb_spec k k0) as [->|Hne]; [discriminate|].
  intro H. now rewrite IH.
Qed.

Lemma getitem_setitem {V : Type} (k : string) (v : V) (d : dict V) :
  dict_getitem k (dict_setitem k v d) = Ok v.
Proof.
  unfold dict_getitem. now rewrite find_setitem, String.eqb_refl.
Qed.

Lemma for_each_app {A S : Type} (l1 l2 : list A) (body : A -> S -> result S)
      (s : S) :
  for_each (l1 ++ l2) body s = bind (for_each l1 body s) (for_each l2 body).
Proof.
  revert s. induction l1 as [|a l1 IH]; intro s; simpl; [reflexivity|].
  destruct (body a s); simpl; auto.
Qed.

(* ================================================================== *)
(** ** Facts about the catalog *)
(* ================================================================== *)

Lemma all_equipment_eq : all_equipment = control_equipment ++ rescue_equipment.
Proof. reflexivity. Qed.

Lemma equipment_list_NoDup : NoDup equipment_list.
Proof.
  repeat constructor; simpl; intuition discriminate.
Qed.

(** The attributes of every item are in the ranges the data model states. *)
Lemma catalog_ranges :
  Forall (fun item =>
            let e := snd item in
            (0 < lifespan e)%Z /\ 0 < efficiency_gain e
            /\ 0 < response_time_reduction e
            /\ (0 <= quantity_min e <= quantity_max e)%Z)
         all_equipment.
Proof.
  repeat constructor; simpl; try lia; reflexivity.
Qed.

Lemma lookup_equipment_find (k : string) :
  lookup_equipment k =
  match find k all_equipment with
  | Some e => Ok e
  | None => Raise (KeyError k)
  end.
Proof.
  unfold lookup_equipment, mem, dict_getitem. rewrite all_equipment_eq.
  assert (Happ : forall (d1 d2 : dict Equipment),
             find k (d1 ++ d2) =
             match find k d1 with Some e => Some e | None => find k d2 end).
  { induction d1 as [|[k' v'] d1 IH]; intro d2; simpl; [reflexivity|].
    destruct (String.eqb k k'); auto. }
  rewrite Happ.
  destruct (find k control_equipment); [reflexivity|].
  destruct (find k rescue_equipment); reflexivity.
Qed.

Lemma in_catalog_find (k : string) :
  in_catalog k <-> exists e, find k all_equipment = Some e.
Proof.
  unfold in_catalog, mem. rewrite all_equipment_eq.
  assert (Happ : forall (d1 d2 : dict Equipment),
             find k (d1 ++ d2) =
             match find k d1 with Some e => Some e | None => find k d2 end).
  { induction d1 as [|[k' v'] d1 IH]; intro d2; simpl; [reflexivity|].
    destruct (String.eqb k k'); auto. }
  rewrite Happ.
  destruct (find k control_equipment) as [e|].
  - split; [eauto | now left].
  - destruct (find k rescue_equipment) as [e|].
    + split; [eauto | now right].
    + split; [intros [H|H]; discriminate | intros [e H]; discriminate].
Qed.

Lemma in_catalog_dec (k : string) : {in_catalog k} + {~ in_catalog k}.
Proof.
  destruct (find k all_equipment) as [e|] eqn:E.
  - left. apply in_catalog_find. eauto.
  - right. rewrite in_catalog_find. intros [e H]. congruence.
Qed.

Lemma lookup_in_catalog (k : string) :
  in_catalog k ->
  exists e, lookup_equipment k = Ok e /\ find k all_equipment = Some e
            /\ (0 < lifespan e)%Z /\ 0 < efficiency_gain e
            /\ 0 < response_time_reduction e.
Proof.
  intro H. apply in_catalog_find in H. destruct H as [e He].
  exists e. rewrite lookup_equipment_find, He.
  pose proof catalog_ranges as R. rewrite Forall_forall in R.
  specialize (R _ (find_In _ _ _ He)). simpl in R. tauto.
Qed.

Lemma lookup_not_in_catalog (k : string) :
  ~ in_catalog k -> lookup_equipment k = Raise (KeyError k).
Proof.
  intro H. rewrite lookup_equipment_find.
  destruct (find k all_equipment) as [e|] eqn:E; [|reflexivity].
  exfalso. apply H, in_catalog_find. eauto.
Qed.

(* ================================================================== *)
(** ** The cost calculator *)
(* ================================================================== *)


Lemma calculate_annual_cost_unknown (k : string) (q : Z) (uh : Q) :
  ~ in_catalog k -> calculate_annual_cost k q uh = Raise (KeyError k).
Proof.
  intro H. unfold calculate_annual_cost.
  now rewrite (lookup_not_in_catalog _ H).
Qed.

(** The cost of one unit of each item at 100 usage hours, in the order of
    [equipment_list]. *)
Lemma unit_costs_values :
  Forall2 Qeq unit_costs [66500; 23500; 6500; 28250; 21800; 6500; 127500].
Proof. repeat constructor. Qed.

(* ================================================================== *)
(** ** The efficiency scorer *)
(* ================================================================== *)

Lemma valid_config_cons (k : string) (q : Z) (rest : dict Z) :
  valid_config ((k, q) :: rest) <-> in_catalog k /\ valid_config rest.
Proof.
  unfold valid_config. simpl. split.
  - intro H. split; [apply H; now left | intros k' Hk'; apply H; now right].
  - intros [Hk Hr] k' [<-|Hin]; auto.
Qed.

Lemma valid_config_app (l1 l2 : dict Z) :
  valid_config (l1 ++ l2) <-> valid_config l1 /\ valid_config l2.
Proof.
  unfold valid_config, keys. split.
  - intro H. split; intros k Hk; apply H; rewrite map_app, in_app_iff; tauto.
  - intros [H1 H2] k Hk. rewrite map_app, in_app_iff in Hk. destruct Hk; auto.
Qed.



(* ================================================================== *)
(** ** The plan analyzer *)
(* ================================================================== *)




Lemma keys_app {V : Type} (d1 d2 : dict V) : keys (d1 ++ d2) = keys d1 ++ keys d2.
Proof. apply map_app. Qed.

(* ================================================================== *)
(** ** The optimizer: the program it hands to the solver *)
(* ================================================================== *)

Lemma budget_row_eq : budget_row = Ok unit_costs.
Proof. vm_compute. reflexivity. Qed.

Lemma variable_bounds_eq : variable_bounds = Ok bounds_list.
Proof. vm_compute. reflexivity. Qed.

Lemma objective_returns (priority : string) :
  exists c, objective priority = Ok c.
Proof.
  unfold objective.
  destruct (String.eqb priority "cost");
    [|destruct (String.eqb priority "efficiency")];
    eexists; vm_compute; reflexivity.
Qed.

Lemma objective_other (priority : string) :
  priority <> "cost"%string -> priority <> "efficiency"%string ->
  objective priority = objective "balanced".
Proof.
  intros H1 H2. unfold objective.
  apply String.eqb_neq in H1. apply String.eqb_neq in H2.
  rewrite H1, H2. reflexivity.
Qed.

Section OptimizerFacts.

Variable linprog : Solver.

Lemma solve_returns (budget : Q) (priority : string) :
  exists c,
    objective priority = Ok c
    /\ solve linprog budget priority
       = Ok (linprog c [unit_costs] [budget] bounds_list).
Proof.
  destruct (objective_returns priority) as [c Hc].
  exists c. split; [exact Hc|].
  unfold solve. rewrite Hc, budget_row_eq, variable_bounds_eq. reflexivity.
Qed.

Lemma optimize_failure (budget : Q) (priority : string) (r : OptimizeResult) :
  solve linprog budget priority = Ok r -> success r = false ->
  optimize_equipment_selection linprog budget priority
  = Ok (get_fallback_solution budget).
Proof.
  intros Hs Hf. unfold optimize_equipment_selection.
  rewrite Hs. cbn [bind]. rewrite Hf. reflexivity.
Qed.

Lemma optimize_success (budget : Q) (priority : string) (r : OptimizeResult) :
  solve linprog budget priority = Ok r -> success r = true ->
  optimize_equipment_selection linprog budget priority
  = quantities_of (x r).
Proof.
  intros Hs Hf. unfold optimize_equipment_selection.
  rewrite Hs. cbn [bind]. rewrite Hf. reflexivity.
Qed.

End OptimizerFacts.

(* ================================================================== *)
(** ** The optimizer: reading the solution *)
(* ================================================================== *)

Lemma skipn_nth_error {A : Type} (l : list A) (s : nat) (a : A) :
  nth_error l s = Some a -> skipn s l = a :: skipn (S s) l.
Proof.
  revert s. induction l as [|b l IH]; intros [|s] H; simpl in *; try discriminate.
  - now inversion H.
  - now apply IH.
Qed.

Lemma nth_error_defined {A : Type} (l : list A) (s : nat) :
  (s < List.length l)%nat -> exists a, nth_error l s = Some a.
Proof.
  intro H. destruct (nth_error l s) as [a|] eqn:E; [eauto|].
  apply nth_error_None in E. lia.
Qed.

(** The loop over the indices is a fold over the keys paired with the
    entries of the solution. *)
Lemma pick_loop (ks : list string) (sol : list Q) :
  List.length sol = List.length ks ->
  forall n s acc,
    (s + n = List.length ks)%nat ->
    for_each (seq s n) (pick_at ks sol) acc
    = Ok (fold_left pick_entry (combine (skipn s ks) (skipn s sol)) acc).
Proof.
  intros Hlen. induction n as [|n IH]; intros s acc Hs.
  - rewrite (skipn_all2 ks) by lia. reflexivity.
  - destruct (nth_error_defined ks s ltac:(lia)) as [k Hk].
    destruct (nth_error_defined sol s ltac:(lia)) as [xi Hx].
    rewrite (skipn_nth_error _ _ _ Hk), (skipn_nth_error _ _ _ Hx).
    cbn [seq for_each combine fold_left].
    unfold pick_at at 1, list_getitem. rewrite Hx, Hk. cbn [bind].
    unfold pick_entry at 2. cbn [fst snd].
    destruct (gt xi 0); cbn [bind]; apply IH; lia.
Qed.

Lemma quantities_of_fold (sol : list Q) :
  List.length sol = List.length equipment_list ->
  quantities_of sol
  = Ok (fold_left pick_entry (combine equipment_list sol) []).
Proof.
  intro Hlen. unfold quantities_of.
  change (for_each (seq 0 (List.length equipment_list))
                   (pick_at equipment_list sol) []
          = Ok (fold_left pick_entry (combine equipment_list sol) [])).
  rewrite (pick_loop equipment_list sol Hlen _ 0%nat [] eq_refl).
  reflexivity.
Qed.

Lemma find_pick_other (ks : list string) :
  forall sol acc k,
    ~ In k ks ->
    find k (fold_left pick_entry (combine ks sol) acc) = find k acc.
Proof.
  induction ks as [|k0 ks IH]; intros sol acc k Hk; [reflexivity|].
  destruct sol as [|xi sol]; [reflexivity|].
  cbn [combine fold_left]. rewrite IH by (intro; apply Hk; now right).
  unfold pick_entry. cbn [fst snd].
  destruct (gt xi 0); [|reflexivity].
  rewrite find_setitem.
  destruct (String.eqb_spec k k0) as [->|_]; [|reflexivity].
  exfalso. apply Hk. now left.
Qed.

(** What the plan read from a solution gives to each key: the rounded entry
    where the entry is above 0, and nothing, that is 0, elsewhere. *)
Lemma quantity_of_picked (ks : list string) :
  NoDup ks ->
  forall sol acc,
    List.length sol = List.length ks ->
    (forall k, In k ks -> find k acc = None) ->
    Forall2 (fun k xi =>
               quantity_of (fold_left pick_entry (combine ks sol) acc) k
               = if gt xi 0 then round xi else 0%Z)
            ks sol.
Proof.
  induction 1 as [|k0 ks Hnotin Hnd IH]; intros [|xi sol] acc Hlen Hfresh;
    simpl in Hlen; try discriminate; constructor.
  - cbn [combine fold_left]. unfold quantity_of, get.
    rewrite find_pick_other by exact Hnotin.
    unfold pick_entry. cbn [fst snd].
    destruct (gt xi 0).
    + now rewrite find_setitem, String.eqb_refl.
    + now rewrite Hfresh by (now left).
  - cbn [combine fold_left]. apply IH; [lia|].
    intros k Hk. unfold pick_entry. cbn [fst snd].
    destruct (gt xi 0); [|apply Hfresh; now right].
    rewrite find_setitem.
    destruct (String.eqb_spec k k0) as [->|_]; [contradiction|].
    apply Hfresh. now right.
Qed.

Lemma dot_pointwise (row : list Q) :
  forall a b, Forall2 Qeq a b -> dot row a == dot row b.
Proof.
  induction row as [|r row IH]; intros a b H; [reflexivity|].
  destruct H as [|ai bi a b Hab H]; [reflexivity|].
  cbn [dot]. rewrite Hab, (IH _ _ H). reflexivity.
Qed.

(** A solution within the bounds of the items, integral, is read back as
    it is, and so gives every item a quantity within its bounds. *)
Lemma read_back (plan : dict Z) (items : dict Equipment) :
  forall sol,
    Forall2 (fun k xi =>
               quantity_of plan k = if gt xi 0 then round xi else 0%Z)
            (map fst items) sol ->
    Forall2 (fun bd xi => inject_Z (fst bd) <= xi <= inject_Z (snd bd))
            (map (fun item => (quantity_min (snd item),
                               quantity_max (snd item))) items)
            sol ->
    Forall (fun xi => exists z : Z, xi == inject_Z z) sol ->
    Forall (fun item => (0 <= quantity_min (snd item))%Z) items ->
    Forall (fun item =>
              (quantity_min (snd item) <= quantity_of plan (fst item)
               <= quantity_max (snd item))%Z) items
    /\ Forall2 Qeq (map (fun k => inject_Z (quantity_of plan k)) (map fst items))
               sol.
Proof.
  induction items as [|[k e] items IH]; intros sol Hq Hb Hi Hm.
  - inversion Hq; subst. split; constructor.
  - cbn [map fst snd] in Hq, Hb.
    inversion Hq as [|? xi ? sol' Hq1 Hq2]; subst.
    inversion Hb as [|? ? ? ? [Hlo Hhi] Hb2]; subst.
    inversion Hi as [|? ? [z Hz] Hi2]; subst.
    inversion Hm as [|? ? Hm1 Hm2]; subst.
    cbn [fst snd] in *.
    destruct (IH sol' Hq2 Hb2 Hi2 Hm2) as [IH1 IH2].
    rewrite Hz in Hlo, Hhi.
    rewrite <- Zle_Qle in Hlo, Hhi.
    assert (Hqz : quantity_of plan k = z).
    { rewrite Hq1. destruct (gt xi 0) eqn:G.
      - apply round_integer, Hz.
      - apply lt_false_iff in G. rewrite Hz in G.
        change 0 with (inject_Z 0) in G. rewrite <- Zle_Qle in G. lia. }
    split.
    + constructor; [cbn [fst snd]; lia | exact IH1].
    + cbn [map fst]. constructor; [rewrite Hqz; symmetry; exact Hz | exact IH2].
Qed.

(** The plan read from a solution of the program the code builds. *)
Lemma plan_of_solution (budget : Q) (sol : list Q) :
  lp_solution [unit_costs] [budget] bounds_list sol ->
  exists plan,
    quantities_of sol = Ok plan
    /\ within_bounds plan
    /\ costs_at_most plan budget.
Proof.
  intros (Hb & Hi & Hrows).
  assert (Hlen : List.length sol = List.length equipment_list).
  { rewrite <- (Forall2_length Hb). reflexivity. }
  rewrite (quantities_of_fold sol Hlen).
  eexists. split; [reflexivity|].
  pose proof (quantity_of_picked equipment_list equipment_list_NoDup sol []
                                 Hlen (fun _ _ => eq_refl)) as Hq.
  assert (Hmin : Forall (fun item => (0 <= quantity_min (snd item))%Z)
                        all_equipment).
  { eapply Forall_impl; [|exact catalog_ranges]. simpl. intros a H. lia. }
  destruct (read_back _ all_equipment sol Hq Hb Hi Hmin) as [Hin Hvec].
  split; [exact Hin|].
  exists unit_costs. split; [exact budget_row_eq|].
  inversion Hrows as [|? ? Hrow _]; subst. cbn [fst snd] in Hrow.
  unfold plan_vector. fold (keys all_equipment).
  change (keys all_equipment) with (map fst all_equipment).
  rewrite (dot_pointwise unit_costs _ _ Hvec). exact Hrow.
Qed.

(** What the three bundles cost, on the row of [A_ub]. *)
Lemma fallback_cost (budget : Q) :
  dot unit_costs (plan_vector (get_fallback_solution budget))
  == if lt budget 100000 then 191500
     else if lt budget 300000 then 385850 else 679400.
Proof.
  unfold get_fallback_solution.
  destruct (lt budget 100000); [|destruct (lt budget 300000)]; reflexivity.
Qed.

Lemma small_bundle_out_of_bounds :
  ~ within_bounds [("backup_drone"%string, 2%Z); ("gps_tracker"%string, 5%Z);
                   ("portable_gps"%string, 4%Z)].
Proof.
  unfold within_bounds. rewrite all_equipment_eq. intro H.
  do 3 apply Forall_inv_tail in H. apply Forall_inv in H.
  vm_compute in H. destruct H as [H _]. apply H. reflexivity.
Qed.

Lemma fallback_facts (budget : Q) :
  present_within_bounds (get_fallback_solution budget)
  /\ (within_bounds (get_fallback_solution budget) <-> 100000 <= budget)
  /\ (costs_at_most (get_fallback_solution budget) budget
      <-> 679400 <= budget).
Proof.
  split; [|split].
  - unfold get_fallback_solution, present_within_bounds.
    destruct (lt budget 100000); [|destruct (lt budget 300000)];
      repeat constructor;
      (eexists; split; [reflexivity | simpl; lia]).
  - unfold get_fallback_solution.
    destruct (lt budget 100000) eqn:L1.
    + apply lt_iff in L1. split; intro H.
      * exfalso. exact (small_bundle_out_of_bounds H).
      * lra.
    + apply lt_false_iff in L1. split; [intros _; exact L1 | intros _].
      unfold within_bounds. rewrite all_equipment_eq.
      destruct (lt budget 300000); repeat constructor; discriminate.
  - assert (Hc : costs_at_most (get_fallback_solution budget) budget
                 <-> dot unit_costs (plan_vector (get_fallback_solution budget))
                     <= budget).
    { unfold costs_at_most. rewrite budget_row_eq. split.
      - intros (row & E & H). inversion E; subst. exact H.
      - intro H. eauto. }
    rewrite Hc, fallback_cost.
    destruct (lt budget 100000) eqn:L1; [|destruct (lt budget 300000) eqn:L2].
    + apply lt_iff in L1. split; intro; lra.
    + apply lt_iff in L2. split; intro; lra.
    + apply lt_false_iff in L2. tauto.
Qed.

(* ================================================================== *)
(** ** The two test doubles meet the solver's contract *)
(* ================================================================== *)

Lemma linprog_failing_sound : solver_sound linprog_failing.
Proof. intros c A_ub b_ub bounds H. discriminate. Qed.

Lemma range_bounds (lo hi v : Z) : In v (range lo hi) -> (lo <= v <= hi)%Z.
Proof.
  unfold range. rewrite in_map_iff. intros (i & <- & Hi).
  apply in_seq in Hi. lia.
Qed.

Lemma box_bounds (bounds : list (Z * Z)) :
  forall zs, In zs (box bounds) ->
             Forall2 (fun bd z => (fst bd <= z <= snd bd)%Z) bounds zs.
Proof.
  induction bounds as [|[lo hi] bounds IH]; intros zs H.
  - destruct H as [<-|[]]. constructor.
  - cbn [box] in H. apply in_flat_map in H. destruct H as (v & Hv & H).
    apply in_map_iff in H. destruct H as (zs' & <- & Hzs').
    constructor; [apply range_bounds, Hv | apply IH, Hzs'].
Qed.

Lemma argmin_In (c : list Q) (cands : list (list Q)) :
  forall best, In (argmin c best cands) (best :: cands).
Proof.
  induction cands as [|cand cands IH]; intro best; cbn [argmin].
  - now left.
  - destruct (lt (dot c cand) (dot c best)).
    + right. apply IH.
    + destruct (IH best) as [H|H]; [now left | right; now right].
Qed.

Lemma linprog_exhaustive_sound : solver_sound linprog_exhaustive.
Proof.
  intros c A_ub b_ub bounds. unfold linprog_exhaustive.
  destruct (filter (rows_hold A_ub b_ub) (map (map inject_Z) (box bounds)))
    as [|first others] eqn:E; [discriminate|].
  intros _. cbn [x].
  pose proof (argmin_In c others first) as Hin.
  rewrite <- E in Hin. apply filter_In in Hin. destruct Hin as [Hbox Hrows].
  apply in_map_iff in Hbox. destruct Hbox as (zs & Hzs & Hbox).
  rewrite <- Hzs in *. clear Hzs.
  apply box_bounds in Hbox.
  split; [|split].
  - clear Hrows E. induction Hbox as [|bd z bounds' zs' [Hlo Hhi] _ IH];
      cbn [map]; constructor; [|exact IH].
    split; rewrite <- Zle_Qle; assumption.
  - clear. induction zs as [|z zs IH]; cbn [map]; constructor; [|exact IH].
    exists z. reflexivity.
  - apply Forall_forall. intros rb Hrb.
    unfold rows_hold in Hrows. rewrite forallb_forall in Hrows.
    apply Qle_bool_iff, Hrows, Hrb.
Qed.

Lemma sound_shaped (linprog : Solver) : solver_sound linprog -> solver_shaped linprog.
Proof.
  intros Hs c A_ub b_ub bounds H.
  destruct (Hs c A_ub b_ub bounds H) as (Hb & _).
  symmetry. exact (Forall2_length Hb).
Qed.

(* ================================================================== *)
(** ** The fallback plan *)
(* ================================================================== *)

(** C4: [get_fallback_solution] reads the budget only and returns one of
    three fixed bundles: below 100,000 the small one, from 100,000 and
    below 300,000 the medium one, from 300,000 the large one; and whenever
    the solver reports failure, the plan is the same whatever the priority
    mode. *)
Theorem fallback_three_bundles (budget : Q) :
  (budget < 100000 ->
   get_fallback_solution budget
   = [("backup_drone"%string, 2%Z); ("gps_tracker"%string, 5%Z);
      ("portable_gps"%string, 4%Z)])
  /\ (100000 <= budget -> budget < 300000 ->
      get_fallback_solution budget
      = [("backup_drone"%string, 3%Z); ("gps_tracker"%string, 8%Z);
         ("thermal_camera"%string, 1%Z); ("satellite_comm"%string, 1%Z);
         ("rf_detector"%string, 2%Z); ("portable_gps"%string, 6%Z)])
  /\ (300000 <= budget ->
      get_fallback_solution budget
      = [("backup_drone"%string, 4%Z); ("gps_tracker"%string, 10%Z);
         ("thermal_camera"%string, 2%Z); ("satellite_comm"%string, 2%Z);
         ("rf_detector"%string, 3%Z); ("portable_gps"%string, 8%Z);
         ("offroad_vehicle"%string, 1%Z)])
  /\ (forall (linprog : Solver) p1 p2 r1 r2,
         solve linprog budget p1 = Ok r1 -> success r1 = false ->
         solve linprog budget p2 = Ok r2 -> success r2 = false ->
         optimize_equipment_selection linprog budget p1
         = optimize_equipment_selection linprog budget p2).
Proof.
  unfold get_fallback_solution. repeat split.
  - intro H. apply lt_iff in H. now rewrite H.
  - intros H1 H2. apply lt_false_iff in H1. apply lt_iff in H2.
    now rewrite H1, H2.
  - intro H.
    assert (H1 : lt budget 100000 = false) by (apply lt_false_iff; lra).
    apply lt_false_iff in H. now rewrite H1, H.
  - intros linprog p1 p2 r1 r2 S1 F1 S2 F2.
    rewrite (optimize_failure linprog budget p1 r1 S1 F1).
    rewrite (optimize_failure linprog budget p2 r2 S2 F2).
    reflexivity.
Qed.

Lemma fallback_three_bundles_witness :
  get_fallback_solution 80000
  = [("backup_drone"%string, 2%Z); ("gps_tracker"%string, 5%Z);
     ("portable_gps"%string, 4%Z)]
  /\ get_fallback_solution 200000
     = [("backup_drone"%string, 3%Z); ("gps_tracker"%string, 8%Z);
        ("thermal_camera"%string, 1%Z); ("satellite_comm"%string, 1%Z);
        ("rf_detector"%string, 2%Z); ("portable_gps"%string, 6%Z)]
  /\ get_fallback_solution 500000
     = [("backup_drone"%string, 4%Z); ("gps_tracker"%string, 10%Z);
        ("thermal_camera"%string, 2%Z); ("satellite_comm"%string, 2%Z);
        ("rf_detector"%string, 3%Z); ("portable_gps"%string, 8%Z);
        ("offroad_vehicle"%string, 1%Z)].
Proof.
  split; [|split].
  - apply (fallback_three_bundles 80000). reflexivity.
  - apply (fallback_three_bundles 200000); [discriminate | reflexivity].
  - apply (fallback_three_bundles 500000). discriminate.
Defined.

(* ================================================================== *)
(** ** The objective *)
(* ================================================================== *)

(** C5: item by item, the coefficient of the objective is, in mode [cost],
    the total of [calculate_annual_cost] for one unit at 100 usage hours;
    in mode [efficiency], minus efficiency_gain x 10000; in mode
    [balanced], the default, that unit cost minus efficiency_gain x 5000. *)
Theorem objective_coefficients :
  (exists c,
      objective "cost" = Ok c
      /\ Forall2 (fun item ci =>
                    exists cost,
                      calculate_annual_cost (fst item) 1 100 = Ok cost
                      /\ ci == total cost
                      /\ ci == annual_unit_cost (snd item) 100)
                 all_equipment c)
  /\ (exists c,
         objective "efficiency" = Ok c
         /\ Forall2 (fun item ci =>
                       ci == - (efficiency_gain (snd item) * 10000))
                    all_equipment c)
  /\ (default_priority = "balanced"%string
      /\ exists c,
        objective "balanced" = Ok c
        /\ Forall2 (fun item ci =>
                      exists cost,
                        calculate_annual_cost (fst item) 1 100 = Ok cost
                        /\ ci == total cost
                                 - efficiency_gain (snd item) * 5000)
                   all_equipment c).
Proof.
  split; [|split; [|split; [reflexivity|]]].
  - eexists. split; [vm_compute; reflexivity|].
    repeat (apply Forall2_cons;
            [eexists; split; [vm_compute; reflexivity
                             | split; reflexivity] |]).
    apply Forall2_nil.
  - eexists. split; [vm_compute; reflexivity|].
    repeat (apply Forall2_cons; [reflexivity|]).
    apply Forall2_nil.
  - eexists. split; [vm_compute; reflexivity|].
    repeat (apply Forall2_cons;
            [eexists; split; [vm_compute; reflexivity | reflexivity] |]).
    apply Forall2_nil.
Qed.

(* ================================================================== *)
(** ** The optimizer: success and failure of the solver *)
(* ================================================================== *)

Lemma dot_lower_bound (row : list Q) :
  Forall (fun r => 0 <= r) row ->
  forall bounds sol,
    Forall2 (fun bd xi => inject_Z (fst bd) <= xi <= inject_Z (snd bd))
            bounds sol ->
    dot row (map (fun bd => inject_Z (fst bd)) bounds) <= dot row sol.
Proof.
  induction 1 as [|r row Hr _ IH]; intros bounds sol Hb.
  - apply Qle_refl.
  - destruct Hb as [|bd xi bounds sol [Hlo _] Hb]; cbn [map dot].
    + apply Qle_refl.
    + specialize (IH _ _ Hb). nra.
Qed.

(** No assignment within the bounds of the catalog costs 80,000 or less:
    the cheapest one costs 149,050. *)
Lemma infeasible_at_80000 (sol : list Q) :
  ~ lp_solution [unit_costs] [80000] bounds_list sol.
Proof.
  intros (Hb & _ & Hrows).
  inversion Hrows as [|? ? Hrow _]; subst. cbn [fst snd] in Hrow.
  assert (Hpos : Forall (fun r => 0 <= r) unit_costs).
  { repeat constructor; discriminate. }
  pose proof (dot_lower_bound unit_costs Hpos _ _ Hb) as Hlow.
  assert (Hmin : dot unit_costs (map (fun bd => inject_Z (fst bd)) bounds_list)
                 == 149050) by reflexivity.
  rewrite Hmin in Hlow. lra.
Qed.

(** C6: the call of the solver raises nothing, and whenever the solver
    reports failure [optimize_equipment_selection] returns normally the
    fallback plan of the budget; the budget 80,000 is infeasible under the
    bounds of the catalog, so that with any solver that reports success
    only with a solution the result at 80,000 is the small bundle. *)
Theorem solver_failure_returns_fallback
        (linprog : Solver)
        (budget : Q) (priority : string) :
  (exists r,
      solve linprog budget priority = Ok r
      /\ (success r = false ->
          optimize_equipment_selection linprog budget priority
          = Ok (get_fallback_solution budget)))
  /\ (forall row bounds sol,
         budget_row = Ok row -> variable_bounds = Ok bounds ->
         ~ lp_solution [row] [80000] bounds sol)
  /\ (solver_sound linprog ->
      optimize_equipment_selection linprog 80000 priority
      = Ok [("backup_drone"%string, 2%Z); ("gps_tracker"%string, 5%Z);
            ("portable_gps"%string, 4%Z)]).
Proof.
  split; [|split].
  - destruct (solve_returns linprog budget priority) as (c & _ & Hr).
    eexists. split; [exact Hr|].
    intro Hf. exact (optimize_failure linprog budget priority _ Hr Hf).
  - intros row bounds sol Hrow Hbounds.
    rewrite budget_row_eq in Hrow. rewrite variable_bounds_eq in Hbounds.
    inversion Hrow; inversion Hbounds; subst.
    apply infeasible_at_80000.
  - intro Hs. destruct (solve_returns linprog 80000 priority) as (c & _ & Hr).
    destruct (success (linprog c [unit_costs] [80000] bounds_list)) eqn:E.
    + exfalso. exact (infeasible_at_80000 _ (Hs _ _ _ _ E)).
    + rewrite (optimize_failure linprog 80000 priority _ Hr E). reflexivity.
Qed.

Lemma solver_failure_returns_fallback_witness :
  optimize_equipment_selection linprog_failing 200000 "cost"
  = Ok (get_fallback_solution 200000)
  /\ optimize_equipment_selection linprog_exhaustive 80000 "balanced"
     = Ok [("backup_drone"%string, 2%Z); ("gps_tracker"%string, 5%Z);
           ("portable_gps"%string, 4%Z)].
Proof.
  split.
  - destruct (solver_failure_returns_fallback linprog_failing 200000 "cost")
      as ((r & Hr & H) & _).
    apply H. vm_compute in Hr. inversion Hr. reflexivity.
  - apply (solver_failure_returns_fallback linprog_exhaustive 80000 "balanced").
    exact linprog_exhaustive_sound.
Defined.

(** C1, as the code has it: with a solver that reports success only with a
    solution of the program, on success the plan gives every item of the
    catalog a quantity within its bounds and costs at most the budget; on
    failure the plan is the fallback bundle of the budget, where every key
    the bundle holds is within its item's bounds, every item of the catalog
    is within its bounds exactly when the budget is at least 100,000, and
    the bundle costs at most the budget exactly when the budget is at least
    679,400. *)
Theorem optimize_plan_bounds_and_budget
        (linprog : Solver)
        (budget : Q) (priority : string) :
  solver_sound linprog ->
  exists r plan,
    solve linprog budget priority = Ok r
    /\ optimize_equipment_selection linprog budget priority = Ok plan
    /\ (success r = true ->
        within_bounds plan /\ costs_at_most plan budget)
    /\ (success r = false ->
        plan = get_fallback_solution budget
        /\ present_within_bounds plan
        /\ (within_bounds plan <-> 100000 <= budget)
        /\ (costs_at_most plan budget <-> 679400 <= budget)).
Proof.
  intro Hs. destruct (solve_returns linprog budget priority) as (c & _ & Hr).
  exists (linprog c [unit_costs] [budget] bounds_list).
  destruct (success (linprog c [unit_costs] [budget] bounds_list)) eqn:E.
  - destruct (plan_of_solution budget _ (Hs _ _ _ _ E))
      as (plan & Hplan & Hin & Hcost).
    exists plan. split; [exact Hr|]. split.
    + rewrite (optimize_success linprog budget priority _ Hr E). exact Hplan.
    + split; [auto | discriminate].
  - exists (get_fallback_solution budget). split; [exact Hr|]. split.
    + exact (optimize_failure linprog budget priority _ Hr E).
    + split; [discriminate|].
      intros _. split; [reflexivity | apply fallback_facts].
Qed.

Lemma optimize_plan_bounds_and_budget_witness :
  exists r plan,
    solve linprog_exhaustive 200000 "cost" = Ok r
    /\ optimize_equipment_selection linprog_exhaustive 200000 "cost" = Ok plan
    /\ (success r = true ->
        within_bounds plan /\ costs_at_most plan 200000)
    /\ (success r = false ->
        plan = get_fallback_solution 200000
        /\ present_within_bounds plan
        /\ (within_bounds plan <-> 100000 <= 200000)
        /\ (costs_at_most plan 200000 <-> 679400 <= 200000)).
Proof.
  apply (optimize_plan_bounds_and_budget linprog_exhaustive 200000 "cost").
  exact linprog_exhaustive_sound.
Defined.

(** C1 fails as stated: at the budget 80,000 the exhaustive solver, which
    reports success only with a solution, finds none, and the plan
    returned is the small bundle; its cost on the row of [A_ub] is 191,500,
    above the budget, and it gives [satellite_comm], whose minimum is 1,
    the quantity 0. *)
Lemma fallback_plan_breaks_budget_and_bounds :
  solver_sound linprog_exhaustive
  /\ optimize_equipment_selection linprog_exhaustive 80000 "balanced"
     = Ok [("backup_drone"%string, 2%Z); ("gps_tracker"%string, 5%Z);
           ("portable_gps"%string, 4%Z)]
  /\ dot unit_costs
         (plan_vector [("backup_drone"%string, 2%Z); ("gps_tracker"%string, 5%Z);
                       ("portable_gps"%string, 4%Z)]) == 191500
  /\ ~ costs_at_most [("backup_drone"%string, 2%Z); ("gps_tracker"%string, 5%Z);
                      ("portable_gps"%string, 4%Z)] 80000
  /\ ~ within_bounds [("backup_drone"%string, 2%Z); ("gps_tracker"%string, 5%Z);
                      ("portable_gps"%string, 4%Z)].
Proof.
  split; [exact linprog_exhaustive_sound|].
  split; [vm_compute; reflexivity|].
  split; [reflexivity|].
  split.
  - intro H. apply (fallback_facts 80000) in H. lra.
  - exact small_bundle_out_of_bounds.
Qed.

(* ================================================================== *)
(** ** More on reading the solution *)
(* ================================================================== *)

Lemma pick_loop_prefix (ks : list string) (sol : list Q) :
  (List.length ks <= List.length sol)%nat ->
  forall n s acc,
    (s + n = List.length ks)%nat ->
    for_each (seq s n) (pick_at ks sol) acc
    = Ok (fold_left pick_entry (combine (skipn s ks) (skipn s sol)) acc).
Proof.
  intros Hlen. induction n as [|n IH]; intros s acc Hs.
  - rewrite (skipn_all2 ks) by lia. reflexivity.
  - destruct (nth_error_defined ks s ltac:(lia)) as [k Hk].
    destruct (nth_error_defined sol s ltac:(lia)) as [xi Hx].
    rewrite (skipn_nth_error _ _ _ Hk), (skipn_nth_error _ _ _ Hx).
    cbn [seq for_each combine fold_left].
    unfold pick_at at 1, list_getitem. rewrite Hx, Hk. cbn [bind].
    unfold pick_entry at 2. cbn [fst snd].
    destruct (gt xi 0); cbn [bind]; apply IH; lia.
Qed.

Lemma pick_loop_short (ks : list string) (sol : list Q) :
  (List.length sol < List.length ks)%nat ->
  forall n s acc,
    (s + n = List.length ks)%nat -> (s <= List.length sol)%nat ->
    for_each (seq s n) (pick_at ks sol) acc = Raise IndexError.
Proof.
  intros Hlen. induction n as [|n IH]; intros s acc Hs Hle; [lia|].
  cbn [seq for_each]. unfold pick_at at 1, list_getitem.
  destruct (nth_error sol s) as [xi|] eqn:Hx.
  - assert (Hlt : (s < List.length sol)%nat).
    { apply nth_error_Some. congruence. }
    destruct (nth_error_defined ks s ltac:(lia)) as [k Hk].
    rewrite Hk. cbn [bind].
    destruct (gt xi 0); cbn [bind]; apply IH; lia.
  - reflexivity.
Qed.

Lemma picked_cons (k : string) (ks : list string) (xi : Q) (sol : list Q) :
  picked (k :: ks) (xi :: sol)
  = if gt xi 0 then (k, round xi) :: picked ks sol else picked ks sol.
Proof.
  unfold picked. cbn [combine filter snd]. destruct (gt xi 0); reflexivity.
Qed.

Lemma picked_entry (ks : list string) :
  forall sol k q,
    In (k, q) (picked ks sol) ->
    In k ks /\ exists xi, In xi sol /\ gt xi 0 = true /\ q = round xi.
Proof.
  induction ks as [|k0 ks IH]; intros [|xi sol] k q H; try destruct H.
  rewrite picked_cons in H. destruct (gt xi 0) eqn:G.
  - destruct H as [H|H].
    + inversion H; subst. split; [now left|].
      exists xi. repeat split; auto. now left.
    + destruct (IH _ _ _ H) as (Hin & xj & Hj & Hg & Hq).
      split; [now right|]. exists xj. repeat split; auto. now right.
  - destruct (IH _ _ _ H) as (Hin & xj & Hj & Hg & Hq).
    split; [now right|]. exists xj. repeat split; auto. now right.
Qed.

Lemma picked_keys (ks : list string) (sol : list Q) (k : string) :
  In k (keys (picked ks sol)) -> In k ks.
Proof.
  unfold keys. rewrite in_map_iff. intros ([k' q] & <- & H).
  apply (picked_entry ks sol k' q H).
Qed.

Lemma picked_NoDup (ks : list string) :
  NoDup ks -> forall sol, NoDup (keys (picked ks sol)).
Proof.
  induction 1 as [|k ks Hk Hnd IH]; intros [|xi sol]; try constructor.
  rewrite picked_cons. destruct (gt xi 0); [|apply IH].
  cbn [keys map fst]. constructor; [|apply IH].
  intro Hin. apply Hk. exact (picked_keys ks sol k Hin).
Qed.

(** The loop with [dict_setitem] builds the comprehension: on distinct
    keys, it appends the kept entries to what it started from. *)
Lemma fold_pick_picked (ks : list string) :
  NoDup ks ->
  forall sol acc,
    (forall k, In k ks -> ~ In k (keys acc)) ->
    fold_left pick_entry (combine ks sol) acc = acc ++ picked ks sol.
Proof.
  induction 1 as [|k0 ks Hk0 Hnd IH]; intros sol acc Hfresh.
  - cbn. now rewrite app_nil_r.
  - destruct sol as [|xi sol]; [cbn; now rewrite app_nil_r|].
    rewrite picked_cons. cbn [combine fold_left].
    unfold pick_entry at 2. cbn [fst snd].
    destruct (gt xi 0).
    + rewrite setitem_fresh by (apply find_None, Hfresh; now left).
      rewrite IH.
      * now rewrite <- app_assoc.
      * intros k Hin. rewrite keys_app, in_app_iff. intros [H|[H|[]]].
        -- apply (Hfresh k); [now right | exact H].
        -- simpl in H. subst. contradiction.
    + apply IH. intros k Hin. apply Hfresh. now right.
Qed.

Lemma quantities_of_long (sol : list Q) :
  (List.length equipment_list <= List.length sol)%nat ->
  quantities_of sol = Ok (picked equipment_list sol).
Proof.
  intro Hlen. unfold quantities_of.
  change (for_each (seq 0 (List.length equipment_list))
                   (pick_at equipment_list sol) []
          = Ok (picked equipment_list sol)).
  rewrite (pick_loop_prefix equipment_list sol Hlen _ 0%nat [] eq_refl).
  cbn [skipn].
  rewrite (fold_pick_picked equipment_list equipment_list_NoDup sol []);
    [reflexivity | intros k _ []].
Qed.

Lemma quantities_of_short (sol : list Q) :
  (List.length sol < List.length equipment_list)%nat ->
  quantities_of sol = Raise IndexError.
Proof.
  intro Hlen. unfold quantities_of.
  change (for_each (seq 0 (List.length equipment_list))
                   (pick_at equipment_list sol) []
          = Raise IndexError).
  apply (pick_loop_short equipment_list sol Hlen); [reflexivity | lia].
Qed.

(** X5: [quantities_of] on a solution with an entry for every item is the
    comprehension: the items whose entry is above 0, in the order of the
    catalog, each with its entry rounded (so an entry above 0 and at most
    1/2 is kept with the quantity 0); on a shorter solution it raises
    [IndexError]. *)
Theorem quantities_of_reads_solution (sol : list Q) :
  ((List.length equipment_list <= List.length sol)%nat ->
   quantities_of sol = Ok (picked equipment_list sol))
  /\ ((List.length sol < List.length equipment_list)%nat ->
      quantities_of sol = Raise IndexError).
Proof.
  split; [apply quantities_of_long | apply quantities_of_short].
Qed.

Lemma quantities_of_reads_solution_witness :
  quantities_of [2; 1 # 4; 0; 5 # 2; 1; -1; 3; 9]
  = Ok (picked equipment_list [2; 1 # 4; 0; 5 # 2; 1; -1; 3; 9])
  /\ quantities_of [1; 0; 2] = Raise IndexError.
Proof.
  split.
  - apply (quantities_of_reads_solution [2; 1 # 4; 0; 5 # 2; 1; -1; 3; 9]).
    simpl. lia.
  - apply (quantities_of_reads_solution [1; 0; 2]). simpl. lia.
Defined.

(* ================================================================== *)
(** ** The plans of the optimizer, handed to the analyzer *)
(* ================================================================== *)

Lemma equipment_list_in_catalog (k : string) :
  In k equipment_list -> in_catalog k.
Proof.
  intro H. apply in_catalog_find.
  destruct (find k all_equipment) as [e|] eqn:E; [eauto|].
  apply find_None in E. contradiction.
Qed.

Lemma fallback_valid (budget : Q) :
  is_dict (get_fallback_solution budget)
  /\ valid_config (get_fallback_solution budget)
  /\ Forall (fun entry => (1 <= snd entry)%Z) (get_fallback_solution budget).
Proof.
  unfold get_fallback_solution, is_dict.
  destruct (lt budget 100000); [|destruct (lt budget 300000)];
    (split; [repeat constructor; simpl; intuition discriminate|]);
    (split; [|repeat constructor; simpl; lia]);
    intros k Hk; apply equipment_list_in_catalog;
    simpl in Hk; simpl; intuition.
Qed.

Lemma picked_valid (sol : list Q) :
  is_dict (picked equipment_list sol)
  /\ valid_config (picked equipment_list sol).
Proof.
  split.
  - apply picked_NoDup, equipment_list_NoDup.
  - intros k Hk. apply equipment_list_in_catalog.
    exact (picked_keys _ _ _ Hk).
Qed.

Lemma picked_positive (ks : list string) (sol : list Q) :
  Forall (fun xi => exists z : Z, xi == inject_Z z) sol ->
  Forall (fun entry => (1 <= snd entry)%Z) (picked ks sol).
Proof.
  intro Hint. apply Forall_forall. intros [k q] Hin.
  destruct (picked_entry ks sol k q Hin) as (_ & xi & Hxi & Hg & ->).
  rewrite Forall_forall in Hint. destruct (Hint xi Hxi) as [z Hz].
  cbn [snd]. rewrite (round_integer xi z Hz).
  apply lt_iff in Hg. rewrite Hz in Hg.
  change 0 with (inject_Z 0) in Hg. rewrite <- Zlt_Qlt in Hg. lia.
Qed.


(** What [optimize_equipment_selection] returns, on either path, with a
    solver whose solution has one entry per variable. *)
Lemma optimize_outcome (linprog : Solver) (budget : Q) (priority : string) :
  solver_shaped linprog ->
  exists r,
    solve linprog budget priority = Ok r
    /\ optimize_equipment_selection linprog budget priority
       = Ok (if success r then picked equipment_list (x r)
             else get_fallback_solution budget).
Proof.
  intro Hs. destruct (solve_returns linprog budget priority) as (c & _ & Hr).
  eexists. split; [exact Hr|].
  destruct (success (linprog c [unit_costs] [budget] bounds_list)) eqn:E.
  - rewrite (optimize_success linprog budget priority _ Hr E).
    apply quantities_of_long.
    rewrite (Hs _ _ _ _ E). apply Nat.le_refl.
  - exact (optimize_failure linprog budget priority _ Hr E).
Qed.



(** X8: with a solver that reports success only with a solution, every entry
    of the plan has a quantity of at least 1, on both paths: an item the
    solution leaves at 0 is not in the plan. *)
Theorem optimized_plan_is_positive
        (linprog : Solver) (budget : Q) (priority : string) :
  solver_sound linprog ->
  exists plan,
    optimize_equipment_selection linprog budget priority = Ok plan
    /\ Forall (fun entry => (1 <= snd entry)%Z) plan
    /\ forall k, ~ In k (keys plan) <-> quantity_of plan k = 0%Z.
Proof.
  intro Hs.
  destruct (optimize_outcome linprog budget priority (sound_shaped _ Hs))
    as (r & Hr & Hp).
  destruct (solve_returns linprog budget priority) as (c & _ & Hr').
  rewrite Hr' in Hr. inversion Hr as [Er]. clear Hr.
  eexists. split; [exact Hp|].
  assert (Hpos : Forall (fun entry => (1 <= snd entry)%Z)
                        (if success r then picked equipment_list (x r)
                         else get_fallback_solution budget)).
  { destruct (success r) eqn:E.
    - apply picked_positive. rewrite <- Er in E |- *.
      destruct (Hs _ _ _ _ E) as (_ & Hi & _). exact Hi.
    - apply fallback_valid. }
  split; [exact Hpos|].
  intro k. unfold quantity_of, get. split.
  - intro H. apply find_None in H. now rewrite H.
  - destruct (find k _) as [q|] eqn:E.
    + intros ->. apply find_In in E. rewrite Forall_forall in Hpos.
      specialize (Hpos _ E). cbn [snd] in Hpos. lia.
    + intros _. now apply find_None.
Qed.

Lemma optimized_plan_is_positive_witness :
  exists plan,
    optimize_equipment_selection linprog_exhaustive 200000 "efficiency" = Ok plan
    /\ Forall (fun entry => (1 <= snd entry)%Z) plan
    /\ forall k, ~ In k (keys plan) <-> quantity_of plan k = 0%Z.
Proof.
  apply (optimized_plan_is_positive linprog_exhaustive 200000 "efficiency").
  exact linprog_exhaustive_sound.
Defined.

(* ================================================================== *)
(** ** The analyzer's total and the optimizer's budget row *)
(* ================================================================== *)

Section RowAtKey.

(** A row over the items of a dictionary, and quantities that differ at
    one key only. *)
Variable unit : Equipment -> Q.
Variable k : string.
Variable q : Z.
Variable f : string -> Z.

Let altered (k' : string) : Z := if String.eqb k' k then q else f k'.

Lemma row_at_absent_key (items : dict Equipment) :
  ~ In k (keys items) ->
  dot (map (fun item => unit (snd item)) items)
      (map (fun k' => inject_Z (altered k')) (keys items))
  == dot (map (fun item => unit (snd item)) items)
         (map (fun k' => inject_Z (f k')) (keys items)).
Proof.
  induction items as [|[k0 e0] items IH]; intro Hk; [reflexivity|].
  cbn [map keys fst snd dot]. fold (keys items).
  rewrite IH by (intro; apply Hk; now right).
  unfold altered at 1.
  destruct (String.eqb_spec k0 k) as [->|_]; [|reflexivity].
  exfalso. apply Hk. now left.
Qed.

Lemma row_at_key (items : dict Equipment) (e : Equipment) :
  NoDup (keys items) -> find k items = Some e ->
  dot (map (fun item => unit (snd item)) items)
      (map (fun k' => inject_Z (altered k')) (keys items))
  == dot (map (fun item => unit (snd item)) items)
         (map (fun k' => inject_Z (f k')) (keys items))
     + unit e * (inject_Z q - inject_Z (f k)).
Proof.
  induction items as [|[k0 e0] items IH]; intros Hnd Hf; [discriminate|].
  cbn [keys map fst] in Hnd. apply NoDup_cons_iff in Hnd.
  destruct Hnd as [Hk0 Hnd].
  cbn [find] in Hf. cbn [map keys fst snd dot]. fold (keys items).
  unfold altered at 1.
  destruct (String.eqb_spec k k0) as [E|Hne].
  - subst k0. inversion Hf; subst e0. rewrite String.eqb_refl.
    rewrite (row_at_absent_key items Hk0). ring.
  - destruct (String.eqb_spec k0 k) as [E|_]; [congruence|].
    rewrite (IH Hnd Hf). ring.
Qed.

End RowAtKey.

Lemma plan_vector_cons (k : string) (q : Z) (rest : dict Z) :
  plan_vector ((k, q) :: rest)
  = map (fun k' => inject_Z (if String.eqb k' k then q else quantity_of rest k'))
        (keys all_equipment).
Proof.
  unfold plan_vector, equipment_list. apply map_ext. intro k'.
  unfold quantity_of, get. cbn [find].
  destruct (String.eqb k' k); reflexivity.
Qed.

(** On a dictionary of catalog keys, the budget row applied to the plan is
    the sum over the plan's entries of unit cost times quantity. *)
Lemma budget_row_of_entries (plan : dict Z) :
  is_dict plan -> valid_config plan ->
  dot unit_costs (plan_vector plan) == entries_cost plan.
Proof.
  unfold is_dict.
  induction plan as [|[k q] rest IH]; intros Hnd Hv.
  - reflexivity.
  - cbn [keys map fst] in Hnd. apply NoDup_cons_iff in Hnd.
    destruct Hnd as [Hk Hnd].
    apply valid_config_cons in Hv. destruct Hv as [Hin Hv].
    apply in_catalog_find in Hin. destruct Hin as [e He].
    cbn [entries_cost]. rewrite He, <- (IH Hnd Hv).
    rewrite plan_vector_cons. unfold unit_costs.
    rewrite (row_at_key (fun e => annual_unit_cost e default_usage_hours)
                        k q (quantity_of rest) all_equipment e
                        equipment_list_NoDup He).
    assert (H0 : quantity_of rest k = 0%Z).
    { unfold quantity_of, get. apply find_None in Hk. now rewrite Hk. }
    rewrite H0. unfold plan_vector, equipment_list. change (inject_Z 0) with 0.
    ring.
Qed.

(* ================================================================== *)
(** ** Which budgets the program can meet *)
(* ================================================================== *)

Lemma unit_costs_positive : Forall (fun r => 0 < r) unit_costs.
Proof. repeat constructor. Qed.

Lemma unit_costs_nonnegative : Forall (fun r => 0 <= r) unit_costs.
Proof. repeat constructor; discriminate. Qed.

Lemma lower_bounds_cost : dot unit_costs lower_bounds == 149050.
Proof. reflexivity. Qed.

Lemma infeasible_below (budget : Q) (sol : list Q) :
  budget < 149050 -> ~ lp_solution [unit_costs] [budget] bounds_list sol.
Proof.
  intros Hb (Hbd & _ & Hrows).
  inversion Hrows as [|? ? Hrow _]; subst. cbn [fst snd] in Hrow.
  pose proof (dot_lower_bound unit_costs unit_costs_nonnegative _ _ Hbd) as Hlow.
  fold lower_bounds in Hlow. rewrite lower_bounds_cost in Hlow. lra.
Qed.

Lemma lower_bounds_solution (budget : Q) :
  149050 <= budget -> lp_solution [unit_costs] [budget] bounds_list lower_bounds.
Proof.
  intro Hb. split; [|split].
  - repeat constructor; discriminate.
  - unfold lower_bounds. apply Forall_forall. intros xi Hin.
    apply in_map_iff in Hin. destruct Hin as (bd & <- & _).
    eexists. reflexivity.
  - constructor; [|constructor]. cbn [fst snd].
    rewrite lower_bounds_cost. exact Hb.
Qed.

(** X9: below 149,050, the cost of the minimum quantities, no solver that
    reports success only with a solution can succeed: the plan is the
    fallback bundle of the budget, and it costs more than the budget. *)
Theorem fallback_below_feasibility
        (linprog : Solver) (budget : Q) (priority : string) :
  solver_sound linprog -> budget < 149050 ->
  optimize_equipment_selection linprog budget priority
  = Ok (get_fallback_solution budget)
  /\ ~ costs_at_most (get_fallback_solution budget) budget.
Proof.
  intros Hs Hb. split.
  - destruct (solve_returns linprog budget priority) as (c & _ & Hr).
    destruct (success (linprog c [unit_costs] [budget] bounds_list)) eqn:E.
    + exfalso. exact (infeasible_below budget _ Hb (Hs _ _ _ _ E)).
    + exact (optimize_failure linprog budget priority _ Hr E).
  - intro H. apply fallback_facts in H. lra.
Qed.

Lemma fallback_below_feasibility_witness :
  optimize_equipment_selection linprog_exhaustive 120000 "cost"
  = Ok (get_fallback_solution 120000)
  /\ ~ costs_at_most (get_fallback_solution 120000) 120000.
Proof.
  apply (fallback_below_feasibility linprog_exhaustive 120000 "cost").
  - exact linprog_exhaustive_sound.
  - reflexivity.
Defined.

(** X10: from 149,050 on, a solver that reports success only with a solution,
    and always when there is one, succeeds: the plan is read from its
    solution, is within the bounds of every item and costs at most the
    budget; the fallback bundles are not reached. *)
Theorem feasible_budget_is_solved
        (linprog : Solver) (budget : Q) (priority : string) :
  solver_sound linprog -> solver_complete linprog -> 149050 <= budget ->
  exists r plan,
    solve linprog budget priority = Ok r
    /\ success r = true
    /\ optimize_equipment_selection linprog budget priority = Ok plan
    /\ plan = picked equipment_list (x r)
    /\ within_bounds plan /\ costs_at_most plan budget.
Proof.
  intros Hs Hc Hb.
  destruct (solve_returns linprog budget priority) as (c & _ & Hr).
  pose proof (Hc c _ _ _ _ (lower_bounds_solution budget Hb)) as E.
  pose proof (Hs _ _ _ _ E) as Hsol.
  destruct (plan_of_solution budget _ Hsol) as (plan & Hplan & Hin & Hcost).
  exists (linprog c [unit_costs] [budget] bounds_list), plan.
  split; [exact Hr|]. split; [exact E|].
  rewrite (optimize_success linprog budget priority _ Hr E).
  split; [exact Hplan|]. split; [|split; assumption].
  rewrite quantities_of_long in Hplan.
  - now inversion Hplan.
  - destruct Hsol as (Hbd & _). rewrite <- (Forall2_length Hbd). apply Nat.le_refl.
Qed.

(* ================================================================== *)
(** ** The exhaustive test double is complete and optimal *)
(* ================================================================== *)

Lemma range_complete (lo hi v : Z) : (lo <= v <= hi)%Z -> In v (range lo hi).
Proof.
  intro H. unfold range. apply in_map_iff.
  exists (Z.to_nat (v - lo)). split; [lia|]. apply in_seq. lia.
Qed.

Lemma box_complete (bounds : list (Z * Z)) :
  forall zs,
    Forall2 (fun bd z => (fst bd <= z <= snd bd)%Z) bounds zs ->
    In zs (box bounds).
Proof.
  induction bounds as [|[lo hi] bounds IH]; intros zs H; inversion H; subst.
  - now left.
  - cbn [box]. apply in_flat_map. exists y. split.
    + now apply range_complete.
    + apply in_map. now apply IH.
Qed.

(** A solution is, entry by entry, one of the points the search visits. *)
Lemma exhaustive_candidate (A_ub : list (list Q)) (b_ub : list Q)
      (bounds : list (Z * Z)) (sol : list Q) :
  lp_solution A_ub b_ub bounds sol ->
  exists cand,
    In cand (filter (rows_hold A_ub b_ub) (map (map inject_Z) (box bounds)))
    /\ Forall2 Qeq sol cand.
Proof.
  intros (Hbd & Hint & Hrows).
  assert (Hzs : exists zs,
             Forall2 Qeq sol (map inject_Z zs)
             /\ Forall2 (fun bd z => (fst bd <= z <= snd bd)%Z) bounds zs).
  { clear Hrows. induction Hbd as [|bd xi bounds sol [Hlo Hhi] _ IH].
    - exists []. split; constructor.
    - inversion Hint as [|? ? [z Hz] Hint']; subst.
      destruct (IH Hint') as (zs & H1 & H2).
      exists (z :: zs). split; constructor; auto.
      rewrite Hz in Hlo, Hhi. rewrite <- Zle_Qle in Hlo, Hhi. lia. }
  destruct Hzs as (zs & Heq & Hin).
  exists (map inject_Z zs). split; [|exact Heq].
  apply filter_In. split.
  - apply in_map. now apply box_complete.
  - unfold rows_hold. apply forallb_forall. intros rb Hrb.
    apply Qle_bool_iff. rewrite Forall_forall in Hrows.
    rewrite <- (dot_pointwise (fst rb) _ _ Heq). now apply Hrows.
Qed.

Lemma linprog_exhaustive_complete : solver_complete linprog_exhaustive.
Proof.
  intros c A_ub b_ub bounds sol Hsol.
  destruct (exhaustive_candidate _ _ _ _ Hsol) as (cand & Hin & _).
  unfold linprog_exhaustive.
  destruct (filter _ _); [destruct Hin | reflexivity].
Qed.

Lemma argmin_least (c : list Q) (cands : list (list Q)) :
  forall best y,
    In y (best :: cands) -> dot c (argmin c best cands) <= dot c y.
Proof.
  induction cands as [|cand cands IH]; intros best y Hy; cbn [argmin].
  - destruct Hy as [<-|[]]. apply Qle_refl.
  - destruct (lt (dot c cand) (dot c best)) eqn:L.
    + apply lt_iff in L. destruct Hy as [<-|Hy]; [|now apply IH].
      pose proof (IH cand cand (or_introl eq_refl)). lra.
    + apply lt_false_iff in L. destruct Hy as [<-|[<-|Hy]].
      * apply IH. now left.
      * pose proof (IH best best (or_introl eq_refl)). lra.
      * apply IH. now right.
Qed.

Lemma linprog_exhaustive_optimal : solver_optimal linprog_exhaustive.
Proof.
  intros c A_ub b_ub bounds Hsucc sol Hsol.
  destruct (exhaustive_candidate _ _ _ _ Hsol) as (cand & Hin & Heq).
  revert Hsucc. unfold linprog_exhaustive.
  destruct (filter _ _) as [|first others]; [discriminate|].
  intros _. cbn [x]. rewrite (dot_pointwise c _ _ Heq).
  now apply argmin_least.
Qed.

Lemma feasible_budget_is_solved_witness :
  exists r plan,
    solve linprog_exhaustive 149050 "efficiency" = Ok r
    /\ success r = true
    /\ optimize_equipment_selection linprog_exhaustive 149050 "efficiency"
       = Ok plan
    /\ plan = picked equipment_list (x r)
    /\ within_bounds plan /\ costs_at_most plan 149050.
Proof.
  apply (feasible_budget_is_solved linprog_exhaustive 149050 "efficiency").
  - exact linprog_exhaustive_sound.
  - exact linprog_exhaustive_complete.
  - discriminate.
Defined.

(* ================================================================== *)
(** ** The modes [cost] and [balanced] *)
(* ================================================================== *)

Lemma lt_comp (a a' b b' : Q) : a == a' -> b == b' -> lt a b = lt a' b'.
Proof.
  intros Ha Hb. destruct (lt a' b') eqn:E.
  - apply lt_iff. apply lt_iff in E. now rewrite Ha, Hb.
  - apply lt_false_iff. apply lt_false_iff in E. now rewrite Ha, Hb.
Qed.

Lemma round_comp (a b : Q) : a == b -> round a = round b.
Proof.
  intro H. unfold round. rewrite (Qfloor_comp _ _ H).
  assert (E : a - inject_Z (Qfloor b) == b - inject_Z (Qfloor b))
    by (rewrite H; reflexivity).
  rewrite (lt_comp _ _ (1 # 2) (1 # 2) E (Qeq_refl _)).
  rewrite (lt_comp (1 # 2) (1 # 2) _ _ (Qeq_refl _) E).
  reflexivity.
Qed.

Lemma picked_comp (ks : list string) :
  forall sol sol', Forall2 Qeq sol sol' -> picked ks sol = picked ks sol'.
Proof.
  induction ks as [|k ks IH]; intros sol sol' H; [reflexivity|].
  destruct H as [|xi xi' sol sol' Hx H]; [reflexivity|].
  rewrite !picked_cons.
  unfold gt. rewrite (lt_comp 0 0 xi xi' (Qeq_refl _) Hx).
  rewrite (round_comp _ _ Hx), (IH _ _ H). reflexivity.
Qed.

(** With coefficients above 0, the only point of the box whose objective is
    at most that of the lower corner is the lower corner. *)
Lemma lower_corner_only (c : list Q) :
  Forall (fun r => 0 < r) c ->
  forall bounds sol,
    List.length c = List.length bounds ->
    Forall2 (fun bd xi => inject_Z (fst bd) <= xi <= inject_Z (snd bd))
            bounds sol ->
    dot c sol <= dot c (map (fun bd => inject_Z (fst bd)) bounds) ->
    Forall2 Qeq sol (map (fun bd => inject_Z (fst bd)) bounds).
Proof.
  induction 1 as [|r c Hr Hc IH]; intros bounds sol Hlen Hb Hle.
  - destruct bounds; [|discriminate]. inversion Hb. constructor.
  - destruct Hb as [|bd xi bounds sol [Hlo Hhi] Hb]; [discriminate|].
    cbn [map dot] in *.
    assert (Hpos : Forall (fun r => 0 <= r) c).
    { eapply Forall_impl; [|exact Hc]. intros a Ha. now apply Qlt_le_weak. }
    pose proof (dot_lower_bound c Hpos _ _ Hb) as Hrest.
    assert (Hx : xi == inject_Z (fst bd)) by nra.
    constructor; [exact Hx|].
    apply IH; [now inversion Hlen | exact Hb|].
    rewrite Hx in Hle. lra.
Qed.

Lemma objective_positive (priority : string) :
  priority <> "efficiency"%string ->
  exists c,
    objective priority = Ok c
    /\ Forall (fun r => 0 < r) c
    /\ List.length c = List.length bounds_list.
Proof.
  intro H. apply String.eqb_neq in H. unfold objective. rewrite H.
  destruct (String.eqb priority "cost");
    (eexists; split; [vm_compute; reflexivity|]);
    (split; [repeat constructor | reflexivity]).
Qed.

(** X11: in every mode but [efficiency] each coefficient of the objective is
    above 0, so the least objective is at the minimum quantities: with a
    solver that returns a solution of least objective, a successful
    [optimize_equipment_selection] returns the minimum quantities whatever
    the budget, and with a complete solver it does so from 149,050 on. *)
Theorem cost_and_balanced_return_minimum
        (linprog : Solver) (budget : Q) (priority : string) :
  solver_sound linprog -> solver_optimal linprog ->
  priority <> "efficiency"%string ->
  exists r,
    solve linprog budget priority = Ok r
    /\ (success r = true ->
        optimize_equipment_selection linprog budget priority
        = Ok [("backup_drone"%string, 1%Z); ("gps_tracker"%string, 2%Z);
              ("satellite_comm"%string, 1%Z); ("rf_detector"%string, 1%Z);
              ("portable_gps"%string, 3%Z)])
    /\ (solver_complete linprog -> 149050 <= budget ->
        optimize_equipment_selection linprog budget priority
        = Ok [("backup_drone"%string, 1%Z); ("gps_tracker"%string, 2%Z);
              ("satellite_comm"%string, 1%Z); ("rf_detector"%string, 1%Z);
              ("portable_gps"%string, 3%Z)]).
Proof.
  intros Hs Ho Hp.
  destruct (objective_positive priority Hp) as (c & Hc & Hpos & Hlen).
  assert (Hr : solve linprog budget priority
               = Ok (linprog c [unit_costs] [budget] bounds_list)).
  { unfold solve. rewrite Hc, budget_row_eq, variable_bounds_eq. reflexivity. }
  assert (Hmin : success (linprog c [unit_costs] [budget] bounds_list) = true ->
                 optimize_equipment_selection linprog budget priority
                 = Ok [("backup_drone"%string, 1%Z); ("gps_tracker"%string, 2%Z);
                       ("satellite_comm"%string, 1%Z); ("rf_detector"%string, 1%Z);
                       ("portable_gps"%string, 3%Z)]).
  { intro E. pose proof (Hs _ _ _ _ E) as Hsol.
    destruct Hsol as (Hbd & Hint & Hrows).
    assert (Hfeas : 149050 <= budget).
    { inversion Hrows as [|? ? Hrow _]; subst. cbn [fst snd] in Hrow.
      pose proof (dot_lower_bound unit_costs unit_costs_nonnegative _ _ Hbd) as L.
      fold lower_bounds in L. rewrite lower_bounds_cost in L. lra. }
    pose proof (Ho _ _ _ _ E _ (lower_bounds_solution budget Hfeas)) as Hleast.
    pose proof (lower_corner_only c Hpos _ _ Hlen Hbd Hleast) as Heq.
    rewrite (optimize_success linprog budget priority _ Hr E).
    rewrite quantities_of_long
      by (rewrite <- (Forall2_length Hbd); apply Nat.le_refl).
    rewrite (picked_comp equipment_list _ _ Heq). reflexivity. }
  eexists. split; [exact Hr|]. split; [exact Hmin|].
  intros Hcomp Hb. apply Hmin.
  exact (Hcomp c _ _ _ _ (lower_bounds_solution budget Hb)).
Qed.

Lemma cost_and_balanced_return_minimum_witness :
  exists r,
    solve linprog_exhaustive 500000 "balanced" = Ok r
    /\ (success r = true ->
        optimize_equipment_selection linprog_exhaustive 500000 "balanced"
        = Ok [("backup_drone"%string, 1%Z); ("gps_tracker"%string, 2%Z);
              ("satellite_comm"%string, 1%Z); ("rf_detector"%string, 1%Z);
              ("portable_gps"%string, 3%Z)])
    /\ (solver_complete linprog_exhaustive -> 149050 <= 500000 ->
        optimize_equipment_selection linprog_exhaustive 500000 "balanced"
        = Ok [("backup_drone"%string, 1%Z); ("gps_tracker"%string, 2%Z);
              ("satellite_comm"%string, 1%Z); ("rf_detector"%string, 1%Z);
              ("portable_gps"%string, 3%Z)]).
Proof.
  apply (cost_and_balanced_return_minimum linprog_exhaustive 500000 "balanced").
  - exact linprog_exhaustive_sound.
  - exact linprog_exhaustive_optimal.
  - discriminate.
Defined.

(* ================================================================== *)
(** ** More on the fallback plan *)
(* ================================================================== *)

(** X15: the three bundles are nested: a larger budget never gives an item a
    smaller quantity; and every bundle is a dictionary of catalog keys with
    quantities of at least 1, so the analyzer accepts it. *)
Theorem fallback_grows_with_budget (budget1 budget2 : Q) (k : string) :
  budget1 <= budget2 ->
  (quantity_of (get_fallback_solution budget1) k
   <= quantity_of (get_fallback_solution budget2) k)%Z
  /\ is_dict (get_fallback_solution budget1)
  /\ valid_config (get_fallback_solution budget1)
  /\ Forall (fun entry => (1 <= snd entry)%Z) (get_fallback_solution budget1).
Proof.
  intro Hle. split; [|apply fallback_valid].
  unfold get_fallback_solution.
  destruct (lt budget1 100000) eqn:A1; destruct (lt budget2 100000) eqn:A2;
    destruct (lt budget1 300000) eqn:B1; destruct (lt budget2 300000) eqn:B2;
    try apply lt_iff in A1; try apply lt_false_iff in A1;
    try apply lt_iff in A2; try apply lt_false_iff in A2;
    try apply lt_iff in B1; try apply lt_false_iff in B1;
    try apply lt_iff in B2; try apply lt_false_iff in B2;
    try (exfalso; lra);
    unfold quantity_of, get; cbn [find];
    repeat match goal with
           | |- context [String.eqb k ?s] =>
               destruct (String.eqb_spec k s) as [->|?]
           end; simpl; lia.
Qed.

Lemma fallback_grows_with_budget_witness :
  (quantity_of (get_fallback_solution 80000) "gps_tracker"
   <= quantity_of (get_fallback_solution 250000) "gps_tracker")%Z
  /\ is_dict (get_fallback_solution 80000)
  /\ valid_config (get_fallback_solution 80000)
  /\ Forall (fun entry => (1 <= snd entry)%Z) (get_fallback_solution 80000).
Proof.
  apply (fallback_grows_with_budget 80000 250000 "gps_tracker").
  discriminate.
Defined.

(* ================================================================== *)
(** ** The program handed to the solver *)
(* ================================================================== *)

(** X6: whatever the budget and the priority string, building the program
    raises nothing, and the solver gets one coefficient, one entry of the
    budget row and one pair of bounds per item of the catalog, every pair
    with 0 <= minimum <= maximum. *)
Theorem program_is_consistent
        (linprog : Solver) (budget : Q) (priority : string) :
  exists c,
    objective priority = Ok c
    /\ solve linprog budget priority
       = Ok (linprog c [unit_costs] [budget] bounds_list)
    /\ List.length c = List.length equipment_list
    /\ List.length unit_costs = List.length equipment_list
    /\ List.length bounds_list = List.length equipment_list
    /\ Forall (fun bd => (0 <= fst bd <= snd bd)%Z) bounds_list.
Proof.
  assert (Hc : exists c, objective priority = Ok c
                         /\ List.length c = List.length equipment_list).
  { unfold objective.
    destruct (String.eqb priority "cost");
      [|destruct (String.eqb priority "efficiency")];
      (eexists; split; [vm_compute; reflexivity | reflexivity]). }
  destruct Hc as (c & Hc & Hlen).
  exists c. split; [exact Hc|]. split.
  - unfold solve. rewrite Hc, budget_row_eq, variable_bounds_eq. reflexivity.
  - repeat split; auto. repeat constructor; simpl; lia.
Qed.

(* ================================================================== *)
(** ** The optimizer and the analyzer, end to end *)
(* ================================================================== *)

(** Any attribute in place of the unit cost: the row of the attribute
    applied to a plan is the weighted sum over the plan's entries. *)
Lemma row_of_weighted_sum (attr : Equipment -> Q) (plan : dict Z) :
  is_dict plan -> valid_config plan ->
  dot (map (fun item => attr (snd item)) all_equipment) (plan_vector plan)
  == weighted_sum attr plan.
Proof.
  unfold is_dict.
  induction plan as [|[k q] rest IH]; intros Hnd Hv.
  - unfold plan_vector, equipment_list, keys.
    induction all_equipment as [|item items IHi]; [reflexivity|].
    cbn [map dot weighted_sum] in *. rewrite IHi.
    unfold quantity_of, get. cbn [find]. change (inject_Z 0) with 0. ring.
  - cbn [keys map fst] in Hnd. apply NoDup_cons_iff in Hnd.
    destruct Hnd as [Hk Hnd].
    apply valid_config_cons in Hv. destruct Hv as [Hin Hv].
    apply in_catalog_find in Hin. destruct Hin as [e He].
    cbn [weighted_sum]. rewrite He, <- (IH Hnd Hv).
    rewrite plan_vector_cons.
    rewrite (row_at_key attr k q (quantity_of rest) all_equipment e
                        equipment_list_NoDup He).
    assert (H0 : quantity_of rest k = 0%Z).
    { unfold quantity_of, get. apply find_None in Hk. now rewrite Hk. }
    rewrite H0. unfold plan_vector, equipment_list. change (inject_Z 0) with 0.
    ring.
Qed.

(** The plan read from a solution is that solution, entry by entry. *)
Lemma plan_vector_of_solution (budget : Q) (sol : list Q) :
  lp_solution [unit_costs] [budget] bounds_list sol ->
  Forall2 Qeq (plan_vector (picked equipment_list sol)) sol
  /\ within_bounds (picked equipment_list sol)
  /\ costs_at_most (picked equipment_list sol) budget.
Proof.
  intros Hsol. pose proof Hsol as (Hb & Hi & Hrows).
  assert (Hlen : List.length sol = List.length equipment_list).
  { rewrite <- (Forall2_length Hb). reflexivity. }
  pose proof (quantity_of_picked equipment_list equipment_list_NoDup sol []
                                 Hlen (fun _ _ => eq_refl)) as Hq.
  rewrite (fold_pick_picked equipment_list equipment_list_NoDup sol [])
    in Hq by (intros k _ []).
  cbn [app] in Hq.
  assert (Hmin : Forall (fun item => (0 <= quantity_min (snd item))%Z)
                        all_equipment).
  { eapply Forall_impl; [|exact catalog_ranges]. simpl. intros a H. lia. }
  destruct (read_back _ all_equipment sol Hq Hb Hi Hmin) as [Hin Hvec].
  split; [exact Hvec|]. split; [exact Hin|].
  exists unit_costs. split; [exact budget_row_eq|].
  inversion Hrows as [|? ? Hrow _]; subst. cbn [fst snd] in Hrow.
  unfold plan_vector, equipment_list, keys.
  rewrite (dot_pointwise unit_costs _ _ Hvec). exact Hrow.
Qed.

(* ================================================================== *)
(** ** The mode [efficiency] *)
(* ================================================================== *)

Lemma objective_efficiency :
  objective "efficiency"
  = Ok (map (fun item => - efficiency_gain (snd item) * 10000) all_equipment).
Proof. vm_compute. reflexivity. Qed.

Lemma scaled_row (items : dict Equipment) :
  forall v,
    dot (map (fun item => - efficiency_gain (snd item) * 10000) items) v
    == - (10000) * dot (map (fun item => efficiency_gain (snd item)) items) v.
Proof.
  induction items as [|item items IH]; intros [|vi v]; cbn [map dot];
    try ring.
  rewrite IH. ring.
Qed.

(** A plan within the bounds of every item is a point of the box. *)
Lemma plan_vector_in_box (plan : dict Z) (items : dict Equipment) :
  Forall (fun item =>
            (quantity_min (snd item) <= quantity_of plan (fst item)
             <= quantity_max (snd item))%Z) items ->
  Forall2 (fun bd xi => inject_Z (fst bd) <= xi <= inject_Z (snd bd))
          (map (fun item => (quantity_min (snd item), quantity_max (snd item)))
               items)
          (map (fun k => inject_Z (quantity_of plan k)) (map fst items)).
Proof.
  induction 1 as [|item items [Hlo Hhi] _ IH]; cbn [map]; constructor.
  - cbn [fst snd]. split; rewrite <- Zle_Qle; assumption.
  - exact IH.
Qed.

Lemma plan_is_solution (plan : dict Z) (budget : Q) :
  within_bounds plan -> costs_at_most plan budget ->
  lp_solution [unit_costs] [budget] bounds_list (plan_vector plan).
Proof.
  intros Hin (row & Hrow & Hle).
  rewrite budget_row_eq in Hrow. inversion Hrow; subst row.
  split; [|split].
  - exact (plan_vector_in_box plan all_equipment Hin).
  - apply Forall_forall. intros xi Hxi. unfold plan_vector in Hxi.
    apply in_map_iff in Hxi. destruct Hxi as (k & <- & _).
    eexists. reflexivity.
  - constructor; [exact Hle | constructor].
Qed.

(* ================================================================== *)
(** ** Binary64: rounding *)
(* ================================================================== *)

Import Num.


Lemma pow2_pos (k : Z) : 0 < pow2 k.
Proof.
  unfold pow2. destruct (0 <=? k)%Z eqn:E.
  - change 0 with (inject_Z 0). rewrite <- Zlt_Qlt. apply Z.pow_pos_nonneg; lia.
  - apply Qinv_lt_0_compat. change 0 with (inject_Z 0). rewrite <- Zlt_Qlt.
    apply Z.pow_pos_nonneg; lia.
Qed.

Lemma pow2_nonpos (s : Z) :
  (s <= 0)%Z -> pow2 s == / inject_Z (2 ^ (- s)).
Proof.
  intro H. unfold pow2. destruct (Z.leb_spec 0 s) as [H0|H0]; [|reflexivity].
  assert (s = 0%Z) by lia. subst s. reflexivity.
Qed.

Lemma Qred_inject_Z (z : Z) : Qred (inject_Z z) = inject_Z z.
Proof. apply Qcanon.Qred_identity. simpl. apply Z.gcd_1_r. Qed.

Lemma Qred_of_integer (x : Q) (z : Z) : x == inject_Z z -> Qred x = inject_Z z.
Proof. intro H. rewrite (Qred_complete _ _ H). apply Qred_inject_Z. Qed.

Lemma ilog2_integer (z : Z) : (0 < z)%Z -> ilog2 (inject_Z z) = Z.log2 z.
Proof.
  intro H. unfold ilog2. cbn [Qnum Qden inject_Z].
  change (Z.log2 1) with 0%Z. rewrite Z.sub_0_r.
  assert (E : Qle_bool (pow2 (Z.log2 z)) (inject_Z z) = true).
  { apply Qle_bool_iff. unfold pow2.
    destruct (Z.leb_spec 0 (Z.log2 z)) as [_|Hn].
    - rewrite <- Zle_Qle. apply Z.log2_spec. exact H.
    - pose proof (Z.log2_nonneg z). lia. }
  now rewrite E.
Qed.

Lemma Qabs_inject_Z (z : Z) : Qabs (inject_Z z) = inject_Z (Z.abs z).
Proof. reflexivity. Qed.

Lemma not_overflow (z : Z) :
  (Z.abs z < 2 ^ 1024)%Z ->
  Qle_bool (pow2 1024) (Qabs (inject_Z z)) = false.
Proof.
  intro H. destruct (Qle_bool _ _) eqn:E; [|reflexivity].
  apply Qle_bool_iff in E. rewrite Qabs_inject_Z in E.
  change (pow2 1024) with (inject_Z (2 ^ 1024)) in E.
  rewrite <- Zle_Qle in E. lia.
Qed.

(** A whole number below 2^53 in magnitude is a double: rounding leaves it
    as it is. *)
Lemma rnd_exact (x : Q) (z : Z) :
  x == inject_Z z -> (Z.abs z < 2 ^ 53)%Z -> rnd x = Finite (inject_Z z).
Proof.
  intros Hx Hz. unfold rnd. rewrite (Qred_of_integer x z Hx).
  destruct (Z.eq_dec z 0) as [->|Hnz]; [reflexivity|].
  assert (E0 : Qeq_bool (inject_Z z) 0 = false).
  { destruct (Qeq_bool _ _) eqn:E; [|reflexivity].
    apply Qeq_bool_iff in E. change 0 with (inject_Z 0) in E.
    rewrite inject_Z_injective in E. contradiction. }
  rewrite E0. unfold ulp_exponent. rewrite Qabs_inject_Z.
  rewrite ilog2_integer by lia.
  assert (Hlog : (0 <= Z.log2 (Z.abs z) < 53)%Z).
  { split; [apply Z.log2_nonneg|]. apply Z.log2_lt_pow2; lia. }
  rewrite Z.max_l by lia.
  set (s := (Z.log2 (Z.abs z) - 52)%Z).
  assert (Hs : (s <= 0)%Z) by (unfold s; lia).
  assert (Hp : (0 < 2 ^ (- s))%Z) by (apply Z.pow_pos_nonneg; lia).
  assert (Hscaled : inject_Z z / pow2 s == inject_Z (z * 2 ^ (- s))).
  { rewrite (pow2_nonpos s Hs), inject_Z_mult. field.
    change 0 with (inject_Z 0). rewrite inject_Z_injective. lia. }
  rewrite (round_integer _ _ Hscaled).
  assert (Hback : inject_Z (z * 2 ^ (- s)) * pow2 s == inject_Z z).
  { rewrite (pow2_nonpos s Hs), inject_Z_mult. field.
    change 0 with (inject_Z 0). rewrite inject_Z_injective. lia. }
  rewrite (Qred_of_integer _ _ Hback).
  rewrite not_overflow; [reflexivity|].
  assert ((2 ^ 53 < 2 ^ 1024)%Z) by reflexivity. lia.
Qed.

Lemma pow2_Qpower (k : Z) : pow2 k == 2 ^ k.
Proof.
  unfold pow2. destruct (Z.leb_spec 0 k) as [H|H].
  - apply (Zpower_Qpower 2 k H).
  - replace k with (- (- k))%Z at 2 by lia.
    rewrite Qpower_opp. apply Qinv_comp.
    apply (Zpower_Qpower 2 (- k)). lia.
Qed.

Lemma pow2_add (a b : Z) : pow2 (a + b) == pow2 a * pow2 b.
Proof.
  rewrite !pow2_Qpower. apply Qpower_plus. discriminate.
Qed.

Lemma round_bound (x : Q) (n : Z) :
  - inject_Z n <= x <= inject_Z n -> (- n <= round x <= n)%Z.
Proof.
  intros [Hlo Hhi].
  assert (Hf1 : (- n <= Qfloor x)%Z).
  { rewrite <- (Qfloor_Z (- n)). apply Qfloor_resp_le.
    rewrite inject_Z_opp. exact Hlo. }
  assert (Hf2 : (Qfloor x <= n)%Z).
  { rewrite Zle_Qle. apply Qle_trans with x; [apply Qfloor_le | exact Hhi]. }
  unfold round.
  destruct (lt (x - inject_Z (Qfloor x)) (1 # 2)) eqn:L; [lia|].
  apply lt_false_iff in L.
  assert (Hf3 : (Qfloor x < n)%Z).
  { rewrite Zlt_Qlt. apply Qlt_le_trans with x; [lra | exact Hhi]. }
  destruct (lt (1 # 2) _); [lia|]. destruct (Z.even _); lia.
Qed.

(** A whole number below 2^1023 in magnitude rounds to a finite double. *)
Lemma rnd_integer_finite (z : Z) :
  (Z.abs z < 2 ^ 1023)%Z -> exists q, rnd (inject_Z z) = Finite q.
Proof.
  intro Hz. unfold rnd. rewrite Qred_inject_Z.
  destruct (Qeq_bool (inject_Z z) 0); [eexists; reflexivity|].
  destruct (Z.eq_dec z 0) as [->|Hnz].
  { cbn. eexists; reflexivity. }
  unfold ulp_exponent. rewrite Qabs_inject_Z, ilog2_integer by lia.
  assert (Hlog : (0 <= Z.log2 (Z.abs z) < 1023)%Z).
  { split; [apply Z.log2_nonneg|]. apply Z.log2_lt_pow2; lia. }
  rewrite Z.max_l by lia.
  set (e := Z.log2 (Z.abs z)) in *. set (s := (e - 52)%Z).
  pose proof (pow2_pos s) as Hps.
  assert (Hup : (Z.abs z < 2 ^ (e + 1))%Z).
  { apply Z.log2_lt_pow2; unfold e; lia. }
  assert (Hsplit : inject_Z (2 ^ (e + 1)) == inject_Z (2 ^ 53) * pow2 s).
  { change (inject_Z (2 ^ 53)) with (pow2 53). rewrite <- pow2_add.
    unfold s. replace (53 + (e - 52))%Z with (e + 1)%Z by lia.
    unfold pow2. destruct (Z.leb_spec 0 (e + 1)); [reflexivity | lia]. }
  assert (Habs : Qabs (inject_Z z) < inject_Z (2 ^ 53) * pow2 s).
  { rewrite Qabs_inject_Z, <- Hsplit, <- Zlt_Qlt. exact Hup. }
  assert (Hscaled : - inject_Z (2 ^ 53) <= inject_Z z / pow2 s <= inject_Z (2 ^ 53)).
  { apply Qabs_Qle_condition.
    assert (E : Qabs (inject_Z z / pow2 s) == Qabs (inject_Z z) / pow2 s).
    { unfold Qdiv. rewrite Qabs_Qmult. apply Qmult_comp; [reflexivity|].
      apply Qabs_pos. apply Qlt_le_weak, Qinv_lt_0_compat, Hps. }
    rewrite E. apply Qle_shift_div_r; [exact Hps|]. apply Qlt_le_weak, Habs. }
  pose proof (round_bound _ _ Hscaled) as Hr.
  set (t := round (inject_Z z / pow2 s)) in *.
  assert (Hfin : Qle_bool (pow2 1024)
                          (Qabs (Qred (inject_Z t * pow2 s))) = false).
  { destruct (Qle_bool _ _) eqn:E; [|reflexivity]. exfalso.
    apply Qle_bool_iff in E. rewrite (Qred_correct _) in E.
    rewrite Qabs_Qmult, (Qabs_pos (pow2 s)) in E by (apply Qlt_le_weak, Hps).
    rewrite Qabs_inject_Z in E.
    assert (Ht : inject_Z (Z.abs t) <= inject_Z (2 ^ 53)).
    { rewrite <- Zle_Qle. lia. }
    assert (Hle : inject_Z (Z.abs t) * pow2 s <= inject_Z (2 ^ (e + 1))).
    { rewrite Hsplit. apply Qmult_le_compat_r; [exact Ht | apply Qlt_le_weak, Hps]. }
    assert (Hbig : inject_Z (2 ^ (e + 1)) < pow2 1024).
    { change (pow2 1024) with (inject_Z (2 ^ 1024)). rewrite <- Zlt_Qlt.
      apply Z.pow_lt_mono_r; lia. }
    lra. }
  rewrite Hfin. eexists. reflexivity.
Qed.

(* ================================================================== *)
(** ** Binary64: the operations on Python numbers *)
(* ================================================================== *)

(** The number [z] held by a float. *)
Lemma float_of_int_exact (z : Z) :
  (Z.abs z < 2 ^ 53)%Z -> float_of_int z = Ok (Finite (inject_Z z)).
Proof.
  intro H. unfold float_of_int. rewrite (rnd_exact (inject_Z z) z); [reflexivity| |exact H].
  reflexivity.
Qed.

Lemma float_of_int_finite (z : Z) :
  int_in_float_range z -> exists q, float_of_int z = Ok (Finite q).
Proof.
  intro H. unfold float_of_int.
  destruct (rnd_integer_finite z H) as [q ->]. eauto.
Qed.

Lemma to_float_returns (n : number) :
  in_float_range n -> exists f, to_float n = Ok f.
Proof.
  destruct n as [z|f]; intro H; cbn [to_float].
  - destruct (float_of_int_finite z H) as [q ->]. eauto.
  - eauto.
Qed.

(** What [float(z)] raises is [OverflowError]. *)
Lemma float_of_int_raises (z : Z) (e : exn) :
  float_of_int z = Raise e -> e = OverflowError.
Proof.
  unfold float_of_int. destruct (rnd _); intro H; congruence.
Qed.

Lemma to_float_raises (n : number) (e : exn) :
  to_float n = Raise e -> e = OverflowError.
Proof.
  destruct n; cbn [to_float]; [apply float_of_int_raises | discriminate].
Qed.

Lemma add_raises (a b : number) (e : exn) :
  add a b = Raise e -> e = OverflowError.
Proof.
  destruct a as [x|x], b as [y|y]; cbn [add to_float bind]; try discriminate.
  - destruct (float_of_int x) eqn:E; cbn [bind]; [discriminate|].
    intro H. injection H as <-. eapply float_of_int_raises, E.
  - destruct (float_of_int y) eqn:E; cbn [bind]; [discriminate|].
    intro H. injection H as <-. eapply float_of_int_raises, E.
Qed.

Lemma mul_raises (a b : number) (e : exn) :
  mul a b = Raise e -> e = OverflowError.
Proof.
  destruct a as [x|x], b as [y|y]; cbn [mul to_float bind]; try discriminate.
  - destruct (float_of_int x) eqn:E; cbn [bind]; [discriminate|].
    intro H. injection H as <-. eapply float_of_int_raises, E.
  - destruct (float_of_int y) eqn:E; cbn [bind]; [discriminate|].
    intro H. injection H as <-. eapply float_of_int_raises, E.
Qed.

(** With a float on one side, [+] and [*] return a float as soon as the
    other side converts. *)
Lemma add_float_l (f : float) (b : number) :
  in_float_range b -> exists g, add (PyFloat f) b = Ok (PyFloat g).
Proof.
  intro H. destruct (to_float_returns b H) as [y Hy].
  destruct b; cbn [add to_float bind] in *; rewrite ?Hy; cbn [bind]; eauto.
Qed.

Lemma add_float_r (a : number) (f : float) :
  in_float_range a -> exists g, add a (PyFloat f) = Ok (PyFloat g).
Proof.
  intro H. destruct (to_float_returns a H) as [y Hy].
  destruct a; cbn [add to_float bind] in *; rewrite ?Hy; cbn [bind]; eauto.
Qed.

Lemma mul_float_l (f : float) (b : number) :
  in_float_range b -> exists g, mul (PyFloat f) b = Ok (PyFloat g).
Proof.
  intro H. destruct (to_float_returns b H) as [y Hy].
  destruct b; cbn [mul to_float bind] in *; rewrite ?Hy; cbn [bind]; eauto.
Qed.

Lemma mul_float_r (a : number) (f : float) :
  in_float_range a -> exists g, mul a (PyFloat f) = Ok (PyFloat g).
Proof.
  intro H. destruct (to_float_returns a H) as [y Hy].
  destruct a; cbn [mul to_float bind] in *; rewrite ?Hy; cbn [bind]; eauto.
Qed.

(** [*] does not depend on the order of its operands. *)
Lemma fmul_comm (a b : float) : fmul a b = fmul b a.
Proof.
  destruct a as [x|s|], b as [y|t|]; cbn [fmul]; try reflexivity.
  - unfold rnd. rewrite (Qred_complete (x * y) (y * x)) by ring. reflexivity.
  - destruct (Qeq_bool x 0); [reflexivity|]. now rewrite xorb_comm.
  - destruct (Qeq_bool y 0); [reflexivity|]. now rewrite xorb_comm.
  - now rewrite xorb_comm.
Qed.

Lemma mul_comm (a b : number) : mul a b = mul b a.
Proof.
  destruct a as [x|x], b as [y|y]; cbn [mul to_float bind].
  - now rewrite Z.mul_comm.
  - destruct (float_of_int x); cbn [bind]; [now rewrite fmul_comm | reflexivity].
  - destruct (float_of_int y); cbn [bind]; [now rewrite fmul_comm | reflexivity].
  - now rewrite fmul_comm.
Qed.

(* ================================================================== *)
(** ** The model of binary64 and the kernel's floats *)
(* ================================================================== *)

(** On the samples, which hold the decimal literals of the code, the model
    rounds, multiplies and adds as the kernel's IEEE 754 binary64 floats
    do. *)
Lemma binary64_agrees_with_kernel_floats : Kernel.agree = true.
Proof. vm_compute. reflexivity. Qed.

(* ================================================================== *)
(** ** The cost calculator on Python numbers *)
(* ================================================================== *)

(** The costs of the catalog are small whole numbers, and every lifespan
    divides its acquisition cost: the amortized acquisition is a float that
    holds a whole number. *)
Lemma catalog_costs :
  Forall (fun item =>
            let e := snd item in
            int_true_div (acquisition_cost e) (lifespan e)
            = Ok (Finite (inject_Z (acquisition_cost e / lifespan e)))
            /\ (1 <= acquisition_cost e / lifespan e <= 2 ^ 16)%Z
            /\ (0 <= maintenance_cost e <= 2 ^ 16)%Z
            /\ (0 <= readiness_cost e <= 2 ^ 16)%Z
            /\ (0 <= usage_cost_per_hour e <= 2 ^ 16)%Z)
         all_equipment.
Proof.
  repeat constructor; cbn [snd]; try (vm_compute; congruence); reflexivity.
Qed.

Lemma lookup_costs (k : string) (e : Equipment) :
  lookup_equipment k = Ok e ->
  int_true_div (acquisition_cost e) (lifespan e)
  = Ok (Finite (inject_Z (acquisition_cost e / lifespan e)))
  /\ (1 <= acquisition_cost e / lifespan e <= 2 ^ 16)%Z
  /\ (0 <= maintenance_cost e <= 2 ^ 16)%Z
  /\ (0 <= readiness_cost e <= 2 ^ 16)%Z
  /\ (0 <= usage_cost_per_hour e <= 2 ^ 16)%Z.
Proof.
  rewrite lookup_equipment_find.
  destruct (find k all_equipment) as [e'|] eqn:E; [|discriminate].
  intro H. injection H as <-.
  pose proof catalog_costs as R. rewrite Forall_forall in R.
  exact (R _ (find_In _ _ _ E)).
Qed.

Lemma small_in_float_range (z : Z) :
  (0 <= z <= 2 ^ 16)%Z -> int_in_float_range z.
Proof.
  intro H. unfold int_in_float_range.
  assert ((2 ^ 16 < 2 ^ 1023)%Z) by reflexivity. lia.
Qed.

Lemma usage_in_float_range (rate h : Z) :
  (0 <= rate <= 2 ^ 16)%Z -> (Z.abs h < 2 ^ 1000)%Z ->
  int_in_float_range (rate * h).
Proof.
  intros Hr Hh. unfold int_in_float_range.
  rewrite Z.abs_mul, (Z.abs_eq rate) by lia.
  assert (E : (2 ^ 1023 = 2 ^ 23 * 2 ^ 1000)%Z) by reflexivity.
  assert ((2 ^ 16 < 2 ^ 23)%Z) by reflexivity.
  assert ((0 < 2 ^ 1000)%Z) by reflexivity.
  rewrite E. nia.
Qed.

(** On a key of the catalog, with a quantity and usage hours in range, the
    calculator returns, and its total is a float. *)
Lemma calculate_annual_cost_in_range (k : string) (q : Z) (h : number) :
  in_catalog k -> int_in_float_range q -> usage_hours_in_range h ->
  exists cost f,
    Binary64.calculate_annual_cost k q h = Ok cost
    /\ Binary64.total cost = PyFloat f.
Proof.
  intros Hk Hq Hh.
  destruct (lookup_in_catalog _ Hk) as (e & He & _).
  destruct (lookup_costs k e He) as (Hdiv & Ha & Hm & Hr & Hu).
  unfold Binary64.calculate_annual_cost. rewrite He. cbn [bind].
  rewrite Hdiv. cbn [bind].
  assert (Hau : exists au,
             mul (PyInt (usage_cost_per_hour e)) h = Ok au
             /\ in_float_range au
             /\ returns (mul au (PyInt q))).
  { destruct h as [z|f].
    - exists (PyInt (usage_cost_per_hour e * z)). cbn [mul].
      split; [reflexivity|]. split; [apply usage_in_float_range; assumption|].
      eexists. reflexivity.
    - destruct (mul_float_r (PyInt (usage_cost_per_hour e)) f) as [g Hg].
      { apply small_in_float_range, Hu. }
      exists (PyFloat g). split; [exact Hg|]. split; [exact I|].
      destruct (mul_float_l g (PyInt q) Hq) as [g' Hg']. eexists. exact Hg'. }
  destruct Hau as (au & -> & Hrange & [ua Hua]). cbn [bind].
  destruct (add_float_l (Finite (inject_Z (acquisition_cost e / lifespan e)))
                        (PyInt (maintenance_cost e))) as [s1 ->].
  { apply small_in_float_range, Hm. }
  cbn [bind].
  destruct (add_float_l s1 (PyInt (readiness_cost e))) as [s2 ->].
  { apply small_in_float_range, Hr. }
  cbn [bind].
  destruct (add_float_l s2 au Hrange) as [s3 ->]. cbn [bind].
  destruct (mul_float_l s3 (PyInt q) Hq) as [t ->]. cbn [bind].
  destruct (mul_float_l (Finite (inject_Z (acquisition_cost e / lifespan e)))
                        (PyInt q) Hq) as [a ->].
  cbn [bind mul]. rewrite Hua. cbn [bind].
  do 2 eexists. split; reflexivity.
Qed.

(** On a key outside the catalog the calculator raises [KeyError] with that
    key. *)
Lemma calculate_annual_cost_KeyError (k : string) (q : Z) (h : number) :
  ~ in_catalog k -> Binary64.calculate_annual_cost k q h = Raise (KeyError k).
Proof.
  intro H. unfold Binary64.calculate_annual_cost.
  rewrite (lookup_not_in_catalog k H). reflexivity.
Qed.

(** C2, as the code has it: [calculate_annual_cost] has no check of the
    quantity and raises no invalid-quantity error.  For every key of the
    catalog, every quantity below 2^1023 in magnitude, a negative one
    included, and all usage hours that are a float or an int below 2^1000
    in magnitude, it returns normally. *)
Theorem calculate_annual_cost_returns_in_range
        (k : string) (q : Z) (usage_hours : number) :
  in_catalog k -> int_in_float_range q -> usage_hours_in_range usage_hours ->
  returns (Binary64.calculate_annual_cost k q usage_hours).
Proof.
  intros Hk Hq Hh.
  destruct (calculate_annual_cost_in_range k q usage_hours Hk Hq Hh)
    as (cost & _ & Hc & _).
  exists cost. exact Hc.
Qed.

Lemma calculate_annual_cost_returns_in_range_witness :
  returns (Binary64.calculate_annual_cost "gps_tracker" (-1) (PyInt 100)).
Proof.
  apply (calculate_annual_cost_returns_in_range "gps_tracker" (-1) (PyInt 100)).
  - left. reflexivity.
  - reflexivity.
  - reflexivity.
Defined.

(** C2 fails as stated, on both sides.  With the quantity -1, which is
    below 0, [calculate_annual_cost] on the catalog key [gps_tracker]
    raises nothing and returns the total -6500.0; with the quantity 2^1024,
    which is not negative, it does not return: the conversion of the
    quantity to a float raises [OverflowError]. *)
Lemma calculate_annual_cost_negative_quantity_returns :
  in_catalog "gps_tracker"
  /\ ((-1 < 0)%Z
      /\ exists cost,
          Binary64.calculate_annual_cost "gps_tracker" (-1) (PyInt 100)
          = Ok cost
          /\ Binary64.total cost = whole (-6500))
  /\ ((0 <= 2 ^ 1024)%Z
      /\ Binary64.calculate_annual_cost "gps_tracker" (2 ^ 1024) (PyInt 100)
         = Raise OverflowError).
Proof.
  split; [left; reflexivity|]. split.
  - split; [reflexivity|]. eexists. split; vm_compute; reflexivity.
  - split; [discriminate | vm_compute; reflexivity].
Qed.

(** X2: [calculate_annual_cost] raises [KeyError] exactly on a key that is in
    neither dictionary of the catalog, with that key, whatever the quantity
    and the usage hours; on a key of the catalog the one thing it can raise
    is [OverflowError]. *)
Theorem annual_cost_raises_on_unknown_key_only
        (k : string) (q : Z) (usage_hours : number) :
  (~ in_catalog k
   <-> Binary64.calculate_annual_cost k q usage_hours = Raise (KeyError k))
  /\ (in_catalog k ->
      forall e,
        Binary64.calculate_annual_cost k q usage_hours = Raise e ->
        e = OverflowError).
Proof.
  assert (Hcat : in_catalog k ->
                 forall e,
                   Binary64.calculate_annual_cost k q usage_hours = Raise e ->
                   e = OverflowError).
  { intros Hk err.
    destruct (lookup_in_catalog _ Hk) as (e & He & _).
    destruct (lookup_costs k e He) as (Hdiv & _).
    unfold Binary64.calculate_annual_cost. rewrite He. cbn [bind].
    rewrite Hdiv. cbn [bind].
    repeat match goal with
           | |- bind ?m _ = Raise _ -> _ =>
               let E := fresh "E" in
               destruct m eqn:E; cbn [bind];
               [| intro H; injection H as <-;
                  first [eapply mul_raises, E | eapply add_raises, E]]
           end.
    discriminate. }
  split; [|exact Hcat].
  split.
  - apply calculate_annual_cost_KeyError.
  - intros H Hk. specialize (Hcat Hk _ H). discriminate.
Qed.

(* ================================================================== *)
(** ** The scorer and the analyzer on Python numbers: what they raise *)
(* ================================================================== *)

Lemma quantities_in_range_cons (k : string) (q : Z) (rest : dict Z) :
  quantities_in_range ((k, q) :: rest)
  <-> int_in_float_range q /\ quantities_in_range rest.
Proof.
  unfold quantities_in_range. split.
  - intro H. inversion H; subst. auto.
  - intros [H1 H2]. constructor; assumption.
Qed.

(** One turn of the scorer's loop on a key of the catalog. *)
Lemma score_step_in_range (k : string) (q : Z) (te tr : number) :
  in_catalog k -> int_in_float_range q ->
  in_float_range te -> in_float_range tr ->
  exists e te' tr' g r,
    lookup_equipment k = Ok e
    /\ mul (PyFloat (literal (efficiency_gain e))) (PyInt q) = Ok (PyFloat g)
    /\ add te (PyFloat g) = Ok (PyFloat te')
    /\ mul (PyFloat (literal (response_time_reduction e))) (PyInt q)
       = Ok (PyFloat r)
    /\ add tr (PyFloat r) = Ok (PyFloat tr')
    /\ Binary64.score_step (k, q) (te, tr) = Ok (PyFloat te', PyFloat tr').
Proof.
  intros Hk Hq Hte Htr.
  destruct (lookup_in_catalog _ Hk) as (e & He & _).
  destruct (mul_float_l (literal (efficiency_gain e)) (PyInt q) Hq) as [g Hg].
  destruct (add_float_r te g Hte) as [te' Hte'].
  destruct (mul_float_l (literal (response_time_reduction e)) (PyInt q) Hq)
    as [r Hr].
  destruct (add_float_r tr r Htr) as [tr' Htr'].
  exists e, te', tr', g, r.
  unfold Binary64.score_step. rewrite He. cbn [bind].
  rewrite Hg. cbn [bind]. rewrite Hte'. cbn [bind].
  rewrite Hr. cbn [bind]. rewrite Htr'. cbn [bind]. auto 10.
Qed.

Lemma score_loop_in_range (config : dict Z) :
  valid_config config -> quantities_in_range config ->
  forall te tr,
    in_float_range te -> in_float_range tr ->
    exists te' tr',
      for_each config Binary64.score_step (te, tr) = Ok (te', tr')
      /\ in_float_range te' /\ in_float_range tr'.
Proof.
  induction config as [|[k q] rest IH]; intros Hv Hq te tr Hte Htr.
  - exists te, tr. auto.
  - apply valid_config_cons in Hv. destruct Hv as [Hk Hrest].
    apply quantities_in_range_cons in Hq. destruct Hq as [Hq Hqs].
    destruct (score_step_in_range k q te tr Hk Hq Hte Htr)
      as (e & te' & tr' & g & r & _ & _ & _ & _ & _ & Hs).
    cbn [for_each]. rewrite Hs. cbn [bind].
    apply (IH Hrest Hqs); exact I.
Qed.

Lemma score_loop_KeyError (config : dict Z) :
  (exists k, In k (keys config) /\ ~ in_catalog k) ->
  quantities_in_range config ->
  forall te tr,
    in_float_range te -> in_float_range tr ->
    exists k, In k (keys config) /\ ~ in_catalog k
              /\ for_each config Binary64.score_step (te, tr)
                 = Raise (KeyError k).
Proof.
  induction config as [|[k q] rest IH]; intros (k0 & Hin & Hno) Hq te tr Hte Htr.
  - destruct Hin.
  - apply quantities_in_range_cons in Hq. destruct Hq as [Hq Hqs].
    destruct (in_catalog_dec k) as [Hk|Hk].
    + destruct (score_step_in_range k q te tr Hk Hq Hte Htr)
        as (e & te' & tr' & g & r & _ & _ & _ & _ & _ & Hs).
      destruct (IH) with (te := PyFloat te') (tr := PyFloat tr')
        as (k1 & Hin1 & Hno1 & Hl); try exact I; try assumption.
      { destruct Hin as [<-|Hin]; [contradiction|]. exists k0. auto. }
      exists k1. split; [now right|]. split; [exact Hno1|].
      cbn [for_each]. rewrite Hs. cbn [bind]. exact Hl.
    + exists k. split; [now left|]. split; [exact Hk|].
      cbn [for_each Binary64.score_step].
      rewrite (lookup_not_in_catalog k Hk). reflexivity.
Qed.

Lemma calculate_efficiency_score_in_range (config : dict Z) (uh : number) :
  valid_config config -> quantities_in_range config ->
  returns (Binary64.calculate_efficiency_score config uh).
Proof.
  intros Hv Hq.
  destruct (score_loop_in_range config Hv Hq (PyInt 0) (PyInt 0))
    as (te & tr & Hl & Hte & Htr); try reflexivity.
  unfold Binary64.calculate_efficiency_score. rewrite Hl. cbn [bind].
  destruct (mul_float_r te (literal 0.6) Hte) as [a ->]. cbn [bind].
  destruct (mul_float_r tr (literal 0.4) Htr) as [b ->]. cbn [bind add to_float].
  eexists. reflexivity.
Qed.

Lemma calculate_efficiency_score_KeyError (config : dict Z) (uh : number) :
  (exists k, In k (keys config) /\ ~ in_catalog k) ->
  quantities_in_range config ->
  exists k, In k (keys config) /\ ~ in_catalog k
            /\ Binary64.calculate_efficiency_score config uh
               = Raise (KeyError k).
Proof.
  intros Hex Hq.
  destruct (score_loop_KeyError config Hex Hq (PyInt 0) (PyInt 0))
    as (k & Hin & Hno & Hl); try reflexivity.
  exists k. split; [exact Hin|]. split; [exact Hno|].
  unfold Binary64.calculate_efficiency_score. rewrite Hl. reflexivity.
Qed.

(** One turn of the analyzer's loop on an entry whose quantity is not above
    0 leaves the breakdown and the running total as they are. *)
Lemma breakdown_step_skips_entry (k : string) (q : Z)
      (state : dict Binary64.CostBreakdown * number) :
  (q <= 0)%Z -> Binary64.breakdown_step (k, q) state = Ok state.
Proof.
  intro Hq. destruct state as [cost_data tot]. unfold Binary64.breakdown_step.
  destruct (Z.gtb_spec q 0); [lia | reflexivity].
Qed.

(** One turn on an entry of the catalog with a quantity above 0 files the
    entry's cost under its key and adds its total. *)
Lemma breakdown_step_files_entry (k : string) (q : Z)
      (cost_data : dict Binary64.CostBreakdown) (tot : number) :
  in_catalog k -> (0 < q)%Z -> int_in_float_range q -> in_float_range tot ->
  exists cost tot',
    Binary64.calculate_annual_cost k q Binary64.default_usage_hours = Ok cost
    /\ add tot (Binary64.total cost) = Ok (PyFloat tot')
    /\ Binary64.breakdown_step (k, q) (cost_data, tot)
       = Ok (dict_setitem k cost cost_data, PyFloat tot').
Proof.
  intros Hk Hq Hr Htot.
  destruct (calculate_annual_cost_in_range k q Binary64.default_usage_hours
              Hk Hr) as (cost & f & Hc & Hf); [reflexivity|].
  destruct (add_float_r tot f Htot) as [tot' Ht].
  exists cost, tot'. rewrite Hf. split; [exact Hc|]. split; [exact Ht|].
  unfold Binary64.breakdown_step.
  destruct (Z.gtb_spec q 0); [|lia].
  rewrite Hc. cbn [bind]. rewrite getitem_setitem. cbn [bind].
  rewrite Hf, Ht. reflexivity.
Qed.

(** The analyzer's loop on quantities in range: it stops with [KeyError] at
    a key outside the catalog, or it ends. *)
Lemma breakdown_loop_in_range (config : dict Z) :
  quantities_in_range config ->
  forall cost_data tot,
    in_float_range tot ->
    (exists k, In k (keys config) /\ ~ in_catalog k
               /\ for_each config Binary64.breakdown_step (cost_data, tot)
                  = Raise (KeyError k))
    \/ (exists cost_data' tot',
           for_each config Binary64.breakdown_step (cost_data, tot)
           = Ok (cost_data', tot')
           /\ in_float_range tot').
Proof.
  induction config as [|[k q] rest IH]; intros Hq cost_data tot Htot.
  - right. exists cost_data, tot. auto.
  - apply quantities_in_range_cons in Hq. destruct Hq as [Hq Hqs].
    cbn [for_each].
    destruct (Z_lt_le_dec 0 q) as [Hpos|Hneg].
    + destruct (in_catalog_dec k) as [Hk|Hk].
      * destruct (breakdown_step_files_entry k q cost_data tot Hk Hpos Hq Htot)
          as (cost & tot' & _ & _ & Hs).
        rewrite Hs. cbn [bind].
        destruct (IH Hqs (dict_setitem k cost cost_data) (PyFloat tot') I)
          as [(k1 & Hin & Hno & Hl)|Hok].
        -- left. exists k1. split; [now right|]. auto.
        -- right. exact Hok.
      * left. exists k. split; [now left|]. split; [exact Hk|].
        unfold Binary64.breakdown_step.
        destruct (Z.gtb_spec q 0); [|lia].
        rewrite (calculate_annual_cost_KeyError k q _ Hk). reflexivity.
    + rewrite (breakdown_step_skips_entry k q _ Hneg). cbn [bind].
      destruct (IH Hqs cost_data tot Htot) as [(k1 & Hin & Hno & Hl)|Hok].
      * left. exists k1. split; [now right|]. auto.
      * right. exact Hok.
Qed.

Lemma mul_in_range (a b : number) :
  in_float_range a -> in_float_range b -> returns (mul a b).
Proof.
  intros Ha Hb. destruct a as [x|x].
  - destruct b as [y|y].
    + eexists. reflexivity.
    + destruct (mul_float_r (PyInt x) y Ha) as [g Hg]. eexists. exact Hg.
  - destruct (mul_float_l x b Hb) as [g Hg]. eexists. exact Hg.
Qed.

Lemma generate_cost_breakdown_in_range (config : dict Z) (years : number) :
  valid_config config -> quantities_in_range config -> in_float_range years ->
  returns (Binary64.generate_cost_breakdown config years).
Proof.
  intros Hv Hq Hy. unfold Binary64.generate_cost_breakdown.
  destruct (breakdown_loop_in_range config Hq [] (PyInt 0))
    as [(k & Hin & Hno & Hl)|(cd & tot & Hl & Htot)]; [reflexivity| |].
  - exfalso. apply Hno, Hv, Hin.
  - rewrite Hl. cbn [bind].
    destruct (mul_in_range tot years Htot Hy) as [t5 ->]. cbn [bind].
    destruct (calculate_efficiency_score_in_range
                config Binary64.default_usage_hours Hv Hq) as [m ->].
    cbn [bind]. eexists. reflexivity.
Qed.

(** C3, as the code has it: on quantities below 2^1023 in magnitude and a
    number of years that is a float or an int below 2^1023 in magnitude, a
    configuration with a key that is in neither group of the catalog makes
    [calculate_efficiency_score] and [generate_cost_breakdown] raise
    [KeyError] (the specification's UnknownItem) at such a key, and on a
    configuration whose keys are all in the catalog both return normally. *)
Theorem unknown_key_raises_KeyError
        (config : dict Z) (usage_hours years : number) :
  quantities_in_range config -> in_float_range years ->
  ((exists k, In k (keys config) /\ ~ in_catalog k) ->
   (exists k, In k (keys config) /\ ~ in_catalog k
              /\ Binary64.calculate_efficiency_score config usage_hours
                 = Raise (KeyError k))
   /\ (exists k, In k (keys config) /\ ~ in_catalog k
                 /\ Binary64.generate_cost_breakdown config years
                    = Raise (KeyError k)))
  /\ (valid_config config ->
      returns (Binary64.calculate_efficiency_score config usage_hours)
      /\ returns (Binary64.generate_cost_breakdown config years)).
Proof.
  intros Hq Hy. split.
  - intro Hex. split; [apply calculate_efficiency_score_KeyError; assumption|].
    unfold Binary64.generate_cost_breakdown.
    destruct (breakdown_loop_in_range config Hq [] (PyInt 0))
      as [(k & Hin & Hno & Hl)|(cd & tot & Hl & Htot)]; [reflexivity| |].
    + exists k. rewrite Hl. auto.
    + rewrite Hl. cbn [bind].
      destruct (mul_in_range tot years Htot Hy) as [t5 ->]. cbn [bind].
      destruct (calculate_efficiency_score_KeyError
                  config Binary64.default_usage_hours Hex Hq)
        as (k & Hin & Hno & Hs).
      exists k. rewrite Hs. auto.
  - intro Hv. split; [apply calculate_efficiency_score_in_range; assumption|].
    apply generate_cost_breakdown_in_range; assumption.
Qed.

Lemma unknown_key_raises_KeyError_witness :
  ((exists k, In k (keys [("gps_tracker"%string, 2%Z); ("laser"%string, 0%Z)])
              /\ ~ in_catalog k
              /\ Binary64.calculate_efficiency_score
                   [("gps_tracker"%string, 2%Z); ("laser"%string, 0%Z)]
                   (PyInt 100)
                 = Raise (KeyError k))
   /\ (exists k, In k (keys [("gps_tracker"%string, 2%Z); ("laser"%string, 0%Z)])
                 /\ ~ in_catalog k
                 /\ Binary64.generate_cost_breakdown
                      [("gps_tracker"%string, 2%Z); ("laser"%string, 0%Z)]
                      (PyInt 5)
                    = Raise (KeyError k)))
  /\ (returns (Binary64.calculate_efficiency_score
                 [("gps_tracker"%string, 2%Z)] (PyInt 100))
      /\ returns (Binary64.generate_cost_breakdown
                    [("gps_tracker"%string, 2%Z)] (PyInt 5))).
Proof.
  split.
  - apply (unknown_key_raises_KeyError
             [("gps_tracker"%string, 2%Z); ("laser"%string, 0%Z)]
             (PyInt 100) (PyInt 5)).
    + repeat constructor.
    + reflexivity.
    + exists "laser"%string. split.
      * simpl. auto.
      * intros [H|H]; vm_compute in H; discriminate.
  - apply (unknown_key_raises_KeyError [("gps_tracker"%string, 2%Z)]
             (PyInt 100) (PyInt 5)).
    + repeat constructor.
    + reflexivity.
    + intros k [<-|[]]. left. reflexivity.
Defined.

(** C3 fails as stated once a quantity is out of the range of a float.  The
    dictionary [{'backup_drone': 2**1024}] has its one key in the catalog,
    and neither function returns: both raise [OverflowError].  With the key
    [laser], which is in neither group, added after it, both still raise
    [OverflowError] and not [KeyError]. *)
Lemma out_of_range_quantity_raises_OverflowError :
  (valid_config [("backup_drone"%string, (2 ^ 1024)%Z)]
   /\ Binary64.calculate_efficiency_score
        [("backup_drone"%string, (2 ^ 1024)%Z)] (PyInt 100)
      = Raise OverflowError
   /\ Binary64.generate_cost_breakdown
        [("backup_drone"%string, (2 ^ 1024)%Z)] (PyInt 5)
      = Raise OverflowError)
  /\ (In "laser"%string
         (keys [("backup_drone"%string, (2 ^ 1024)%Z); ("laser"%string, 1%Z)])
      /\ ~ in_catalog "laser"
      /\ Binary64.calculate_efficiency_score
           [("backup_drone"%string, (2 ^ 1024)%Z); ("laser"%string, 1%Z)]
           (PyInt 100)
         = Raise OverflowError
      /\ Binary64.generate_cost_breakdown
           [("backup_drone"%string, (2 ^ 1024)%Z); ("laser"%string, 1%Z)]
           (PyInt 5)
         = Raise OverflowError).
Proof.
  split.
  - split; [intros k [<-|[]]; left; reflexivity|].
    split; vm_compute; reflexivity.
  - split; [simpl; auto|].
    split; [intros [H|H]; vm_compute in H; discriminate|].
    split; vm_compute; reflexivity.
Qed.

(* ================================================================== *)
(** ** Whole numbers below 2^53: the figures are exact *)
(* ================================================================== *)

Lemma fadd_whole (a b : Z) :
  (Z.abs (a + b) < 2 ^ 53)%Z ->
  fadd (Finite (inject_Z a)) (Finite (inject_Z b)) = Finite (inject_Z (a + b)).
Proof.
  intro H. cbn [fadd]. apply rnd_exact; [|exact H].
  now rewrite inject_Z_plus.
Qed.

Lemma fmul_whole (a b : Z) :
  (Z.abs (a * b) < 2 ^ 53)%Z ->
  fmul (Finite (inject_Z a)) (Finite (inject_Z b)) = Finite (inject_Z (a * b)).
Proof.
  intro H. cbn [fmul]. apply rnd_exact; [|exact H].
  now rewrite inject_Z_mult.
Qed.

Lemma add_whole (a b : Z) :
  (Z.abs (a + b) < 2 ^ 53)%Z -> add (whole a) (whole b) = Ok (whole (a + b)).
Proof.
  intro H. unfold whole. cbn [add to_float bind]. now rewrite fadd_whole.
Qed.

Lemma add_whole_int (a b : Z) :
  (Z.abs b < 2 ^ 53)%Z -> (Z.abs (a + b) < 2 ^ 53)%Z ->
  add (whole a) (PyInt b) = Ok (whole (a + b)).
Proof.
  intros Hb H. unfold whole. cbn [add to_float].
  rewrite (float_of_int_exact b Hb). cbn [bind]. now rewrite fadd_whole.
Qed.

Lemma add_int_whole (a b : Z) :
  (Z.abs a < 2 ^ 53)%Z -> (Z.abs (a + b) < 2 ^ 53)%Z ->
  add (PyInt a) (whole b) = Ok (whole (a + b)).
Proof.
  intros Ha H. unfold whole. cbn [add to_float].
  rewrite (float_of_int_exact a Ha). cbn [bind]. now rewrite fadd_whole.
Qed.

Lemma mul_whole_int (a b : Z) :
  (Z.abs b < 2 ^ 53)%Z -> (Z.abs (a * b) < 2 ^ 53)%Z ->
  mul (whole a) (PyInt b) = Ok (whole (a * b)).
Proof.
  intros Hb H. unfold whole. cbn [mul to_float].
  rewrite (float_of_int_exact b Hb). cbn [bind]. now rewrite fmul_whole.
Qed.

(** The figures of the calculator at a whole number of usage hours, while
    the total stays below 2^53: every figure is the exact whole number. *)
Lemma calculate_annual_cost_exact (k : string) (e : Equipment) (h q : Z) :
  lookup_equipment k = Ok e -> (0 <= h)%Z ->
  (annual_unit_cost_int e h * Z.max 1 (Z.abs q) < 2 ^ 53)%Z ->
  Binary64.calculate_annual_cost k q (PyInt h)
  = Ok {| Binary64.acquisition := whole (acquisition_cost e / lifespan e * q);
          Binary64.maintenance := PyInt (maintenance_cost e * q);
          Binary64.readiness := PyInt (readiness_cost e * q);
          Binary64.usage := PyInt (usage_cost_per_hour e * h * q);
          Binary64.total := whole (annual_unit_cost_int e h * q) |}.
Proof.
  intros He Hh Hb.
  destruct (lookup_costs k e He) as (Hdiv & Ha & Hm & Hr & Hu).
  unfold annual_unit_cost_int in *.
  set (aa := (acquisition_cost e / lifespan e)%Z) in *.
  set (m := maintenance_cost e) in *. set (r := readiness_cost e) in *.
  set (rate := usage_cost_per_hour e) in *.
  assert (Hq : (Z.abs q < 2 ^ 53)%Z) by nia.
  assert (Hrh : (0 <= rate * h)%Z) by nia.
  assert (Hunit : (aa + m + r + rate * h < 2 ^ 53)%Z) by nia.
  unfold Binary64.calculate_annual_cost. rewrite He. cbn [bind].
  fold aa m r rate. rewrite Hdiv. cbn [bind].
  change (mul (PyInt rate) (PyInt h)) with (Ok (PyInt (rate * h))).
  cbn [bind].
  change (PyFloat (Finite (inject_Z aa))) with (whole aa).
  rewrite (add_whole_int aa m) by lia. cbn [bind].
  rewrite (add_whole_int (aa + m) r) by lia. cbn [bind].
  rewrite (add_whole_int (aa + m + r) (rate * h)) by lia. cbn [bind].
  rewrite (mul_whole_int (aa + m + r + rate * h) q) by (try exact Hq; nia).
  cbn [bind].
  rewrite (mul_whole_int aa q) by (try exact Hq; nia).
  cbn [bind mul]. reflexivity.
Qed.

(** C8, as the code has it: at a whole number of usage hours that is not
    negative, for every key of the catalog and all quantities q1, q2 >= 0
    whose joint total stays below 2^53, the total of
    [calculate_annual_cost] at q1 + q2 is the total at q1 plus the total at
    q2: all three are exact. *)
Theorem calculate_annual_cost_additive
        (k : string) (e : Equipment) (h q1 q2 : Z) :
  lookup_equipment k = Ok e ->
  (0 <= h)%Z -> (0 <= q1)%Z -> (0 <= q2)%Z ->
  (annual_unit_cost_int e h * Z.max 1 (q1 + q2) < 2 ^ 53)%Z ->
  exists c1 c2 c12,
    Binary64.calculate_annual_cost k q1 (PyInt h) = Ok c1
    /\ Binary64.calculate_annual_cost k q2 (PyInt h) = Ok c2
    /\ Binary64.calculate_annual_cost k (q1 + q2) (PyInt h) = Ok c12
    /\ add (Binary64.total c1) (Binary64.total c2) = Ok (Binary64.total c12)
    /\ Binary64.total c12 = whole (annual_unit_cost_int e h * (q1 + q2)).
Proof.
  intros He Hh H1 H2 Hb.
  destruct (lookup_costs k e He) as (_ & Ha & Hm & Hr & Hu).
  assert (Hu1 : (1 <= annual_unit_cost_int e h)%Z).
  { unfold annual_unit_cost_int. nia. }
  do 3 eexists.
  split; [apply (calculate_annual_cost_exact k e h q1 He Hh); nia|].
  split; [apply (calculate_annual_cost_exact k e h q2 He Hh); nia|].
  split; [apply (calculate_annual_cost_exact k e h (q1 + q2) He Hh); nia|].
  cbn [Binary64.total]. split; [|reflexivity].
  rewrite add_whole by nia. now rewrite <- Z.mul_add_distr_l.
Qed.

Lemma calculate_annual_cost_additive_witness :
  exists c1 c2 c12,
    Binary64.calculate_annual_cost "gps_tracker" 3 (PyInt 100) = Ok c1
    /\ Binary64.calculate_annual_cost "gps_tracker" 4 (PyInt 100) = Ok c2
    /\ Binary64.calculate_annual_cost "gps_tracker" (3 + 4) (PyInt 100)
       = Ok c12
    /\ add (Binary64.total c1) (Binary64.total c2) = Ok (Binary64.total c12)
    /\ Binary64.total c12 = whole (6500 * (3 + 4)).
Proof.
  apply (calculate_annual_cost_additive
           "gps_tracker"
           {| name := "GPS追踪器";
              acquisition_cost := 2000;
              maintenance_cost := 300;
              readiness_cost := 200;
              usage_cost_per_hour := 50;
              efficiency_gain := 0.75;
              response_time_reduction := 0.6;
              lifespan := 2;
              quantity_min := 2;
              quantity_max := 10 |} 100 3 4).
  - reflexivity.
  - lia.
  - lia.
  - lia.
  - reflexivity.
Defined.

(** C8 fails as stated.  At 0.001 usage hours the total of [gps_tracker] at
    7 units is 10500.35 while the totals at 3 and at 4 units add up to
    10500.349999999999; and at the default 100 usage hours the totals at
    2^53 units and at 1 unit add up to 6500 x 2^53 + 8192, while the total
    at 2^53 + 1 units is 6500 x 2^53. *)
Lemma annual_cost_not_additive :
  in_catalog "gps_tracker"
  /\ (exists c3 c4 c7 s,
         Binary64.calculate_annual_cost "gps_tracker" 3
           (PyFloat (literal 0.001)) = Ok c3
         /\ Binary64.calculate_annual_cost "gps_tracker" 4
              (PyFloat (literal 0.001)) = Ok c4
         /\ Binary64.calculate_annual_cost "gps_tracker" (3 + 4)
              (PyFloat (literal 0.001)) = Ok c7
         /\ add (Binary64.total c3) (Binary64.total c4) = Ok s
         /\ s <> Binary64.total c7)
  /\ (exists c1 c2 c12 s,
         Binary64.calculate_annual_cost "gps_tracker" (2 ^ 53) (PyInt 100)
         = Ok c1
         /\ Binary64.calculate_annual_cost "gps_tracker" 1 (PyInt 100) = Ok c2
         /\ Binary64.calculate_annual_cost "gps_tracker" (2 ^ 53 + 1)
              (PyInt 100) = Ok c12
         /\ add (Binary64.total c1) (Binary64.total c2) = Ok s
         /\ s = whole (6500 * 2 ^ 53 + 8192)
         /\ Binary64.total c12 = whole (6500 * 2 ^ 53)).
Proof.
  split; [left; reflexivity|]. split.
  - do 4 eexists.
    split; [vm_compute; reflexivity|].
    split; [vm_compute; reflexivity|].
    split; [vm_compute; reflexivity|].
    split; [vm_compute; reflexivity|].
    discriminate.
  - do 4 eexists.
    split; [vm_compute; reflexivity|].
    split; [vm_compute; reflexivity|].
    split; [vm_compute; reflexivity|].
    split; [vm_compute; reflexivity|].
    split; vm_compute; reflexivity.
Qed.

(** X1: at a whole number of usage hours, while the total stays below 2^53 in
    magnitude, the four components [calculate_annual_cost] returns add up,
    with the code's own [+], to its total, and the total is the quantity
    times the cost of one unit. *)
Theorem annual_cost_components_add_up
        (k : string) (e : Equipment) (h q : Z) :
  lookup_equipment k = Ok e -> (0 <= h)%Z ->
  (annual_unit_cost_int e h * Z.max 1 (Z.abs q) < 2 ^ 53)%Z ->
  exists cost s1 s2,
    Binary64.calculate_annual_cost k q (PyInt h) = Ok cost
    /\ add (Binary64.acquisition cost) (Binary64.maintenance cost) = Ok s1
    /\ add s1 (Binary64.readiness cost) = Ok s2
    /\ add s2 (Binary64.usage cost) = Ok (Binary64.total cost)
    /\ Binary64.total cost = whole (annual_unit_cost_int e h * q).
Proof.
  intros He Hh Hb.
  destruct (lookup_costs k e He) as (_ & Ha & Hm & Hr & Hu).
  rewrite (calculate_annual_cost_exact k e h q He Hh Hb).
  unfold annual_unit_cost_int in *.
  set (aa := (acquisition_cost e / lifespan e)%Z) in *.
  set (m := maintenance_cost e) in *. set (r := readiness_cost e) in *.
  set (rate := usage_cost_per_hour e) in *.
  assert (Hrh : (0 <= rate * h)%Z) by nia.
  do 3 eexists. split; [reflexivity|].
  cbn [Binary64.acquisition Binary64.maintenance Binary64.readiness
       Binary64.usage Binary64.total].
  split; [apply add_whole_int; nia|].
  split; [apply add_whole_int; nia|].
  split; [|reflexivity].
  rewrite add_whole_int by nia. unfold whole. do 4 f_equal. ring.
Qed.

Lemma annual_cost_components_add_up_witness :
  exists cost s1 s2,
    Binary64.calculate_annual_cost "backup_drone" 5 (PyInt 100) = Ok cost
    /\ add (Binary64.acquisition cost) (Binary64.maintenance cost) = Ok s1
    /\ add s1 (Binary64.readiness cost) = Ok s2
    /\ add s2 (Binary64.usage cost) = Ok (Binary64.total cost)
    /\ Binary64.total cost = whole (66500 * 5).
Proof.
  apply (annual_cost_components_add_up
           "backup_drone"
           {| name := "备用无人机";
              acquisition_cost := 30000;
              maintenance_cost := 4500;
              readiness_cost := 2000;
              usage_cost_per_hour := 500;
              efficiency_gain := 0.85;
              response_time_reduction := 0.7;
              lifespan := 3;
              quantity_min := 1;
              quantity_max := 5 |} 100 5).
  - reflexivity.
  - lia.
  - reflexivity.
Defined.

(** X3: at a whole number of usage hours that is not negative, while the
    totals stay below 2^53, none of the five figures of a quantity that is
    not negative is negative, and a larger quantity never has a smaller
    total. *)
Theorem annual_cost_nonnegative_and_monotone
        (k : string) (e : Equipment) (h q1 q2 : Z) :
  lookup_equipment k = Ok e -> (0 <= h)%Z -> (0 <= q1 <= q2)%Z ->
  (annual_unit_cost_int e h * Z.max 1 q2 < 2 ^ 53)%Z ->
  exists c1 c2 a1 m1 r1 u1 t1 t2,
    Binary64.calculate_annual_cost k q1 (PyInt h) = Ok c1
    /\ Binary64.calculate_annual_cost k q2 (PyInt h) = Ok c2
    /\ Binary64.acquisition c1 = whole a1
    /\ Binary64.maintenance c1 = PyInt m1
    /\ Binary64.readiness c1 = PyInt r1
    /\ Binary64.usage c1 = PyInt u1
    /\ Binary64.total c1 = whole t1
    /\ Binary64.total c2 = whole t2
    /\ (0 <= a1)%Z /\ (0 <= m1)%Z /\ (0 <= r1)%Z /\ (0 <= u1)%Z
    /\ (0 <= t1 <= t2)%Z.
Proof.
  intros He Hh Hq Hb.
  destruct (lookup_costs k e He) as (_ & Ha & Hm & Hr & Hu).
  assert (Hu1 : (1 <= annual_unit_cost_int e h)%Z).
  { unfold annual_unit_cost_int. nia. }
  rewrite (calculate_annual_cost_exact k e h q1 He Hh) by nia.
  rewrite (calculate_annual_cost_exact k e h q2 He Hh) by nia.
  do 8 eexists.
  cbn [Binary64.acquisition Binary64.maintenance Binary64.readiness
       Binary64.usage Binary64.total].
  repeat (split; [reflexivity|]).
  repeat split; nia.
Qed.

Lemma annual_cost_nonnegative_and_monotone_witness :
  exists c1 c2 a1 m1 r1 u1 t1 t2,
    Binary64.calculate_annual_cost "backup_drone" 2 (PyInt 100) = Ok c1
    /\ Binary64.calculate_annual_cost "backup_drone" 5 (PyInt 100) = Ok c2
    /\ Binary64.acquisition c1 = whole a1
    /\ Binary64.maintenance c1 = PyInt m1
    /\ Binary64.readiness c1 = PyInt r1
    /\ Binary64.usage c1 = PyInt u1
    /\ Binary64.total c1 = whole t1
    /\ Binary64.total c2 = whole t2
    /\ (0 <= a1)%Z /\ (0 <= m1)%Z /\ (0 <= r1)%Z /\ (0 <= u1)%Z
    /\ (0 <= t1 <= t2)%Z.
Proof.
  apply (annual_cost_nonnegative_and_monotone
           "backup_drone"
           {| name := "备用无人机";
              acquisition_cost := 30000;
              maintenance_cost := 4500;
              readiness_cost := 2000;
              usage_cost_per_hour := 500;
              efficiency_gain := 0.85;
              response_time_reduction := 0.7;
              lifespan := 3;
              quantity_min := 1;
              quantity_max := 5 |} 100 2 5).
  - reflexivity.
  - lia.
  - lia.
  - reflexivity.
Defined.

(* ================================================================== *)
(** ** The scorer on Python numbers: what it returns *)
(* ================================================================== *)

(** The loop of the scorer runs the two sums side by side. *)
Lemma score_loop_sums (config : dict Z) :
  valid_config config -> quantities_in_range config ->
  forall te tr,
    in_float_range te -> in_float_range tr ->
    exists te' tr',
      for_each config Binary64.score_step (te, tr) = Ok (te', tr')
      /\ in_float_range te' /\ in_float_range tr'
      /\ for_each config (rounded_term efficiency_gain) te = Ok te'
      /\ for_each config (rounded_term response_time_reduction) tr = Ok tr'.
Proof.
  induction config as [|[k q] rest IH]; intros Hv Hq te tr Hte Htr.
  - exists te, tr. cbn [for_each]. auto.
  - apply valid_config_cons in Hv. destruct Hv as [Hk Hrest].
    apply quantities_in_range_cons in Hq. destruct Hq as [Hq Hqs].
    destruct (score_step_in_range k q te tr Hk Hq Hte Htr)
      as (e & te' & tr' & g & r & He & Hg & Hte' & Hr & Htr' & Hs).
    assert (Hf : find k all_equipment = Some e).
    { rewrite lookup_equipment_find in He.
      destruct (find k all_equipment); congruence. }
    destruct (IH Hrest Hqs (PyFloat te') (PyFloat tr') I I)
      as (te'' & tr'' & Hl & H1 & H2 & H3 & H4).
    exists te'', tr''. cbn [for_each]. unfold rounded_term at 1 3.
    cbn [fst snd]. rewrite Hs, Hf. cbn [bind].
    rewrite Hg, Hr. cbn [bind]. rewrite Hte', Htr'. cbn [bind]. auto.
Qed.

(** C7, as the code has it: on a configuration whose keys are all in the
    catalog and whose quantities are below 2^1023 in magnitude,
    [calculate_efficiency_score] returns; [efficiency_score] is the sum of
    efficiency_gain x quantity and [response_improvement] the sum of
    response_time_reduction x quantity as binary64 computes them, every
    product and every partial sum rounded; [overall_score] is the binary64
    value of 0.6 x efficiency_score + 0.4 x response_improvement, the two
    products and the sum rounded once each. *)
Theorem calculate_efficiency_score_rounded_sums
        (config : dict Z) (usage_hours : number) :
  valid_config config -> quantities_in_range config ->
  exists m a b,
    Binary64.calculate_efficiency_score config usage_hours = Ok m
    /\ rounded_weighted_sum efficiency_gain config
       = Ok (Binary64.efficiency_score m)
    /\ rounded_weighted_sum response_time_reduction config
       = Ok (Binary64.response_improvement m)
    /\ mul (PyFloat (literal 0.6)) (Binary64.efficiency_score m)
       = Ok (PyFloat a)
    /\ mul (PyFloat (literal 0.4)) (Binary64.response_improvement m)
       = Ok (PyFloat b)
    /\ Binary64.overall_score m = PyFloat (fadd a b).
Proof.
  intros Hv Hq.
  destruct (score_loop_sums config Hv Hq (PyInt 0) (PyInt 0))
    as (te & tr & Hl & Hte & Htr & He & Hr); try reflexivity.
  unfold Binary64.calculate_efficiency_score. rewrite Hl. cbn [bind].
  destruct (mul_float_r te (literal 0.6) Hte) as [a Ha].
  destruct (mul_float_r tr (literal 0.4) Htr) as [b Hb].
  rewrite Ha, Hb. cbn [bind add to_float].
  exists {| Binary64.efficiency_score := te;
            Binary64.response_improvement := tr;
            Binary64.overall_score := PyFloat (fadd a b) |}, a, b.
  cbn [Binary64.efficiency_score Binary64.response_improvement
       Binary64.overall_score].
  rewrite (mul_comm (PyFloat (literal 0.6)) te).
  rewrite (mul_comm (PyFloat (literal 0.4)) tr).
  auto 10.
Qed.

Lemma calculate_efficiency_score_rounded_sums_witness :
  exists m a b,
    Binary64.calculate_efficiency_score
      [("backup_drone"%string, 2%Z); ("gps_tracker"%string, 5%Z);
       ("portable_gps"%string, 4%Z)] (PyInt 100) = Ok m
    /\ rounded_weighted_sum efficiency_gain
         [("backup_drone"%string, 2%Z); ("gps_tracker"%string, 5%Z);
          ("portable_gps"%string, 4%Z)]
       = Ok (Binary64.efficiency_score m)
    /\ rounded_weighted_sum response_time_reduction
         [("backup_drone"%string, 2%Z); ("gps_tracker"%string, 5%Z);
          ("portable_gps"%string, 4%Z)]
       = Ok (Binary64.response_improvement m)
    /\ mul (PyFloat (literal 0.6)) (Binary64.efficiency_score m)
       = Ok (PyFloat a)
    /\ mul (PyFloat (literal 0.4)) (Binary64.response_improvement m)
       = Ok (PyFloat b)
    /\ Binary64.overall_score m = PyFloat (fadd a b).
Proof.
  apply (calculate_efficiency_score_rounded_sums
           [("backup_drone"%string, 2%Z); ("gps_tracker"%string, 5%Z);
            ("portable_gps"%string, 4%Z)] (PyInt 100)).
  - intros k [<-|[<-|[<-|[]]]]; vm_compute; auto.
  - repeat constructor.
Defined.

(** C7 fails as stated: the fields are binary64 sums, neither the exact sums
    nor linear in a quantity.  On the small bundle the exact sum of
    response_time_reduction x quantity is 5.8, and [response_improvement]
    is another number, 5.800000000000001, which is not the float of 5.8
    either.  On [{'backup_drone': q}], [response_improvement] is 3.5 at
    q = 5, while its values at q = 2 and at q = 3 add up, exactly and with
    the float [+], to another number. *)
Lemma efficiency_score_not_exact_nor_linear :
  (valid_config [("backup_drone"%string, 2%Z); ("gps_tracker"%string, 5%Z);
                 ("portable_gps"%string, 4%Z)]
   /\ weighted_sum response_time_reduction
        [("backup_drone"%string, 2%Z); ("gps_tracker"%string, 5%Z);
         ("portable_gps"%string, 4%Z)] == 29 # 5
   /\ exists m r,
       Binary64.calculate_efficiency_score
         [("backup_drone"%string, 2%Z); ("gps_tracker"%string, 5%Z);
          ("portable_gps"%string, 4%Z)] (PyInt 100) = Ok m
       /\ Binary64.response_improvement m = PyFloat (Finite r)
       /\ ~ r == 29 # 5
       /\ Finite r <> literal (29 # 5))
  /\ (exists m2 m3 m5 r2 r3 r5,
         Binary64.calculate_efficiency_score
           [("backup_drone"%string, 2%Z)] (PyInt 100) = Ok m2
         /\ Binary64.calculate_efficiency_score
              [("backup_drone"%string, 3%Z)] (PyInt 100) = Ok m3
         /\ Binary64.calculate_efficiency_score
              [("backup_drone"%string, (2 + 3)%Z)] (PyInt 100) = Ok m5
         /\ Binary64.response_improvement m2 = PyFloat (Finite r2)
         /\ Binary64.response_improvement m3 = PyFloat (Finite r3)
         /\ Binary64.response_improvement m5 = PyFloat (Finite r5)
         /\ r5 == 7 # 2
         /\ ~ r2 + r3 == r5
         /\ fadd (Finite r2) (Finite r3) <> Finite r5).
Proof.
  split.
  - split; [intros k [<-|[<-|[<-|[]]]]; vm_compute; auto|].
    split; [reflexivity|].
    do 2 eexists.
    split; [vm_compute; reflexivity|].
    split; [reflexivity|].
    split; [intro H; vm_compute in H; discriminate|].
    vm_compute. discriminate.
  - do 6 eexists.
    split; [vm_compute; reflexivity|].
    split; [vm_compute; reflexivity|].
    split; [vm_compute; reflexivity|].
    split; [reflexivity|]. split; [reflexivity|]. split; [reflexivity|].
    split; [reflexivity|].
    split; [intro H; vm_compute in H; discriminate|].
    vm_compute. discriminate.
Qed.

(* ================================================================== *)
(** ** The analyzer on Python numbers: what it files *)
(* ================================================================== *)

(** The loop on a valid configuration, started on a breakdown with none of
    its keys: it appends one cost per entry with a quantity above 0, in
    order, and adds their totals to the running total. *)
Lemma breakdown_loop_files (config : dict Z) :
  valid_config config -> is_dict config -> quantities_in_range config ->
  forall cost_data tot,
    in_float_range tot ->
    (forall k, In k (keys config) -> ~ In k (keys cost_data)) ->
    exists added tot',
      for_each config Binary64.breakdown_step (cost_data, tot)
      = Ok (cost_data ++ added, tot')
      /\ in_float_range tot'
      /\ Forall2 (fun entry filed =>
                    fst filed = fst entry
                    /\ Binary64.calculate_annual_cost
                         (fst entry) (snd entry) Binary64.default_usage_hours
                       = Ok (snd filed))
                 (positive_entries config) added
      /\ for_each added
                  (fun filed acc => add acc (Binary64.total (snd filed))) tot
         = Ok tot'.
Proof.
  unfold is_dict.
  induction config as [|[k q] rest IH];
    intros Hv Hnd Hqr cost_data tot Htot Hfresh.
  - exists [], tot. cbn [for_each positive_entries filter].
    rewrite app_nil_r. repeat split; [exact Htot | constructor].
  - apply valid_config_cons in Hv. destruct Hv as [Hk Hrest].
    apply quantities_in_range_cons in Hqr. destruct Hqr as [Hq Hqs].
    cbn [keys map fst] in Hnd. apply NoDup_cons_iff in Hnd.
    destruct Hnd as [Hnotin Hnd].
    cbn [for_each positive_entries filter snd].
    destruct (Z_lt_le_dec 0 q) as [Hpos|Hneg].
    + destruct (breakdown_step_files_entry k q cost_data tot Hk Hpos Hq Htot)
        as (cost & t1 & Hc & Ht1 & Hs).
      rewrite Hs. cbn [bind].
      assert (Hnew : find k cost_data = None).
      { apply find_None. apply Hfresh. now left. }
      rewrite (setitem_fresh _ _ _ Hnew).
      destruct (IH Hrest Hnd Hqs (cost_data ++ [(k, cost)]) (PyFloat t1) I)
        as (added & tot' & Hloop & Hr' & Hall & Hsum).
      { intros k' Hin. rewrite keys_app, in_app_iff. intros [H|[H|[]]].
        - apply (Hfresh k'); [now right | exact H].
        - simpl in H. subst k'. contradiction. }
      exists ((k, cost) :: added), tot'.
      destruct (Z.gtb_spec q 0); [|lia].
      rewrite Hloop, <- app_assoc. split; [reflexivity|].
      split; [exact Hr'|]. split.
      * constructor; [split; [reflexivity | exact Hc] | exact Hall].
      * cbn [for_each snd]. rewrite Ht1. cbn [bind]. exact Hsum.
    + rewrite (breakdown_step_skips_entry k q _ Hneg). cbn [bind].
      destruct (IH Hrest Hnd Hqs cost_data tot Htot)
        as (added & tot' & Hloop & Hr' & Hall & Hsum).
      { intros k' Hin. apply Hfresh. now right. }
      exists added, tot'.
      destruct (Z.gtb_spec q 0); [lia|].
      repeat split; assumption.
Qed.

(** Taking an entry whose quantity is not above 0 out of a configuration
    changes nothing in what the loop computes. *)
Lemma breakdown_loop_without_entry (before after : dict Z) (k : string) (q : Z)
      (state : dict Binary64.CostBreakdown * number) :
  (q <= 0)%Z ->
  for_each (before ++ (k, q) :: after) Binary64.breakdown_step state
  = for_each (before ++ after) Binary64.breakdown_step state.
Proof.
  intro Hq. rewrite !for_each_app.
  destruct (for_each before Binary64.breakdown_step state) as [st|e];
    [|reflexivity].
  cbn [bind for_each]. rewrite (breakdown_step_skips_entry k q st Hq).
  reflexivity.
Qed.

Lemma quantities_in_range_app (l1 l2 : dict Z) :
  quantities_in_range (l1 ++ l2)
  <-> quantities_in_range l1 /\ quantities_in_range l2.
Proof. apply Forall_app. Qed.

(** C10, the part of it the code has: on a dictionary whose keys are all in
    the catalog, with quantities below 2^1023 in magnitude and a number of
    years that is a float or an int below 2^1023 in magnitude,
    [generate_cost_breakdown] files in [annual_breakdown] exactly the
    entries with a quantity above 0, each at its [calculate_annual_cost];
    [total_annual_cost] is their totals added up in order and
    [total_5year_cost] that sum times [years]; [efficiency_metrics] is
    [calculate_efficiency_score] of the whole configuration, its sums
    running over every entry.  So an entry with a quantity at or below 0
    can be taken out without changing a cost figure. *)
Theorem generate_cost_breakdown_skips_nonpositive
        (config : dict Z) (years : number) :
  is_dict config -> valid_config config ->
  quantities_in_range config -> in_float_range years ->
  exists a,
    Binary64.generate_cost_breakdown config years = Ok a
    /\ Forall2 (fun entry filed =>
                  fst filed = fst entry
                  /\ Binary64.calculate_annual_cost
                       (fst entry) (snd entry) Binary64.default_usage_hours
                     = Ok (snd filed))
               (positive_entries config) (Binary64.annual_breakdown a)
    /\ sum_totals (Binary64.annual_breakdown a)
       = Ok (Binary64.total_annual_cost a)
    /\ mul (Binary64.total_annual_cost a) years
       = Ok (Binary64.total_5year_cost a)
    /\ Binary64.calculate_efficiency_score config Binary64.default_usage_hours
       = Ok (Binary64.efficiency_metrics a)
    /\ forall before k q after,
        config = before ++ (k, q) :: after -> (q <= 0)%Z ->
        exists a',
          Binary64.generate_cost_breakdown (before ++ after) years = Ok a'
          /\ Binary64.annual_breakdown a = Binary64.annual_breakdown a'
          /\ Binary64.total_annual_cost a = Binary64.total_annual_cost a'
          /\ Binary64.total_5year_cost a = Binary64.total_5year_cost a'.
Proof.
  intros Hd Hv Hq Hy.
  destruct (breakdown_loop_files config Hv Hd Hq [] (PyInt 0))
    as (added & tot & Hl & Htot & Hall & Hsum);
    [reflexivity | intros k _ [] |].
  cbn [app] in Hl.
  destruct (mul_in_range tot years Htot Hy) as [t5 Ht5].
  destruct (calculate_efficiency_score_in_range
              config Binary64.default_usage_hours Hv Hq) as [m Hm].
  assert (Hgen : Binary64.generate_cost_breakdown config years
                 = Ok {| Binary64.annual_breakdown := added;
                         Binary64.total_annual_cost := tot;
                         Binary64.total_5year_cost := t5;
                         Binary64.efficiency_metrics := m |}).
  { unfold Binary64.generate_cost_breakdown.
    rewrite Hl. cbn [bind]. rewrite Ht5. cbn [bind]. rewrite Hm. reflexivity. }
  eexists. split; [exact Hgen|].
  cbn [Binary64.annual_breakdown Binary64.total_annual_cost
       Binary64.total_5year_cost Binary64.efficiency_metrics].
  split; [exact Hall|]. split; [exact Hsum|]. split; [exact Ht5|].
  split; [exact Hm|].
  intros before k q after Hcfg Hneg. subst config.
  apply valid_config_app in Hv. destruct Hv as [Hv1 Hv2].
  apply valid_config_cons in Hv2. destruct Hv2 as [_ Hv2].
  apply quantities_in_range_app in Hq. destruct Hq as [Hq1 Hq2].
  apply quantities_in_range_cons in Hq2. destruct Hq2 as [_ Hq2].
  destruct (calculate_efficiency_score_in_range
              (before ++ after) Binary64.default_usage_hours) as [m' Hm'].
  { apply valid_config_app. auto. }
  { apply quantities_in_range_app. auto. }
  eexists. split.
  - unfold Binary64.generate_cost_breakdown.
    rewrite <- (breakdown_loop_without_entry before after k q _ Hneg).
    rewrite Hl. cbn [bind]. rewrite Ht5. cbn [bind]. rewrite Hm'. reflexivity.
  - auto.
Qed.

Lemma generate_cost_breakdown_skips_nonpositive_witness :
  exists a,
    Binary64.generate_cost_breakdown
      [("backup_drone"%string, 2%Z); ("rf_detector"%string, (-1)%Z)]
      (PyInt 5) = Ok a
    /\ Forall2 (fun entry filed =>
                  fst filed = fst entry
                  /\ Binary64.calculate_annual_cost
                       (fst entry) (snd entry) Binary64.default_usage_hours
                     = Ok (snd filed))
               (positive_entries
                  [("backup_drone"%string, 2%Z); ("rf_detector"%string, (-1)%Z)])
               (Binary64.annual_breakdown a)
    /\ sum_totals (Binary64.annual_breakdown a)
       = Ok (Binary64.total_annual_cost a)
    /\ mul (Binary64.total_annual_cost a) (PyInt 5)
       = Ok (Binary64.total_5year_cost a)
    /\ Binary64.calculate_efficiency_score
         [("backup_drone"%string, 2%Z); ("rf_detector"%string, (-1)%Z)]
         Binary64.default_usage_hours
       = Ok (Binary64.efficiency_metrics a)
    /\ forall before k q after,
        [("backup_drone"%string, 2%Z); ("rf_detector"%string, (-1)%Z)]
        = before ++ (k, q) :: after -> (q <= 0)%Z ->
        exists a',
          Binary64.generate_cost_breakdown (before ++ after) (PyInt 5) = Ok a'
          /\ Binary64.annual_breakdown a = Binary64.annual_breakdown a'
          /\ Binary64.total_annual_cost a = Binary64.total_annual_cost a'
          /\ Binary64.total_5year_cost a = Binary64.total_5year_cost a'.
Proof.
  apply (generate_cost_breakdown_skips_nonpositive
           [("backup_drone"%string, 2%Z); ("rf_detector"%string, (-1)%Z)]
           (PyInt 5)).
  - repeat constructor; simpl; intuition discriminate.
  - intros k [<-|[<-|[]]]; vm_compute; auto.
  - repeat constructor.
  - reflexivity.
Defined.

(** C10 fails as stated in its last part: an entry with a negative quantity
    need not lower a score.  Next to [{'backup_drone': 2**60}] the entry
    ['rf_detector': -1] is lost in the rounding of the sums: the three
    scores are the same with it and without it.  The cost figures are the
    same as well. *)
Lemma negative_entry_keeps_scores :
  valid_config [("backup_drone"%string, (2 ^ 60)%Z);
                ("rf_detector"%string, (-1)%Z)]
  /\ (-1 < 0)%Z
  /\ exists a a',
      Binary64.generate_cost_breakdown
        [("backup_drone"%string, (2 ^ 60)%Z); ("rf_detector"%string, (-1)%Z)]
        (PyInt 5) = Ok a
      /\ Binary64.generate_cost_breakdown
           [("backup_drone"%string, (2 ^ 60)%Z)] (PyInt 5) = Ok a'
      /\ Binary64.efficiency_metrics a = Binary64.efficiency_metrics a'
      /\ Binary64.total_annual_cost a = Binary64.total_annual_cost a'.
Proof.
  split; [intros k [<-|[<-|[]]]; vm_compute; auto|].
  split; [reflexivity|].
  do 2 eexists.
  split; [vm_compute; reflexivity|].
  split; [vm_compute; reflexivity|].
  split; reflexivity.
Qed.

(* ================================================================== *)
(** ** The priority modes *)
(* ================================================================== *)

(** C9: a priority mode that is neither [cost] nor [efficiency] takes the
    branch of [balanced]: its objective is the one of mode [balanced],
    item by item the cost of one unit at 100 usage hours minus
    efficiency_gain x 5000; the result of the optimizer is the one of mode
    [balanced]; and with a solver that returns one entry per variable
    nothing is raised. *)
Theorem other_priority_is_balanced
        (linprog : Solver)
        (budget : Q) (priority : string) :
  priority <> "cost"%string -> priority <> "efficiency"%string ->
  objective priority = objective "balanced"
  /\ (exists c,
         objective priority = Ok c
         /\ Forall2 (fun item ci =>
                       exists cost,
                         calculate_annual_cost (fst item) 1 100 = Ok cost
                         /\ ci == total cost
                                  - efficiency_gain (snd item) * 5000)
                    all_equipment c)
  /\ optimize_equipment_selection linprog budget priority
     = optimize_equipment_selection linprog budget "balanced"
  /\ (solver_shaped linprog ->
      returns (optimize_equipment_selection linprog budget priority)).
Proof.
  intros H1 H2. split; [exact (objective_other priority H1 H2)|].
  split; [|split].
  - rewrite (objective_other priority H1 H2).
    eexists. split; [vm_compute; reflexivity|].
    repeat (apply Forall2_cons;
            [eexists; split; [vm_compute; reflexivity | reflexivity] |]).
    apply Forall2_nil.
  - unfold optimize_equipment_selection, solve.
    rewrite (objective_other priority H1 H2). reflexivity.
  - intro Hs. destruct (solve_returns linprog budget priority) as (c & _ & Hr).
    unfold optimize_equipment_selection. rewrite Hr. cbn [bind].
    destruct (success (linprog c [unit_costs] [budget] bounds_list)) eqn:E.
    + rewrite quantities_of_fold; [eexists; reflexivity|].
      rewrite (Hs _ _ _ _ E). reflexivity.
    + eexists. reflexivity.
Qed.

Lemma other_priority_is_balanced_witness :
  objective "fastest" = objective "balanced"
  /\ (exists c,
         objective "fastest" = Ok c
         /\ Forall2 (fun item ci =>
                       exists cost,
                         calculate_annual_cost (fst item) 1 100 = Ok cost
                         /\ ci == total cost
                                  - efficiency_gain (snd item) * 5000)
                    all_equipment c)
  /\ optimize_equipment_selection linprog_exhaustive 200000 "fastest"
     = optimize_equipment_selection linprog_exhaustive 200000 "balanced"
  /\ (solver_shaped linprog_exhaustive ->
      returns (optimize_equipment_selection linprog_exhaustive 200000 "fastest")).
Proof.
  apply (other_priority_is_balanced linprog_exhaustive 200000 "fastest");
    discriminate.
Defined.

(** X19: the program the code hands to the solver, computed in binary64, is
    the program of the exact reading: whatever the priority string, every
    coefficient of the objective and every entry of the budget row is a
    float that holds the whole number the exact reading gives. *)
Theorem objective_is_exact_in_binary64 (priority : string) :
  (exists c c64,
      objective priority = Ok c
      /\ Binary64.objective priority = Ok c64
      /\ Forall2 (fun ci ni => exists z, ci == inject_Z z /\ ni = whole z)
                 c c64)
  /\ (exists row row64,
         budget_row = Ok row
         /\ Binary64.budget_row = Ok row64
         /\ Forall2 (fun ri ni => exists z, ri == inject_Z z /\ ni = whole z)
                    row row64).
Proof.
  split.
  - unfold objective, Binary64.objective.
    destruct (String.eqb priority "cost");
      [|destruct (String.eqb priority "efficiency")];
      do 2 eexists;
      (split; [vm_compute; reflexivity|]);
      (split; [vm_compute; reflexivity|]);
      repeat (apply Forall2_cons;
              [eexists; split; [|reflexivity]; reflexivity|]);
      apply Forall2_nil.
  - do 2 eexists.
    split; [vm_compute; reflexivity|].
    split; [vm_compute; reflexivity|].
    repeat (apply Forall2_cons;
            [eexists; split; [|reflexivity]; reflexivity|]).
    apply Forall2_nil.
Qed.

(* ================================================================== *)
(** ** The mode [efficiency]: what the plan maximises *)
(* ================================================================== *)

(** X12: in mode [efficiency], with a solver that returns a solution of least
    objective, a plan found by the solver has the highest sum of
    efficiency_gain x quantity among the plans that keep every item within
    its bounds and cost at most the budget. *)
Theorem efficiency_mode_maximises_gain
        (linprog : Solver) (budget : Q) :
  solver_sound linprog -> solver_optimal linprog ->
  exists r,
    solve linprog budget "efficiency" = Ok r
    /\ (success r = true ->
        exists plan,
          optimize_equipment_selection linprog budget "efficiency" = Ok plan
          /\ forall other,
              is_dict other -> valid_config other ->
              within_bounds other -> costs_at_most other budget ->
              weighted_sum efficiency_gain other
              <= weighted_sum efficiency_gain plan).
Proof.
  intros Hs Ho.
  assert (Hr : solve linprog budget "efficiency"
               = Ok (linprog
                       (map (fun item => - efficiency_gain (snd item) * 10000)
                            all_equipment)
                       [unit_costs] [budget] bounds_list)).
  { unfold solve.
    rewrite objective_efficiency, budget_row_eq, variable_bounds_eq.
    reflexivity. }
  eexists. split; [exact Hr|]. intro E.
  pose proof (Hs _ _ _ _ E) as Hsol.
  destruct (plan_vector_of_solution budget _ Hsol) as (Hvec & _ & _).
  destruct (picked_valid
              (x (linprog
                    (map (fun item => - efficiency_gain (snd item) * 10000)
                         all_equipment)
                    [unit_costs] [budget] bounds_list))) as [Hd Hv].
  eexists. split.
  { rewrite (optimize_success linprog budget "efficiency" _ Hr E).
    apply quantities_of_long.
    destruct Hsol as (Hb & _). rewrite <- (Forall2_length Hb). apply Nat.le_refl. }
  intros other Hdo Hvo Hbo Hco.
  pose proof (Ho _ _ _ _ E _ (plan_is_solution other budget Hbo Hco)) as Hleast.
  rewrite !scaled_row in Hleast.
  rewrite <- (dot_pointwise _ _ _ Hvec) in Hleast.
  rewrite (row_of_weighted_sum efficiency_gain _ Hd Hv) in Hleast.
  rewrite (row_of_weighted_sum efficiency_gain other Hdo Hvo) in Hleast.
  lra.
Qed.

Lemma efficiency_mode_maximises_gain_witness :
  exists r,
    solve linprog_exhaustive 200000 "efficiency" = Ok r
    /\ (success r = true ->
        exists plan,
          optimize_equipment_selection linprog_exhaustive 200000 "efficiency"
          = Ok plan
          /\ forall other,
              is_dict other -> valid_config other ->
              within_bounds other -> costs_at_most other 200000 ->
              weighted_sum efficiency_gain other
              <= weighted_sum efficiency_gain plan).
Proof.
  apply (efficiency_mode_maximises_gain linprog_exhaustive 200000).
  - exact linprog_exhaustive_sound.
  - exact linprog_exhaustive_optimal.
Defined.

(* ================================================================== *)
(** ** The analyzer's total in binary64 and the optimizer's budget row *)
(* ================================================================== *)

(** At the default 100 usage hours the cost of one unit is a whole number:
    the two closed forms agree. *)
Lemma catalog_unit_costs :
  Forall (fun item =>
            inject_Z (annual_unit_cost_int (snd item) 100)
            == annual_unit_cost (snd item) default_usage_hours)
         all_equipment.
Proof. repeat constructor. Qed.

Lemma unit_cost_at_least_1 (k : string) (e : Equipment) :
  find k all_equipment = Some e -> (1 <= annual_unit_cost_int e 100)%Z.
Proof.
  intro H.
  assert (He : lookup_equipment k = Ok e).
  { rewrite lookup_equipment_find, H. reflexivity. }
  destruct (lookup_costs k e He) as (_ & Ha & Hm & Hr & Hu).
  unfold annual_unit_cost_int. nia.
Qed.

Lemma entries_cost_int_nonnegative (plan : dict Z) :
  Forall (fun entry => (0 <= snd entry)%Z) plan ->
  (0 <= entries_cost_int plan)%Z.
Proof.
  induction plan as [|[k q] rest IH]; intro H; cbn [entries_cost_int]; [lia|].
  inversion H as [|? ? Hq Hrest]; subst. cbn [snd] in Hq.
  specialize (IH Hrest).
  destruct (find k all_equipment) as [e|] eqn:E; [|exact IH].
  pose proof (unit_cost_at_least_1 k e E). nia.
Qed.

Lemma entries_cost_int_exact (plan : dict Z) :
  inject_Z (entries_cost_int plan) == entries_cost plan.
Proof.
  induction plan as [|[k q] rest IH]; cbn [entries_cost_int entries_cost];
    [reflexivity|].
  destruct (find k all_equipment) as [e|] eqn:E; [|exact IH].
  pose proof catalog_unit_costs as R. rewrite Forall_forall in R.
  specialize (R _ (find_In _ _ _ E)). cbn [snd] in R.
  rewrite inject_Z_plus, inject_Z_mult, IH, R. reflexivity.
Qed.

(** Quantities that are not negative, on a plan whose cost is below 2^53,
    are themselves below 2^53. *)
Lemma quantities_of_bounded_cost (plan : dict Z) :
  valid_config plan -> Forall (fun entry => (0 <= snd entry)%Z) plan ->
  (entries_cost_int plan < 2 ^ 53)%Z ->
  Forall (fun entry => (0 <= snd entry < 2 ^ 53)%Z) plan.
Proof.
  induction plan as [|[k q] rest IH]; intros Hv Hq Hb; [constructor|].
  apply valid_config_cons in Hv. destruct Hv as [Hk Hv].
  inversion Hq as [|? ? Hq0 Hqs]; subst. cbn [snd] in Hq0.
  apply in_catalog_find in Hk. destruct Hk as [e He].
  cbn [entries_cost_int] in Hb. rewrite He in Hb.
  pose proof (unit_cost_at_least_1 k e He).
  pose proof (entries_cost_int_nonnegative rest Hqs).
  constructor; [cbn [snd]; nia | apply IH; [assumption|assumption|nia]].
Qed.

Lemma bounded_in_float_range (plan : dict Z) :
  Forall (fun entry => (0 <= snd entry < 2 ^ 53)%Z) plan ->
  quantities_in_range plan.
Proof.
  apply Forall_impl. intros [k q] H. cbn [snd] in *.
  unfold int_in_float_range.
  assert ((2 ^ 53 < 2 ^ 1023)%Z) by reflexivity. lia.
Qed.

(** The loop of the analyzer on a plan of catalog keys with quantities that
    are not negative, while the running total stays below 2^53: the running
    total grows by the exact cost of the plan. *)
Lemma breakdown_loop_exact (plan : dict Z) :
  valid_config plan -> Forall (fun entry => (0 <= snd entry)%Z) plan ->
  forall cost_data tot t0,
    equals_int tot t0 -> (0 <= t0)%Z ->
    (t0 + entries_cost_int plan < 2 ^ 53)%Z ->
    exists cost_data' tot',
      for_each plan Binary64.breakdown_step (cost_data, tot)
      = Ok (cost_data', tot')
      /\ equals_int tot' (t0 + entries_cost_int plan).
Proof.
  induction plan as [|[k q] rest IH]; intros Hv Hq cost_data tot t0 Ht H0 Hb.
  - exists cost_data, tot. cbn [for_each entries_cost_int].
    rewrite Z.add_0_r. auto.
  - apply valid_config_cons in Hv. destruct Hv as [Hk Hv].
    inversion Hq as [|? ? Hq0 Hqs]; subst. cbn [snd] in Hq0.
    destruct (lookup_in_catalog _ Hk) as (e & He & Hf & _).
    cbn [entries_cost_int] in Hb |- *. rewrite Hf in Hb |- *.
    pose proof (unit_cost_at_least_1 k e Hf) as Hu.
    pose proof (entries_cost_int_nonnegative rest Hqs) as Hr.
    cbn [for_each].
    destruct (Z.eq_dec q 0) as [->|Hnz].
    + rewrite (breakdown_step_skips_entry k 0 _ (Z.le_refl 0)). cbn [bind].
      rewrite Z.mul_0_r, Z.add_0_l in *.
      apply (IH Hv Hqs cost_data tot t0 Ht H0 Hb).
    + assert (Hstep :
               Binary64.breakdown_step (k, q) (cost_data, tot)
               = Ok (dict_setitem k
                       {| Binary64.acquisition :=
                            whole (acquisition_cost e / lifespan e * q);
                          Binary64.maintenance := PyInt (maintenance_cost e * q);
                          Binary64.readiness := PyInt (readiness_cost e * q);
                          Binary64.usage :=
                            PyInt (usage_cost_per_hour e * 100 * q);
                          Binary64.total :=
                            whole (annual_unit_cost_int e 100 * q) |}
                       cost_data,
                     whole (t0 + annual_unit_cost_int e 100 * q))).
      { unfold Binary64.breakdown_step.
        destruct (Z.gtb_spec q 0); [|lia].
        unfold Binary64.default_usage_hours.
        rewrite (calculate_annual_cost_exact k e 100 q He) by nia.
        cbn [bind]. rewrite getitem_setitem. cbn [bind Binary64.total].
        destruct Ht as [->| ->].
        - rewrite add_int_whole by nia. reflexivity.
        - rewrite add_whole by nia. reflexivity. }
      rewrite Hstep. cbn [bind].
      destruct (IH Hv Hqs
                   (dict_setitem k
                       {| Binary64.acquisition :=
                            whole (acquisition_cost e / lifespan e * q);
                          Binary64.maintenance := PyInt (maintenance_cost e * q);
                          Binary64.readiness := PyInt (readiness_cost e * q);
                          Binary64.usage :=
                            PyInt (usage_cost_per_hour e * 100 * q);
                          Binary64.total :=
                            whole (annual_unit_cost_int e 100 * q) |}
                       cost_data)
                   (whole (t0 + annual_unit_cost_int e 100 * q))
                   (t0 + annual_unit_cost_int e 100 * q)%Z)
        as (cd' & tot' & Hl & He').
      * now right.
      * nia.
      * lia.
      * exists cd', tot'. split; [exact Hl|].
        now rewrite Z.add_assoc.
Qed.

(** The analysis of a plan whose cost stays below 2^53: the annual total is
    the exact cost, and over a whole number of years the total is the exact
    product while that stays below 2^53. *)
Lemma generate_cost_breakdown_exact (plan : dict Z) (years : Z) :
  valid_config plan -> Forall (fun entry => (0 <= snd entry)%Z) plan ->
  (entries_cost_int plan < 2 ^ 53)%Z -> (0 <= years < 2 ^ 53)%Z ->
  exists analysis,
    Binary64.generate_cost_breakdown plan (PyInt years) = Ok analysis
    /\ equals_int (Binary64.total_annual_cost analysis) (entries_cost_int plan)
    /\ ((entries_cost_int plan * years < 2 ^ 53)%Z ->
        equals_int (Binary64.total_5year_cost analysis)
                   (entries_cost_int plan * years)).
Proof.
  intros Hv Hq Hb Hy.
  destruct (breakdown_loop_exact plan Hv Hq [] (PyInt 0) 0)
    as (cd & tot & Hl & Ht); [now left | lia | lia |].
  rewrite Z.add_0_l in Ht.
  pose proof (entries_cost_int_nonnegative plan Hq) as H0.
  assert (Hrange : quantities_in_range plan).
  { apply bounded_in_float_range, quantities_of_bounded_cost; assumption. }
  destruct (calculate_efficiency_score_in_range
              plan Binary64.default_usage_hours Hv Hrange) as [m Hm].
  assert (Htr : in_float_range tot).
  { destruct Ht as [->| ->]; [|exact I].
    unfold in_float_range, int_in_float_range.
    assert ((2 ^ 53 < 2 ^ 1023)%Z) by reflexivity. lia. }
  assert (Hyr : in_float_range (PyInt years)).
  { unfold in_float_range, int_in_float_range.
    assert ((2 ^ 53 < 2 ^ 1023)%Z) by reflexivity. lia. }
  destruct (mul_in_range tot (PyInt years) Htr Hyr) as [t5 Ht5].
  eexists. unfold Binary64.generate_cost_breakdown.
  rewrite Hl. cbn [bind]. rewrite Ht5. cbn [bind]. rewrite Hm. cbn [bind].
  split; [reflexivity|].
  cbn [Binary64.total_annual_cost Binary64.total_5year_cost].
  split; [exact Ht|]. intro Hp.
  destruct Ht as [->| ->].
  - cbn [mul] in Ht5. injection Ht5 as <-. now left.
  - rewrite mul_whole_int in Ht5 by nia. injection Ht5 as <-. now right.
Qed.

(** X13: the analyzer, in binary64, and the optimizer agree on what a plan
    costs: on a dictionary of catalog keys whose quantities are not
    negative and whose cost in the optimizer's sense is below 2^53,
    [total_annual_cost] of [generate_cost_breakdown] equals the row of
    [A_ub] applied to the plan, so the plan costs at most a budget in the
    optimizer's sense exactly when the analysis reports at most that
    budget. *)
Theorem analysis_total_is_budget_row (plan : dict Z) (years : Z) :
  is_dict plan -> valid_config plan ->
  Forall (fun entry => (0 <= snd entry)%Z) plan ->
  dot unit_costs (plan_vector plan) < inject_Z (2 ^ 53) ->
  (0 <= years < 2 ^ 53)%Z ->
  exists analysis z,
    Binary64.generate_cost_breakdown plan (PyInt years) = Ok analysis
    /\ equals_int (Binary64.total_annual_cost analysis) z
    /\ inject_Z z == dot unit_costs (plan_vector plan)
    /\ forall budget,
        costs_at_most plan budget <-> inject_Z z <= budget.
Proof.
  intros Hd Hv Hq Hb Hy.
  assert (E : inject_Z (entries_cost_int plan)
              == dot unit_costs (plan_vector plan)).
  { rewrite entries_cost_int_exact. symmetry.
    apply budget_row_of_entries; assumption. }
  assert (Hb' : (entries_cost_int plan < 2 ^ 53)%Z).
  { rewrite Zlt_Qlt, E. exact Hb. }
  destruct (generate_cost_breakdown_exact plan years Hv Hq Hb' Hy)
    as (a & Ha & Ht & _).
  exists a, (entries_cost_int plan).
  split; [exact Ha|]. split; [exact Ht|]. split; [exact E|].
  intro budget. unfold costs_at_most. rewrite budget_row_eq, E. split.
  - intros (row & Hrow & H). inversion Hrow; subst. exact H.
  - intro H. eauto.
Qed.

Lemma analysis_total_is_budget_row_witness :
  exists analysis z,
    Binary64.generate_cost_breakdown
      [("backup_drone"%string, 2%Z); ("gps_tracker"%string, 5%Z);
       ("portable_gps"%string, 4%Z)] (PyInt 5) = Ok analysis
    /\ equals_int (Binary64.total_annual_cost analysis) z
    /\ inject_Z z
       == dot unit_costs
              (plan_vector
                 [("backup_drone"%string, 2%Z); ("gps_tracker"%string, 5%Z);
                  ("portable_gps"%string, 4%Z)])
    /\ forall budget,
        costs_at_most
          [("backup_drone"%string, 2%Z); ("gps_tracker"%string, 5%Z);
           ("portable_gps"%string, 4%Z)] budget
        <-> inject_Z z <= budget.
Proof.
  apply (analysis_total_is_budget_row
           [("backup_drone"%string, 2%Z); ("gps_tracker"%string, 5%Z);
            ("portable_gps"%string, 4%Z)] 5).
  - repeat constructor; simpl; intuition discriminate.
  - intros k [<-|[<-|[<-|[]]]]; vm_compute; auto.
  - repeat constructor; simpl; lia.
  - reflexivity.
  - lia.
Defined.

(** X14: with a solver that reports success only with a solution and a budget
    below 2^53, the analysis, in binary64, of a plan found by the solver
    reports an annual cost of at most the budget, and over a whole number
    of years a total of at most the budget times the years, while that
    total stays below 2^53. *)
Theorem optimized_plan_analysis_within_budget
        (linprog : Solver) (budget : Q) (priority : string) (years : Z) :
  solver_sound linprog -> budget < inject_Z (2 ^ 53) ->
  (0 <= years < 2 ^ 53)%Z ->
  exists r plan analysis,
    solve linprog budget priority = Ok r
    /\ optimize_equipment_selection linprog budget priority = Ok plan
    /\ Binary64.generate_cost_breakdown plan (PyInt years) = Ok analysis
    /\ (success r = true ->
        exists z,
          equals_int (Binary64.total_annual_cost analysis) z
          /\ inject_Z z <= budget
          /\ ((z * years < 2 ^ 53)%Z ->
              equals_int (Binary64.total_5year_cost analysis) (z * years)
              /\ inject_Z (z * years) <= budget * inject_Z years)).
Proof.
  intros Hs Hbud Hy.
  destruct (solve_returns linprog budget priority) as (c & _ & Hr).
  destruct (optimize_outcome linprog budget priority (sound_shaped _ Hs))
    as (r & Hr' & Hp).
  rewrite Hr in Hr'. inversion Hr' as [Er]. subst r. clear Hr'.
  exists (linprog c [unit_costs] [budget] bounds_list).
  destruct (success (linprog c [unit_costs] [budget] bounds_list)) eqn:E.
  - pose proof (Hs _ _ _ _ E) as Hsol.
    destruct (plan_vector_of_solution budget _ Hsol) as (_ & _ & Hcost).
    destruct (picked_valid (x (linprog c [unit_costs] [budget] bounds_list)))
      as [Hd Hv].
    assert (Hq : Forall (fun entry => (0 <= snd entry)%Z)
                        (picked equipment_list
                           (x (linprog c [unit_costs] [budget] bounds_list)))).
    { destruct Hsol as (_ & Hi & _).
      eapply Forall_impl; [|exact (picked_positive equipment_list _ Hi)].
      simpl. intros a H. lia. }
    destruct Hcost as (row & Hrow & Hle).
    rewrite budget_row_eq in Hrow. inversion Hrow; subst row.
    set (plan := picked equipment_list
                        (x (linprog c [unit_costs] [budget] bounds_list))) in *.
    assert (Eq : inject_Z (entries_cost_int plan)
                 == dot unit_costs (plan_vector plan)).
    { rewrite entries_cost_int_exact. symmetry.
      apply budget_row_of_entries; assumption. }
    assert (Hb' : (entries_cost_int plan < 2 ^ 53)%Z).
    { rewrite Zlt_Qlt, Eq. lra. }
    destruct (generate_cost_breakdown_exact plan years Hv Hq Hb' Hy)
      as (a & Ha & Ht & H5).
    exists plan, a.
    split; [exact Hr|]. split; [exact Hp|]. split; [exact Ha|].
    intros _. exists (entries_cost_int plan).
    split; [exact Ht|]. split; [rewrite Eq; exact Hle|].
    intro Hprod. split; [exact (H5 Hprod)|].
    rewrite inject_Z_mult, Eq.
    assert (0 <= inject_Z years).
    { change 0 with (inject_Z 0). rewrite <- Zle_Qle. lia. }
    nra.
  - destruct (fallback_valid budget) as (_ & Hv & Hpos).
    assert (Hrange : quantities_in_range (get_fallback_solution budget)).
    { unfold get_fallback_solution.
      destruct (lt budget 100000); [|destruct (lt budget 300000)];
        repeat constructor. }
    assert (Hyr : in_float_range (PyInt years)).
    { unfold in_float_range, int_in_float_range.
      assert ((2 ^ 53 < 2 ^ 1023)%Z) by reflexivity. lia. }
    destruct (generate_cost_breakdown_in_range
                (get_fallback_solution budget) (PyInt years) Hv Hrange Hyr)
      as [a Ha].
    eexists. exists a.
    split; [exact Hr|]. split; [exact Hp|]. split; [exact Ha|]. discriminate.
Qed.

Lemma optimized_plan_analysis_within_budget_witness :
  exists r plan analysis,
    solve linprog_exhaustive 200000 "efficiency" = Ok r
    /\ optimize_equipment_selection linprog_exhaustive 200000 "efficiency"
       = Ok plan
    /\ Binary64.generate_cost_breakdown plan (PyInt 5) = Ok analysis
    /\ (success r = true ->
        exists z,
          equals_int (Binary64.total_annual_cost analysis) z
          /\ inject_Z z <= 200000
          /\ ((z * 5 < 2 ^ 53)%Z ->
              equals_int (Binary64.total_5year_cost analysis) (z * 5)
              /\ inject_Z (z * 5) <= 200000 * inject_Z 5)).
Proof.
  apply (optimized_plan_analysis_within_budget
           linprog_exhaustive 200000 "efficiency" 5).
  - exact linprog_exhaustive_sound.
  - reflexivity.
  - lia.
Defined.

(* ================================================================== *)
(** ** Binary64: the error of one rounding *)
(* ================================================================== *)

(** [round] moves a number by at most one half. *)
Lemma round_error (x : Q) :
  - (1 # 2) <= inject_Z (round x) - x <= 1 # 2.
Proof.
  pose proof (Qfloor_le x) as Hlo.
  pose proof (Qlt_floor x) as Hhi. rewrite inject_Z_plus in Hhi.
  change (inject_Z 1) with 1 in Hhi.
  unfold round.
  destruct (lt (x - inject_Z (Qfloor x)) (1 # 2)) eqn:L1.
  - apply lt_iff in L1. split; lra.
  - apply lt_false_iff in L1.
    destruct (lt (1 # 2) (x - inject_Z (Qfloor x))) eqn:L2.
    + apply lt_iff in L2. rewrite inject_Z_plus.
      change (inject_Z 1) with 1. split; lra.
    + apply lt_false_iff in L2.
      destruct (Z.even (Qfloor x)).
      * split; lra.
      * rewrite inject_Z_plus. change (inject_Z 1) with 1. split; lra.
Qed.

(** [ilog2] does not overshoot. *)
Lemma ilog2_le (x : Q) : 0 < x -> pow2 (ilog2 x) <= x.
Proof.
  intro Hx. unfold ilog2.
  destruct (Qle_bool _ x) eqn:E; [now apply Qle_bool_iff|].
  destruct x as [n d]. cbn [Qnum Qden].
  assert (Hn : (0 < n)%Z).
  { unfold Qlt in Hx. simpl in Hx. lia. }
  set (a := Z.log2 n). set (b := Z.log2 (Z.pos d)).
  assert (Ha : (0 <= a)%Z) by apply Z.log2_nonneg.
  assert (Hb : (0 <= b)%Z) by apply Z.log2_nonneg.
  assert (Hna : (2 ^ a <= n)%Z) by (apply Z.log2_spec; exact Hn).
  assert (Hdb : (Z.pos d < 2 ^ (b + 1))%Z).
  { replace (b + 1)%Z with (Z.succ b) by lia. apply Z.log2_spec. lia. }
  assert (Hsplit : pow2 (a - b - 1) * pow2 (b + 1) == inject_Z (2 ^ a)).
  { rewrite <- pow2_add. replace (a - b - 1 + (b + 1))%Z with a by lia.
    unfold pow2. destruct (Z.leb_spec 0 a); [reflexivity | lia]. }
  assert (Hpb : pow2 (b + 1) = inject_Z (2 ^ (b + 1))).
  { unfold pow2. destruct (Z.leb_spec 0 (b + 1)); [reflexivity | lia]. }
  pose proof (pow2_pos (a - b - 1)) as Hpos.
  rewrite (Qmake_Qdiv n d).
  apply Qle_shift_div_l.
  { change 0 with (inject_Z 0). rewrite <- Zlt_Qlt. lia. }
  apply Qle_trans with (pow2 (a - b - 1) * pow2 (b + 1)).
  - apply Qmult_le_l; [exact Hpos|]. rewrite Hpb, <- Zle_Qle. lia.
  - rewrite Hsplit, <- Zle_Qle. exact Hna.
Qed.

Lemma rnd_zero (x : Q) : x == 0 -> rnd x = Finite 0.
Proof.
  intro H. unfold rnd. rewrite (Qred_complete x 0 H). reflexivity.
Qed.

(** In the range of the normal doubles a rounding moves a number by at most
    the fraction [2 ** -53] of its magnitude, and the result is finite. *)
Lemma rnd_relative_error (x : Q) :
  pow2 (-1022) <= Qabs x -> Qabs x <= pow2 1023 ->
  exists r, rnd x = Finite r /\ Qabs (r - x) <= Qabs x * unit_roundoff.
Proof.
  intros Hlo Hhi.
  assert (Hpos : 0 < Qabs x).
  { apply Qlt_le_trans with (pow2 (-1022)); [apply pow2_pos | exact Hlo]. }
  unfold rnd.
  assert (Hred : Qred x == x) by apply Qred_correct.
  set (x' := Qred x) in *.
  assert (Hnz : Qeq_bool x' 0 = false).
  { destruct (Qeq_bool x' 0) eqn:E; [|reflexivity].
    apply Qeq_bool_iff in E. rewrite Hred in E. rewrite E in Hpos.
    discriminate. }
  rewrite Hnz.
  assert (Habs : Qabs x' == Qabs x) by (now rewrite Hred).
  set (s := ulp_exponent x').
  pose proof (pow2_pos s) as Hps.
  assert (Hulp : (1 # 2) * pow2 s <= Qabs x * unit_roundoff).
  { unfold s, ulp_exponent.
    destruct (Z.max_spec (ilog2 (Qabs x') - 52) (-1074)) as [[_ ->]|[_ ->]].
    - setoid_replace ((1 # 2) * pow2 (-1074))
        with (pow2 (-1022) * unit_roundoff) by reflexivity.
      apply Qmult_le_compat_r; [exact Hlo | discriminate].
    - replace (ilog2 (Qabs x') - 52)%Z with (ilog2 (Qabs x') + (-52))%Z by lia.
      rewrite pow2_add.
      setoid_replace ((1 # 2) * (pow2 (ilog2 (Qabs x')) * pow2 (-52)))
        with (pow2 (ilog2 (Qabs x')) * unit_roundoff)
        by (unfold unit_roundoff; change (pow2 (-52)) with (1 # 4503599627370496); ring).
      apply Qmult_le_compat_r; [|discriminate].
      rewrite <- Habs. apply ilog2_le. now rewrite Habs. }
  set (m := round (x' / pow2 s)).
  pose proof (round_error (x' / pow2 s)) as Hm. fold m in Hm.
  assert (Hr : Qred (inject_Z m * pow2 s) == inject_Z m * pow2 s)
    by apply Qred_correct.
  set (r := Qred (inject_Z m * pow2 s)) in *.
  assert (Hdist : Qabs (r - x) <= (1 # 2) * pow2 s).
  { apply Qabs_Qle_condition. rewrite Hr, <- Hred.
    assert (E : x' == x' / pow2 s * pow2 s).
    { field. intro H0. rewrite H0 in Hps. discriminate. }
    set (y := x' / pow2 s) in *.
    rewrite E. clearbody y. clear E. split; nra. }
  assert (Hfin : Qle_bool (pow2 1024) (Qabs r) = false).
  { destruct (Qle_bool _ _) eqn:E; [|reflexivity]. exfalso.
    apply Qle_bool_iff in E.
    assert (Htri : Qabs r <= Qabs x + Qabs (r - x)).
    { setoid_replace r with (x + (r - x)) at 1 by ring. apply Qabs_triangle. }
    assert (Hdouble : pow2 1024 == 2 * pow2 1023) by reflexivity.
    assert (Hu : Qabs x * unit_roundoff <= Qabs x * (1 # 2)).
    { apply Qmult_le_l; [exact Hpos | discriminate]. }
    pose proof (pow2_pos 1023).
    set (P := pow2 1023) in *. set (P' := pow2 1024) in *.
    clearbody P P'. lra. }
  rewrite Hfin. exists r. split; [reflexivity|].
  apply Qle_trans with ((1 # 2) * pow2 s); assumption.
Qed.

(* ================================================================== *)
(** ** The scorer on Python numbers: how far from the exact sums *)
(* ================================================================== *)

Lemma unit_roundoff_range : 0 < unit_roundoff /\ unit_roundoff <= 1 # 1000000.
Proof. split; reflexivity || discriminate. Qed.

(** A rounding of a number between 2^-10 and 2^64. *)
Lemma rnd_positive (x : Q) :
  1 # 1024 <= x -> x <= inject_Z (2 ^ 64) ->
  exists r,
    rnd x = Finite r
    /\ - (x * unit_roundoff) <= r - x <= x * unit_roundoff.
Proof.
  intros Hlo Hhi.
  assert (Hx : 0 <= x) by lra.
  destruct (rnd_relative_error x) as (r & Hr & He).
  - rewrite (Qabs_pos x Hx).
    apply Qle_trans with (1 # 1024); [|exact Hlo].
    apply Qle_bool_iff. vm_compute. reflexivity.
  - rewrite (Qabs_pos x Hx).
    apply Qle_trans with (inject_Z (2 ^ 64)); [exact Hhi|].
    apply Qle_bool_iff. vm_compute. reflexivity.
  - exists r. split; [exact Hr|].
    rewrite (Qabs_pos x Hx) in He. apply Qabs_Qle_condition in He. exact He.
Qed.

(** The gains of the catalog are between 1/4 and 1. *)
Lemma catalog_gains :
  Forall (fun item =>
            let e := snd item in
            (1 # 4 <= efficiency_gain e /\ efficiency_gain e <= 1)
            /\ (1 # 4 <= response_time_reduction e
                /\ response_time_reduction e <= 1))
         all_equipment.
Proof. repeat constructor; discriminate. Qed.

(** A literal between 1/10 and 1 as a float. *)
Lemma literal_accuracy (c : Q) :
  1 # 10 <= c -> c <= 1 ->
  exists g,
    literal c = Finite g
    /\ - (c * unit_roundoff) <= g - c <= c * unit_roundoff.
Proof.
  intros Hlo Hhi. apply rnd_positive; [lra|].
  apply Qle_trans with 1; [exact Hhi | discriminate].
Qed.

Lemma inject_Z_bound (q : Z) :
  (0 <= q < 2 ^ 53)%Z ->
  0 <= inject_Z q /\ inject_Z q <= inject_Z (2 ^ 53)
  /\ (q = 0%Z \/ 1 <= inject_Z q).
Proof.
  intro H. split; [|split].
  - change 0 with (inject_Z 0). rewrite <- Zle_Qle. lia.
  - rewrite <- Zle_Qle. lia.
  - destruct (Z.eq_dec q 0) as [->|Hnz]; [now left | right].
    change 1 with (inject_Z 1). rewrite <- Zle_Qle. lia.
Qed.

(** One product gain x quantity, for a gain between 1/10 and 1 and a
    quantity from 0 to below 2^53. *)
Lemma product_accuracy (c : Q) (q : Z) :
  1 # 10 <= c -> c <= 1 -> (0 <= q < 2 ^ 53)%Z ->
  exists p,
    mul (PyFloat (literal c)) (PyInt q) = Ok (PyFloat (Finite p))
    /\ - (3 * unit_roundoff * (c * inject_Z q)) <= p - c * inject_Z q
    /\ p - c * inject_Z q <= 3 * unit_roundoff * (c * inject_Z q).
Proof.
  intros Hlo Hhi Hq.
  destruct (literal_accuracy c Hlo Hhi) as (g & Hg & Hge).
  destruct (inject_Z_bound q Hq) as (Hq0 & Hq1 & Hq2).
  destruct unit_roundoff_range as [Hu0 Hu1].
  cbn [mul to_float]. rewrite (float_of_int_exact q) by lia.
  cbn [bind]. rewrite Hg. cbn [fmul].
  destruct Hq2 as [->|Hq2].
  - exists 0. split.
    + rewrite rnd_zero; [reflexivity|]. change (inject_Z 0) with 0. ring.
    + change (inject_Z 0) with 0. split; lra.
  - assert (Hcu : 0 <= c * unit_roundoff /\ c * unit_roundoff <= unit_roundoff).
    { set (u := unit_roundoff) in *. clearbody u. split; nra. }
    assert (Hg0 : 1 # 16 <= g /\ g <= 2) by (split; lra).
    destruct (rnd_positive (g * inject_Z q)) as (p & Hp & Hpe).
    + set (z := inject_Z q) in *. clearbody z.
      assert (g * 1 <= g * z) by (apply Qmult_le_l; lra). lra.
    + assert (E : inject_Z (2 ^ 64) == 2048 * inject_Z (2 ^ 53)) by reflexivity.
      rewrite E.
      set (z := inject_Z q) in *. set (B := inject_Z (2 ^ 53)) in *.
      clearbody z B.
      assert (g * z <= 2 * z) by (apply Qmult_le_compat_r; lra). lra.
    + exists p. split; [now rewrite Hp|].
      set (u := unit_roundoff) in *. clearbody u.
      set (z := inject_Z q) in *. clearbody z.
      assert (Hcz : 0 <= c * z) by nra.
      assert (Hgz1 : g * z <= c * z * (1 + u)) by nra.
      assert (Hgz2 : c * z * (1 - u) <= g * z) by nra.
      assert (Hgz0 : 0 <= g * z) by nra.
      split; nra.
Qed.

(** One rounded sum of an accumulator and a term that are both within the
    fraction [eps] of their exact values. *)
Lemma sum_accuracy (a p S t eps : Q) :
  0 <= S -> 0 <= t -> (S + t == 0 \/ 1 # 16 <= S + t) ->
  S + t <= inject_Z (2 ^ 63) ->
  0 <= eps -> eps <= 1 # 4 ->
  - (S * eps) <= a - S -> a - S <= S * eps ->
  - (t * eps) <= p - t -> p - t <= t * eps ->
  exists r,
    rnd (a + p) = Finite r
    /\ - ((S + t) * (eps + 2 * unit_roundoff)) <= r - (S + t)
    /\ r - (S + t) <= (S + t) * (eps + 2 * unit_roundoff).
Proof.
  intros HS Ht Hz Hmax He0 He1 Ha1 Ha2 Hp1 Hp2.
  destruct unit_roundoff_range as [Hu0 Hu1].
  destruct Hz as [Hz|Hz].
  - assert (S == 0) by lra. assert (t == 0) by lra.
    exists 0. split.
    + apply rnd_zero. nra.
    + split; nra.
  - destruct (rnd_positive (a + p)) as (r & Hr & Hre).
    + nra.
    + assert (E : inject_Z (2 ^ 64) == 2 * inject_Z (2 ^ 63)) by reflexivity.
      rewrite E. set (B := inject_Z (2 ^ 63)) in *. clearbody B. nra.
    + exists r. split; [exact Hr|].
      set (u := unit_roundoff) in *. clearbody u.
      assert (Hx1 : a + p <= (S + t) * (1 + eps)) by nra.
      assert (Hx2 : (S + t) * (1 - eps) <= a + p) by nra.
      assert (Hx0 : 0 <= a + p) by nra.
      assert (HST : 0 <= S + t) by lra.
      split; nra.
Qed.

Lemma Qmult_le_l' (z x y : Q) : 0 <= z -> x <= y -> z * x <= z * y.
Proof.
  intros Hz Hxy. rewrite (Qmult_comm z x), (Qmult_comm z y).
  apply Qmult_le_compat_r; assumption.
Qed.

Lemma sum_error_succ (n : nat) :
  sum_error (S n) == sum_error n + 2 * unit_roundoff.
Proof.
  unfold sum_error.
  replace (2 * Z.of_nat (S n) + 4)%Z with ((2 * Z.of_nat n + 4) + 2)%Z by lia.
  rewrite inject_Z_plus. change (inject_Z 2) with 2. ring.
Qed.

Lemma sum_error_range (n : nat) :
  (n <= 1000)%nat ->
  4 * unit_roundoff <= sum_error n /\ sum_error n <= 1 # 100.
Proof.
  intro H. unfold sum_error.
  assert (H1 : 4 <= inject_Z (2 * Z.of_nat n + 4)).
  { change 4 with (inject_Z 4). rewrite <- Zle_Qle. lia. }
  assert (H2 : inject_Z (2 * Z.of_nat n + 4) <= 2004).
  { change 2004 with (inject_Z 2004). rewrite <- Zle_Qle. lia. }
  destruct unit_roundoff_range as [Hu0 Hu1].
  set (u := unit_roundoff) in *. clearbody u.
  set (z := inject_Z (2 * Z.of_nat n + 4)) in *. clearbody z.
  split; nra.
Qed.

(** The running total of the loop meets a float term. *)
Lemma add_accumulator (acc : number) (a p : Q) :
  (acc = PyInt 0 /\ a = 0) \/ acc = PyFloat (Finite a) ->
  add acc (PyFloat (Finite p)) = Ok (PyFloat (rnd (a + p))).
Proof.
  intros [[-> ->]| ->]; cbn [add to_float].
  - rewrite (float_of_int_exact 0) by reflexivity. reflexivity.
  - reflexivity.
Qed.

Lemma mul_accumulator (acc : number) (a g : Q) :
  (acc = PyInt 0 /\ a = 0) \/ acc = PyFloat (Finite a) ->
  mul acc (PyFloat (Finite g)) = Ok (PyFloat (rnd (a * g))).
Proof.
  intros [[-> ->]| ->]; cbn [mul to_float].
  - rewrite (float_of_int_exact 0) by reflexivity. reflexivity.
  - reflexivity.
Qed.

(** The loop of one rounded sum: after [n] entries the running total is
    within the fraction [sum_error n] of the exact sum. *)
Lemma rounded_sum_accuracy (attr : Equipment -> Q) :
  (forall k e, find k all_equipment = Some e ->
               1 # 4 <= attr e /\ attr e <= 1) ->
  forall config,
    valid_config config ->
    Forall (fun entry => (0 <= snd entry < 2 ^ 53)%Z) config ->
    forall acc a S n,
      (acc = PyInt 0 /\ a = 0) \/ acc = PyFloat (Finite a) ->
      0 <= S -> (S == 0 \/ 1 # 4 <= S) ->
      S <= inject_Z (Z.of_nat n) * inject_Z (2 ^ 53) ->
      (n + List.length config <= 1000)%nat ->
      - (S * sum_error n) <= a - S -> a - S <= S * sum_error n ->
      exists acc' a',
        for_each config (rounded_term attr) acc = Ok acc'
        /\ ((acc' = PyInt 0 /\ a' = 0) \/ acc' = PyFloat (Finite a'))
        /\ 0 <= S + weighted_sum attr config
        /\ (S + weighted_sum attr config == 0
            \/ 1 # 4 <= S + weighted_sum attr config)
        /\ - ((S + weighted_sum attr config)
              * sum_error (n + List.length config))
           <= a' - (S + weighted_sum attr config)
        /\ a' - (S + weighted_sum attr config)
           <= (S + weighted_sum attr config)
              * sum_error (n + List.length config).
Proof.
  intros Hattr.
  induction config as [|[k q] rest IH];
    intros Hv Hq acc a S n Hacc HS Hz Hmax Hlen Ha1 Ha2.
  - exists acc, a. cbn [for_each weighted_sum List.length].
    rewrite Nat.add_0_r.
    split; [reflexivity|]. split; [exact Hacc|].
    split; [lra|]. split; [destruct Hz; [left|right]; lra|].
    split; nra.
  - apply valid_config_cons in Hv. destruct Hv as [Hk Hv].
    inversion Hq as [|? ? Hq0 Hqs]; subst. cbn [snd] in Hq0.
    apply in_catalog_find in Hk. destruct Hk as [e He].
    destruct (Hattr k e He) as [Hc1 Hc2].
    cbn [List.length] in Hlen |- *.
    destruct (sum_error_range n) as [He1 He2]; [lia|].
    destruct unit_roundoff_range as [Hu0 Hu1].
    destruct (product_accuracy (attr e) q) as (p & Hp & Hp1 & Hp2);
      [lra | exact Hc2 | exact Hq0 |].
    destruct (inject_Z_bound q Hq0) as (Hz0 & Hz1 & Hz2).
    set (t := attr e * inject_Z q) in *.
    assert (Ht0 : 0 <= t) by (unfold t; nra).
    assert (Ht1 : t <= inject_Z (2 ^ 53)).
    { unfold t. set (z := inject_Z q) in *. clearbody z. nra. }
    assert (Ht2 : t == 0 \/ 1 # 4 <= t).
    { destruct Hz2 as [->|Hz2].
      - left. unfold t. change (inject_Z 0) with 0. ring.
      - right. unfold t. set (z := inject_Z q) in *. clearbody z. nra. }
    assert (Hn : inject_Z (Z.of_nat n) <= 999).
    { change 999 with (inject_Z 999). rewrite <- Zle_Qle. lia. }
    assert (Hn0 : 0 <= inject_Z (Z.of_nat n)).
    { change 0 with (inject_Z 0). rewrite <- Zle_Qle. lia. }
    assert (HB : inject_Z (2 ^ 63) == 1024 * inject_Z (2 ^ 53)) by reflexivity.
    assert (HB0 : 0 < inject_Z (2 ^ 53)) by reflexivity.
    destruct (sum_accuracy a p S t (sum_error n)) as (r & Hr & Hr1 & Hr2);
      try assumption.
    { destruct Hz as [Hz|Hz], Ht2 as [Ht2|Ht2]; [left|right|right|right]; lra. }
    { rewrite HB. set (B := inject_Z (2 ^ 53)) in *. clearbody B.
      set (m := inject_Z (Z.of_nat n)) in *. clearbody m. nra. }
    { lra. }
    { lra. }
    { set (u := unit_roundoff) in *. clearbody u.
      set (E := sum_error n) in *. clearbody E. nra. }
    { set (u := unit_roundoff) in *. clearbody u.
      set (E := sum_error n) in *. clearbody E. nra. }
    rewrite <- sum_error_succ in Hr1, Hr2.
    destruct (IH Hv Hqs (PyFloat (Finite r)) r (S + t) (Datatypes.S n))
      as (acc' & a' & Hl & Hacc' & H0 & H1 & H2 & H3).
    + now right.
    + lra.
    + destruct Hz as [Hz|Hz], Ht2 as [Ht2|Ht2]; [left|right|right|right]; lra.
    + rewrite Nat2Z.inj_succ. unfold Z.succ. rewrite inject_Z_plus.
      change (inject_Z 1) with 1.
      set (B := inject_Z (2 ^ 53)) in *. clearbody B.
      set (m := inject_Z (Z.of_nat n)) in *. clearbody m. nra.
    + lia.
    + exact Hr1.
    + exact Hr2.
    + exists acc', a'.
      cbn [for_each weighted_sum]. unfold rounded_term at 1. cbn [fst snd].
      rewrite He, Hp. cbn [bind].
      rewrite (add_accumulator acc a p Hacc). cbn [bind]. rewrite Hr.
      fold t. rewrite <- Nat.add_succ_comm.
      split; [exact Hl|]. split; [exact Hacc'|].
      set (W := weighted_sum attr rest) in *. clearbody W.
      set (E := sum_error (Datatypes.S n + List.length rest)) in *. clearbody E.
      split; [lra|]. split; [destruct H1; [left|right]; lra|].
      split; nra.
Qed.

(** A total within the fraction [eps] of its exact value, times a literal
    between 1/10 and 1. *)
Lemma scaled_accuracy (acc : number) (a W c eps : Q) :
  (acc = PyInt 0 /\ a = 0) \/ acc = PyFloat (Finite a) ->
  0 <= W -> (W == 0 \/ 1 # 4 <= W) ->
  W <= 1000 * inject_Z (2 ^ 53) ->
  1 # 10 <= c -> c <= 1 -> 0 <= eps -> eps <= 1 # 100 ->
  - (W * eps) <= a - W -> a - W <= W * eps ->
  exists s,
    mul acc (PyFloat (literal c)) = Ok (PyFloat (Finite s))
    /\ - (c * W * (eps + 3 * unit_roundoff)) <= s - c * W
    /\ s - c * W <= c * W * (eps + 3 * unit_roundoff).
Proof.
  intros Hacc HW Hz Hmax Hc1 Hc2 He0 He1 Ha1 Ha2.
  destruct (literal_accuracy c Hc1 Hc2) as (g & Hg & Hg1 & Hg2).
  destruct unit_roundoff_range as [Hu0 Hu1].
  rewrite Hg, (mul_accumulator acc a g Hacc).
  assert (Hcu : 0 <= c * unit_roundoff /\ c * unit_roundoff <= unit_roundoff).
  { set (u := unit_roundoff) in *. clearbody u. split; nra. }
  assert (Hg0 : 1 # 16 <= g /\ g <= 2) by (split; lra).
  destruct Hz as [Hz|Hz].
  - assert (Ha : a == 0) by nra.
    exists 0. split.
    + rewrite rnd_zero; [reflexivity|]. rewrite Ha. ring.
    + split; nra.
  - assert (Ha0 : 3 # 16 <= a) by nra.
    assert (Ha3 : a <= 2 * W) by nra.
    destruct (rnd_positive (a * g)) as (s & Hs & Hs1 & Hs2).
    + nra.
    + assert (E : inject_Z (2 ^ 64) == 2048 * inject_Z (2 ^ 53)) by reflexivity.
      rewrite E. set (B := inject_Z (2 ^ 53)) in *. clearbody B. nra.
    + exists s. split; [now rewrite Hs|].
      set (u := unit_roundoff) in *. clearbody u.
      assert (HcW : 0 <= c * W) by nra.
      assert (Hg3 : g <= c * (1 + u)) by lra.
      assert (Hg4 : c * (1 - u) <= g) by lra.
      assert (Ha4 : a <= W * (1 + eps)) by lra.
      assert (Ha5 : W * (1 - eps) <= a) by lra.
      assert (Hag1 : a * g <= c * W * ((1 + eps) * (1 + u))).
      { apply Qle_trans with (W * (1 + eps) * g).
        - apply Qmult_le_compat_r; lra.
        - setoid_replace (c * W * ((1 + eps) * (1 + u)))
            with (W * (1 + eps) * (c * (1 + u))) by ring.
          apply Qmult_le_l; [nra | exact Hg3]. }
      assert (Hag2 : c * W * ((1 - eps) * (1 - u)) <= a * g).
      { apply Qle_trans with (W * (1 - eps) * g).
        - setoid_replace (c * W * ((1 - eps) * (1 - u)))
            with (W * (1 - eps) * (c * (1 - u))) by ring.
          apply Qmult_le_l; [nra | exact Hg4].
        - apply Qmult_le_compat_r; lra. }
      set (X := c * W) in *. clearbody X.
      set (Y := a * g) in *. clearbody Y.
      assert (HY0 : 0 <= Y) by nra.
      assert (K1 : (1 + eps) * (1 + u) * (1 + u) <= 1 + eps + 3 * u).
      { assert (u + 2 * eps + eps * u <= 1) by nra. nra. }
      assert (K2 : 1 - eps - 3 * u <= (1 - eps) * (1 - u) * (1 - u)).
      { assert (0 <= eps * u) by nra. assert (eps * u * u <= eps * u) by nra.
        assert (0 <= u * u) by nra. nra. }
      assert (Hs3 : s <= Y * (1 + u)) by lra.
      assert (Hs4 : Y * (1 - u) <= s) by lra.
      assert (Hup : Y * (1 + u) <= X * ((1 + eps) * (1 + u) * (1 + u))).
      { setoid_replace (X * ((1 + eps) * (1 + u) * (1 + u)))
          with (X * ((1 + eps) * (1 + u)) * (1 + u)) by ring.
        apply Qmult_le_compat_r; lra. }
      assert (Hdn : X * ((1 - eps) * (1 - u) * (1 - u)) <= Y * (1 - u)).
      { setoid_replace (X * ((1 - eps) * (1 - u) * (1 - u)))
          with (X * ((1 - eps) * (1 - u)) * (1 - u)) by ring.
        apply Qmult_le_compat_r; lra. }
      assert (Hup2 : X * ((1 + eps) * (1 + u) * (1 + u))
                     <= X * (1 + eps + 3 * u)).
      { apply Qmult_le_l'; [exact HcW | exact K1]. }
      assert (Hdn2 : X * (1 - eps - 3 * u)
                     <= X * ((1 - eps) * (1 - u) * (1 - u))).
      { apply Qmult_le_l'; [exact HcW | exact K2]. }
      split; lra.
Qed.

Lemma weighted_sum_upper (attr : Equipment -> Q) :
  (forall k e, find k all_equipment = Some e ->
               1 # 4 <= attr e /\ attr e <= 1) ->
  forall config,
    Forall (fun entry => (0 <= snd entry < 2 ^ 53)%Z) config ->
    weighted_sum attr config
    <= inject_Z (Z.of_nat (List.length config)) * inject_Z (2 ^ 53).
Proof.
  intros Hattr. induction config as [|[k q] rest IH]; intro Hq.
  - discriminate.
  - inversion Hq as [|? ? Hq0 Hqs]; subst. cbn [snd] in Hq0.
    specialize (IH Hqs). cbn [weighted_sum List.length].
    rewrite Nat2Z.inj_succ. unfold Z.succ. rewrite inject_Z_plus.
    change (inject_Z 1) with 1.
    assert (HB0 : 0 < inject_Z (2 ^ 53)) by reflexivity.
    destruct (inject_Z_bound q Hq0) as (Hz0 & Hz1 & _).
    set (B := inject_Z (2 ^ 53)) in *. clearbody B.
    set (m := inject_Z (Z.of_nat (List.length rest))) in *. clearbody m.
    set (z := inject_Z q) in *. clearbody z.
    set (W := weighted_sum attr rest) in *. clearbody W.
    destruct (find k all_equipment) as [e|] eqn:E; [|lra].
    destruct (Hattr k e E) as [Hc1 Hc2].
    assert (attr e * z <= 1 * z) by (apply Qmult_le_compat_r; lra).
    lra.
Qed.

(** X20: how far the scores are from the exact sums.  On a configuration of
    up to 1000 entries whose keys are all in the catalog and whose
    quantities are from 0 to below 2^53, [efficiency_score] and
    [response_improvement] are within the fraction (2 n + 4) x 2^-53 of the
    exact sums of efficiency_gain x quantity and of
    response_time_reduction x quantity, n being the number of entries, and
    [overall_score] is within the fraction (2 n + 9) x 2^-53 of
    0.6 x the first exact sum + 0.4 x the second. *)
Theorem efficiency_score_accuracy
        (config : dict Z) (usage_hours : number) :
  valid_config config ->
  Forall (fun entry => (0 <= snd entry < 2 ^ 53)%Z) config ->
  (List.length config <= 1000)%nat ->
  exists m e r o,
    Binary64.calculate_efficiency_score config usage_hours = Ok m
    /\ value_of (Binary64.efficiency_score m) = Some e
    /\ value_of (Binary64.response_improvement m) = Some r
    /\ value_of (Binary64.overall_score m) = Some o
    /\ Qabs (e - weighted_sum efficiency_gain config)
       <= weighted_sum efficiency_gain config
          * sum_error (List.length config)
    /\ Qabs (r - weighted_sum response_time_reduction config)
       <= weighted_sum response_time_reduction config
          * sum_error (List.length config)
    /\ Qabs (o - (0.6 * weighted_sum efficiency_gain config
                  + 0.4 * weighted_sum response_time_reduction config))
       <= (0.6 * weighted_sum efficiency_gain config
           + 0.4 * weighted_sum response_time_reduction config)
          * (sum_error (List.length config) + 5 * unit_roundoff).
Proof.
  intros Hv Hq Hlen.
  assert (Hge : forall k e, find k all_equipment = Some e ->
                            1 # 4 <= efficiency_gain e
                            /\ efficiency_gain e <= 1).
  { intros k e H. pose proof catalog_gains as R. rewrite Forall_forall in R.
    exact (proj1 (R _ (find_In _ _ _ H))). }
  assert (Hgr : forall k e, find k all_equipment = Some e ->
                            1 # 4 <= response_time_reduction e
                            /\ response_time_reduction e <= 1).
  { intros k e H. pose proof catalog_gains as R. rewrite Forall_forall in R.
    exact (proj2 (R _ (find_In _ _ _ H))). }
  destruct (score_loop_sums config Hv (bounded_in_float_range config Hq)
                            (PyInt 0) (PyInt 0))
    as (te & tr & Hl & _ & _ & Hse & Hsr); try reflexivity.
  assert (Hstart : forall (attr : Equipment -> Q),
             (forall k e, find k all_equipment = Some e ->
                          1 # 4 <= attr e /\ attr e <= 1) ->
             exists acc' a',
               for_each config (rounded_term attr) (PyInt 0) = Ok acc'
               /\ ((acc' = PyInt 0 /\ a' = 0) \/ acc' = PyFloat (Finite a'))
               /\ 0 <= 0 + weighted_sum attr config
               /\ (0 + weighted_sum attr config == 0
                   \/ 1 # 4 <= 0 + weighted_sum attr config)
               /\ - ((0 + weighted_sum attr config)
                     * sum_error (0 + List.length config))
                  <= a' - (0 + weighted_sum attr config)
               /\ a' - (0 + weighted_sum attr config)
                  <= (0 + weighted_sum attr config)
                     * sum_error (0 + List.length config)).
  { intros attr Hattr.
    apply (rounded_sum_accuracy attr Hattr config Hv Hq (PyInt 0) 0 0 0%nat).
    - now left.
    - lra.
    - now left.
    - discriminate.
    - exact Hlen.
    - lra.
    - lra. }
  destruct (Hstart efficiency_gain Hge)
    as (te' & e & Hle & Hte & He0 & Hez & He1 & He2).
  destruct (Hstart response_time_reduction Hgr)
    as (tr' & r & Hlr & Htr & Hr0 & Hrz & Hr1 & Hr2).
  clear Hstart.
  rewrite Hse in Hle. injection Hle as <-.
  rewrite Hsr in Hlr. injection Hlr as <-.
  cbn [Nat.add] in He1, He2, Hr1, Hr2.
  pose proof (weighted_sum_upper efficiency_gain Hge config Hq) as Heu.
  pose proof (weighted_sum_upper response_time_reduction Hgr config Hq) as Hru.
  assert (Hn : inject_Z (Z.of_nat (List.length config)) <= 1000).
  { change 1000 with (inject_Z 1000). rewrite <- Zle_Qle. lia. }
  assert (Hn0 : 0 <= inject_Z (Z.of_nat (List.length config))).
  { change 0 with (inject_Z 0). rewrite <- Zle_Qle. lia. }
  assert (HB0 : 0 < inject_Z (2 ^ 53)) by reflexivity.
  assert (HB : inject_Z (2 ^ 63) == 1024 * inject_Z (2 ^ 53)) by reflexivity.
  destruct (sum_error_range (List.length config) Hlen) as [Hs1 Hs2].
  destruct unit_roundoff_range as [Hu0 Hu1].
  set (We := weighted_sum efficiency_gain config) in *.
  set (Wr := weighted_sum response_time_reduction config) in *.
  set (E := sum_error (List.length config)) in *.
  assert (HWe : 0 <= We) by lra.
  assert (HWr : 0 <= Wr) by lra.
  assert (HWez : We == 0 \/ 1 # 4 <= We) by (destruct Hez; [left|right]; lra).
  assert (HWrz : Wr == 0 \/ 1 # 4 <= Wr) by (destruct Hrz; [left|right]; lra).
  assert (HWeu : We <= 1000 * inject_Z (2 ^ 53)).
  { set (B := inject_Z (2 ^ 53)) in *. clearbody B.
    set (m := inject_Z (Z.of_nat (List.length config))) in *. clearbody m.
    nra. }
  assert (HWru : Wr <= 1000 * inject_Z (2 ^ 53)).
  { set (B := inject_Z (2 ^ 53)) in *. clearbody B.
    set (m := inject_Z (Z.of_nat (List.length config))) in *. clearbody m.
    nra. }
  destruct (scaled_accuracy te e We 0.6 E Hte HWe HWez HWeu)
    as (s6 & Hm6 & H61 & H62); try lra.
  destruct (scaled_accuracy tr r Wr 0.4 E Htr HWr HWrz HWru)
    as (s4 & Hm4 & H41 & H42); try lra.
  assert (Hsz : 0.6 * We + 0.4 * Wr == 0 \/ 1 # 16 <= 0.6 * We + 0.4 * Wr).
  { destruct HWez as [Hz1|Hz1], HWrz as [Hz2|Hz2];
      [left|right|right|right]; lra. }
  assert (Hsu : 0.6 * We + 0.4 * Wr <= inject_Z (2 ^ 63)).
  { rewrite HB. set (B := inject_Z (2 ^ 53)) in *. clearbody B. lra. }
  assert (C1 : 0 <= 0.6 * We) by lra.
  assert (C2 : 0 <= 0.4 * Wr) by lra.
  assert (C3 : 0 <= E + 3 * unit_roundoff) by lra.
  assert (C4 : E + 3 * unit_roundoff <= 1 # 4) by lra.
  assert (C5 : - (0.6 * We * (E + 3 * unit_roundoff)) <= s6 - 0.6 * We)
    by exact H61.
  assert (C6 : s6 - 0.6 * We <= 0.6 * We * (E + 3 * unit_roundoff))
    by exact H62.
  assert (C7 : - (0.4 * Wr * (E + 3 * unit_roundoff)) <= s4 - 0.4 * Wr)
    by exact H41.
  assert (C8 : s4 - 0.4 * Wr <= 0.4 * Wr * (E + 3 * unit_roundoff))
    by exact H42.
  destruct (sum_accuracy s6 s4 (0.6 * We) (0.4 * Wr)
                         (E + 3 * unit_roundoff)
                         C1 C2 Hsz Hsu C3 C4 C5 C6 C7 C8)
    as (o & Ho & Ho1 & Ho2).
  exists {| Binary64.efficiency_score := te;
            Binary64.response_improvement := tr;
            Binary64.overall_score := PyFloat (Finite o) |}, e, r, o.
  cbn [Binary64.efficiency_score Binary64.response_improvement
       Binary64.overall_score value_of].
  split.
  { unfold Binary64.calculate_efficiency_score. rewrite Hl. cbn [bind].
    rewrite Hm6. cbn [bind]. rewrite Hm4. cbn [bind add to_float fadd].
    rewrite Ho. reflexivity. }
  split; [destruct Hte as [[-> ->]| ->]; reflexivity|].
  split; [destruct Htr as [[-> ->]| ->]; reflexivity|].
  split; [reflexivity|].
  split; [apply Qabs_Qle_condition; split; lra|].
  split; [apply Qabs_Qle_condition; split; lra|].
  apply Qabs_Qle_condition.
  set (u := unit_roundoff) in *. clearbody u. clearbody E We Wr.
  split; lra.
Qed.

Lemma efficiency_score_accuracy_witness :
  exists m e r o,
    Binary64.calculate_efficiency_score
      [("backup_drone"%string, 2%Z); ("gps_tracker"%string, 5%Z);
       ("portable_gps"%string, 4%Z)] (PyInt 100) = Ok m
    /\ value_of (Binary64.efficiency_score m) = Some e
    /\ value_of (Binary64.response_improvement m) = Some r
    /\ value_of (Binary64.overall_score m) = Some o
    /\ Qabs (e - weighted_sum efficiency_gain
                   [("backup_drone"%string, 2%Z); ("gps_tracker"%string, 5%Z);
                    ("portable_gps"%string, 4%Z)])
       <= weighted_sum efficiency_gain
            [("backup_drone"%string, 2%Z); ("gps_tracker"%string, 5%Z);
             ("portable_gps"%string, 4%Z)]
          * sum_error 3
    /\ Qabs (r - weighted_sum response_time_reduction
                   [("backup_drone"%string, 2%Z); ("gps_tracker"%string, 5%Z);
                    ("portable_gps"%string, 4%Z)])
       <= weighted_sum response_time_reduction
            [("backup_drone"%string, 2%Z); ("gps_tracker"%string, 5%Z);
             ("portable_gps"%string, 4%Z)]
          * sum_error 3
    /\ Qabs (o - (0.6 * weighted_sum efficiency_gain
                          [("backup_drone"%string, 2%Z);
                           ("gps_tracker"%string, 5%Z);
                           ("portable_gps"%string, 4%Z)]
                  + 0.4 * weighted_sum response_time_reduction
                            [("backup_drone"%string, 2%Z);
                             ("gps_tracker"%string, 5%Z);
                             ("portable_gps"%string, 4%Z)]))
       <= (0.6 * weighted_sum efficiency_gain
                   [("backup_drone"%string, 2%Z); ("gps_tracker"%string, 5%Z);
                    ("portable_gps"%string, 4%Z)]
           + 0.4 * weighted_sum response_time_reduction
                     [("backup_drone"%string, 2%Z);
                      ("gps_tracker"%string, 5%Z);
                      ("portable_gps"%string, 4%Z)])
          * (sum_error 3 + 5 * unit_roundoff).
Proof.
  apply (efficiency_score_accuracy
           [("backup_drone"%string, 2%Z); ("gps_tracker"%string, 5%Z);
            ("portable_gps"%string, 4%Z)] (PyInt 100)).
  - intros k [<-|[<-|[<-|[]]]]; vm_compute; auto.
  - repeat constructor; simpl; lia.
  - simpl. lia.
Defined.
